(** * Client-side validation, submission and rendering scripts of the
      medical prediction platform: a shallow embedding and its properties.

    The scripts are browser JavaScript.  Every function below is transcribed
    from the script that defines it (the file and the function are named in
    the comment above each definition).  The DOM is modelled by the part of
    it the scripts read and write: elements found by id, their [value],
    their class list, the label that precedes them, and the submit control.

    Conventions of the embedding:
    - a JavaScript Number is an IEEE 754 binary64 value, [spec_float] with
      precision 53 and maximal exponent 1024, with the arithmetic and the
      comparisons of the standard library's executable specification;
    - a JavaScript string is a [string]; the scripts only search for ASCII
      patterns, and [toLowerCase] and white space are modelled on ASCII;
    - effects a handler performs (alerts, error banners, network requests)
      are returned as a list, in program order;
    - an object literal used as a table by field name is read by its own
      keys: the name or id of a form field is not the name of a member
      inherited from [Object.prototype], such as "constructor". *)

From Stdlib Require Import ZArith Lia Bool List String Ascii.
From Stdlib Require Import Floats.SpecFloat.
From stdpp Require Import base option list gmap strings.
Import ListNotations.

Local Open Scope string_scope.
Local Open Scope Z_scope.

(** ** The host language: numbers and strings *)

Module JS.

(** *** Numbers *)

Definition number : Type := spec_float.

Definition prec : Z := 53.
Definition emax : Z := 1024.

Definition NaN : number := S754_nan.

(** [isNaN(x)] *)
Definition isNaN (x : number) : bool :=
  match x with S754_nan => true | _ => false end.

(** [x < y], [x > y], [x <= y], [x >= y]: false as soon as one side is NaN;
    [x > y] is evaluated as [y < x]. *)
Definition lt (x y : number) : bool := SFltb x y.
Definition gt (x y : number) : bool := SFltb y x.
Definition le (x y : number) : bool := SFleb x y.
Definition ge (x y : number) : bool := SFleb y x.

(** [x === y] and [x !== y] on numbers *)
Definition strict_eq (x y : number) : bool := SFeqb x y.
Definition strict_ne (x y : number) : bool := negb (SFeqb x y).

Definition mul (x y : number) : number := SFmul prec emax x y.
Definition div (x y : number) : number := SFdiv prec emax x y.

(** The Number value of an integer. *)
Definition of_Z (z : Z) : number := binary_normalize prec emax z 0 false.

(** The Number value of [(-1)^neg * m * 10^e], rounded to nearest, ties to
    even: how a decimal literal of the source text or of a parsed string
    becomes a Number. *)
Definition of_decimal (neg : bool) (m : Z) (e : Z) : number :=
  match m with
  | Zpos p =>
      match e with
      | Zneg k => SFdiv prec emax (S754_finite neg p 0)
                    (S754_finite false (Pos.pow 10 k) 0)
      | _ => binary_round prec emax neg (p * Z.to_pos (10 ^ e))%positive 0
      end
  | _ => S754_zero neg
  end.

(** A literal [m.d] of the source with [k] digits after the point. *)
Definition lit (m : Z) (k : Z) : number :=
  of_decimal (m <? 0) (Z.abs m) (- k).

(** *** Strings *)

Fixpoint startsWith (p s : string) : bool :=
  match p, s with
  | EmptyString, _ => true
  | String a p', String b s' => Ascii.eqb a b && startsWith p' s'
  | String _ _, EmptyString => false
  end.

(** [s.includes(t)] *)
Fixpoint includes (s t : string) : bool :=
  startsWith t s ||
  match s with
  | EmptyString => false
  | String _ s' => includes s' t
  end.

Fixpoint drop (n : nat) (s : string) : string :=
  match n, s with
  | O, _ => s
  | S n', String _ s' => drop n' s'
  | S _, EmptyString => EmptyString
  end.

(** [s.replace(pat, rep)] with a string pattern: the first occurrence. *)
Fixpoint replace (s pat rep : string) : string :=
  if startsWith pat s then rep +:+ drop (String.length pat) s
  else match s with
       | EmptyString => EmptyString
       | String c s' => String c (replace s' pat rep)
       end.

Definition lower_ascii (c : ascii) : ascii :=
  let n := nat_of_ascii c in
  if (Nat.leb 65 n && Nat.leb n 90)%bool then ascii_of_nat (n + 32) else c.

(** [s.toLowerCase()] *)
Fixpoint toLowerCase (s : string) : string :=
  match s with
  | EmptyString => EmptyString
  | String c s' => String (lower_ascii c) (toLowerCase s')
  end.

(** [l.join(sep)] *)
Fixpoint join (sep : string) (l : list string) : string :=
  match l with
  | [] => EmptyString
  | [x] => x
  | x :: l' => x +:+ sep +:+ join sep l'
  end.

(** *** Parsing numbers out of strings *)

Definition isWhiteSpace (c : ascii) : bool :=
  let n := nat_of_ascii c in
  (Nat.leb 9 n && Nat.leb n 13)%bool || Nat.eqb n 32.

Fixpoint trimStart (s : string) : string :=
  match s with
  | String c s' => if isWhiteSpace c then trimStart s' else s
  | EmptyString => EmptyString
  end.

Definition digit (c : ascii) : option Z :=
  let n := nat_of_ascii c in
  if (Nat.leb 48 n && Nat.leb n 57)%bool then Some (Z.of_nat (n - 48)) else None.

Definition hexdigit (c : ascii) : option Z :=
  let n := nat_of_ascii c in
  if (Nat.leb 48 n && Nat.leb n 57)%bool then Some (Z.of_nat (n - 48))
  else if (Nat.leb 97 n && Nat.leb n 102)%bool then Some (Z.of_nat (n - 87))
  else if (Nat.leb 65 n && Nat.leb n 70)%bool then Some (Z.of_nat (n - 55))
  else None.

(** The longest run of digits at the head of [s], read in base [radix]
    onto the accumulator [acc]: the number read, how many digits, the rest. *)
Fixpoint digits (dig : ascii -> option Z) (radix : Z) (s : string)
         (acc : Z) (n : Z) : Z * Z * string :=
  match s with
  | String c s' =>
      match dig c with
      | Some d => digits dig radix s' (radix * acc + d) (n + 1)
      | None => (acc, n, s)
      end
  | EmptyString => (acc, n, s)
  end.

Definition sign (s : string) : bool * string :=
  match s with
  | String "-" s' => (true, s')
  | String "+" s' => (false, s')
  | _ => (false, s)
  end.

(** [parseInt(s)] without a radix: leading white space, an optional sign,
    an optional [0x] or [0X], then the longest run of digits; NaN when that
    run is empty.  What follows the digits is ignored. *)
Definition parseInt (s : string) : number :=
  let '(neg, s1) := sign (trimStart s) in
  let '(v, n, _) :=
    match s1 with
    | String "0" (String "x" s2) | String "0" (String "X" s2) =>
        digits hexdigit 16 s2 0 0
    | _ => digits digit 10 s1 0 0
    end in
  if n =? 0 then NaN
  else if v =? 0 then S754_zero neg
  else of_decimal neg v 0.

(** The exponent part [e±ddd] when it is complete, otherwise none. *)
Definition exponent (s : string) : Z :=
  match s with
  | String "e" s' | String "E" s' =>
      let '(neg, s1) := sign s' in
      let '(v, n, _) := digits digit 10 s1 0 0 in
      if n =? 0 then 0 else if neg then - v else v
  | _ => 0
  end.

(** [parseFloat(s)]: leading white space, then the longest prefix that is
    a decimal literal ([Infinity], digits with an optional fraction and
    exponent, or a fraction alone); NaN when there is none. *)
Definition parseFloat (s : string) : number :=
  let '(neg, s1) := sign (trimStart s) in
  if startsWith "Infinity" s1 then S754_infinity neg
  else
    let '(ip, ni, r1) := digits digit 10 s1 0 0 in
    let '(m, nf, r2) :=
      match r1 with
      | String "." t =>
          let '(m, nf, r) := digits digit 10 t ip 0 in
          if (ni =? 0) && (nf =? 0) then (ip, 0, r1) else (m, nf, r)
      | _ => (ip, 0, r1)
      end in
    if (ni =? 0) && (nf =? 0) then NaN
    else of_decimal neg m (exponent r2 - nf).

End JS.

(** ** The page as the scripts see it *)

Module DOM.

(** An input element: the attributes and properties the scripts read
    ([id], [name], [value]), its class list, and the element that precedes
    it in the document (tag name and text content), where the forms put
    the field's label. *)
Record Element : Type := mkElement {
  id : string;
  name : string;
  value : string;
  classList : list string;
  previousElementSibling : option (string * string)
}.

(** [classList.contains(c)] *)
Definition contains (cl : list string) (c : string) : bool :=
  existsb (String.eqb c) cl.

(** [classList.remove(c1, ..., cn)] *)
Definition remove (cl : list string) (cs : list string) : list string :=
  List.filter (fun c => negb (existsb (String.eqb c) cs)) cl.

(** [classList.add(c)] *)
Definition add (cl : list string) (c : string) : list string :=
  if contains cl c then cl else (cl ++ [c])%list.

Definition set_classList (e : Element) (cl : list string) : Element :=
  mkElement (id e) (name e) (value e) cl (previousElementSibling e).

Definition set_value (e : Element) (v : string) : Element :=
  mkElement (id e) (name e) v (classList e) (previousElementSibling e).

(** The submit control. *)
Record Button : Type := mkButton {
  disabled : bool;
  textContent : string
}.

(** What a handler does to the world outside the page state, in order. *)
Inductive Effect : Type :=
| Alert (message : string)
| AlertRange (fieldName : string) (min max value : JS.number)
| Focus (element : string)
| ShowError (message : string)
| Fetch (url : string) (body : list (string * JS.number)).

(** How a call ends: with a value, or with an exception thrown. *)
Inductive Completion (A : Type) : Type :=
| Normal (a : A)
| Throw (error : string).
Arguments Normal {A} a.
Arguments Throw {A} error.

Definition isFetch (e : Effect) : bool :=
  match e with Fetch _ _ => true | _ => false end.

(** The number of network requests among the effects. *)
Definition fetches (l : list Effect) : nat :=
  List.length (List.filter isFetch l).

End DOM.

(** ** The COVID-19 form: [static/js/covid.js] *)

Module Covid.
Import JS DOM.

(** The four tiers a field can be in. *)
Inductive Validity : Type :=
| empty | invalid | valid_abnormal | valid_normal.

(** An entry of [validationRanges]. *)
Record Range : Type := mkRange {
  min : number;
  max : number;
  unit : string;
  normal : option (number * number)
}.

Definition requiredFields : list string :=
  [ "age"; "leukocytes"; "neutrophilsP"; "lymphocytesP"; "monocytesP";
    "eosinophilsP"; "basophilsP"; "neutrophils"; "lymphocytes"; "monocytes";
    "eosinophils"; "basophils"; "redbloodcells"; "mcv"; "mch";
    "mchc"; "rdwP"; "hemoglobin"; "hematocritP"; "platelets";
    "mpv" ].

Definition validationRanges : gmap string Range :=
  list_to_map [
    ("age", mkRange (of_Z 0) (of_Z 120) "years" None);
    ("leukocytes", mkRange (lit 35 1) (lit 150 1) "10¬≥/ŒºL" (Some (lit 40 1, lit 110 1)));
    ("neutrophilsP", mkRange (of_Z 35) (of_Z 85) "%" (Some (of_Z 45, of_Z 70)));
    ("lymphocytesP", mkRange (of_Z 10) (of_Z 60) "%" (Some (of_Z 20, of_Z 50)));
    ("monocytesP", mkRange (of_Z 0) (of_Z 15) "%" (Some (of_Z 2, of_Z 10)));
    ("eosinophilsP", mkRange (of_Z 0) (of_Z 10) "%" (Some (of_Z 1, of_Z 4)));
    ("basophilsP", mkRange (of_Z 0) (of_Z 3) "%" (Some (lit 5 1, of_Z 1)));
    ("neutrophils", mkRange (lit 10 1) (lit 120 1) "10¬≥/ŒºL" (Some (lit 18 1, lit 77 1)));
    ("lymphocytes", mkRange (lit 5 1) (lit 80 1) "10¬≥/ŒºL" (Some (lit 10 1, lit 40 1)));
    ("monocytes", mkRange (lit 1 1) (lit 20 1) "10¬≥/ŒºL" (Some (lit 2 1, lit 8 1)));
    ("eosinophils", mkRange (lit 0 1) (lit 10 1) "10¬≥/ŒºL" (Some (lit 0 1, lit 4 1)));
    ("basophils", mkRange (lit 0 1) (lit 3 1) "10¬≥/ŒºL" (Some (lit 0 1, lit 1 1)));
    ("redbloodcells", mkRange (lit 30 1) (lit 70 1) "10‚Å∂/ŒºL" (Some (lit 42 1, lit 54 1)));
    ("mcv", mkRange (of_Z 70) (of_Z 110) "fL" (Some (of_Z 80, of_Z 100)));
    ("mch", mkRange (of_Z 20) (of_Z 40) "pg" (Some (of_Z 27, of_Z 33)));
    ("mchc", mkRange (of_Z 28) (of_Z 38) "g/dL" (Some (of_Z 32, of_Z 36)));
    ("rdwP", mkRange (of_Z 10) (of_Z 20) "%" (Some (lit 115 1, lit 145 1)));
    ("hemoglobin", mkRange (of_Z 6) (of_Z 20) "g/dL" (Some (of_Z 12, of_Z 17)));
    ("hematocritP", mkRange (of_Z 25) (of_Z 60) "%" (Some (of_Z 36, of_Z 50)));
    ("platelets", mkRange (of_Z 50) (of_Z 800) "10¬≥/ŒºL" (Some (of_Z 150, of_Z 450)));
    ("mpv", mkRange (of_Z 5) (of_Z 15) "fL" (Some (of_Z 7, of_Z 12)))
  ].

(** The page: the inputs by id, the submit button [#predict-btn], the
    width in percent of [.form-progress-bar], and the number of requests
    sent and not yet answered. *)
Record Page : Type := mkPage {
  fields : gmap string Element;
  submitBtn : option Button;
  progressBar : option number;
  pending : nat
}.

Definition fieldName (field : Element) : string :=
  if String.eqb (name field) "" then id field else name field.

Section Validator.
(** The table is a parameter so that the validator can be stated for
    every range specification; the form uses [validationRanges]. *)
Variable ranges : gmap string Range.

(** [validateField(field)]: the returned boolean and the element with
    its class list updated. *)
Definition validateField_in (field : Element) : bool * Element :=
  let value := parseFloat (DOM.value field) in
  let validation := ranges !! fieldName field in
  let field :=
    set_classList field
      (remove (classList field) ["valid"; "invalid"; "abnormal"]) in
  if String.eqb (DOM.value field) "" then (false, field)
  else
    match validation with
    | None => (false, set_classList field (add (classList field) "invalid"))
    | Some validation =>
        if isNaN value then
          (false, set_classList field (add (classList field) "invalid"))
        else if lt value (min validation) || gt value (max validation) then
          (false, set_classList field (add (classList field) "invalid"))
        else
          match normal validation with
          | Some (normalMin, normalMax) =>
              if lt value normalMin || gt value normalMax then
                (true, set_classList field (add (classList field) "abnormal"))
              else
                (true, set_classList field (add (classList field) "valid"))
          | None =>
              (true, set_classList field (add (classList field) "valid"))
          end
    end.
End Validator.

Definition validateField : Element -> bool * Element :=
  validateField_in validationRanges.

(** The tier shown on an element: the class [validateField] left on it. *)
Definition validity (field : Element) : Validity :=
  if contains (classList field) "invalid" then invalid
  else if contains (classList field) "abnormal" then valid_abnormal
  else if contains (classList field) "valid" then valid_normal
  else empty.

(** The test shared by [updateProgress] and [updateSubmitButton]:
    [field && field.value !== '' && !field.classList.contains('invalid')]. *)
Definition filled (dom : gmap string Element) (fieldName : string) : bool :=
  match dom !! fieldName with
  | Some field =>
      negb (String.eqb (value field) "") &&
      negb (contains (classList field) "invalid")
  | None => false
  end.

(** [(count / total) * 100] on the lengths of two arrays. *)
Definition percent (count total : nat) : number :=
  mul (div (of_Z (Z.of_nat count)) (of_Z (Z.of_nat total))) (of_Z 100).

(** The value [progress] of [updateProgress]. *)
Definition progress (dom : gmap string Element) : number :=
  percent (List.length (List.filter (filled dom) requiredFields))
          (List.length requiredFields).

(** [updateProgress()] *)
Definition updateProgress (p : Page) : Page :=
  match progressBar p with
  | Some _ => mkPage (fields p) (submitBtn p) (Some (progress (fields p))) (pending p)
  | None => p
  end.

(** [updateSubmitButton()] *)
Definition updateSubmitButton (p : Page) : Page :=
  let allValid := forallb (filled (fields p)) requiredFields in
  match submitBtn p with
  | Some b =>
      mkPage (fields p) (Some (mkButton (negb allValid) (textContent b)))
             (progressBar p) (pending p)
  | None => p
  end.

(** [getFieldLabel(fieldName)] *)
Definition getFieldLabel (dom : gmap string Element) (fieldName : string)
  : string :=
  match dom !! fieldName with
  | Some field =>
      match previousElementSibling field with
      | Some (tagName, text) =>
          if String.eqb tagName "LABEL" then replace text ":" ""
          else fieldName
      | None => fieldName
      end
  | None => fieldName
  end.

(** The separator of the consolidated message, as the script has it. *)
Definition bullet : string := "‚Ä¢ ".

Definition newline : string := String (ascii_of_nat 10) "".

(** One turn of the loop of [validateForm]: the state is the flag
    [isValid], the array [errors] and the inputs. *)
Definition validateForm_step
    (st : bool * list string * gmap string Element) (fieldName : string)
  : bool * list string * gmap string Element :=
  let '(isValid, errors, dom) := st in
  match dom !! fieldName with
  | None => st
  | Some field =>
      if String.eqb (value field) "" then
        (false,
         (errors ++ [getFieldLabel dom fieldName +:+ " is required"])%list,
         dom)
      else
        let '(ok, field') := validateField field in
        let dom' := <[fieldName := field']> dom in
        if ok then (isValid, errors, dom')
        else (false,
              (errors ++
               [getFieldLabel dom' fieldName +:+ " has an invalid value"])%list,
              dom')
  end.

(** [validateForm()] *)
Definition validateForm (p : Page) : bool * Page * list Effect :=
  let '(isValid, errors, dom) :=
    fold_left validateForm_step requiredFields (true, [], fields p) in
  let p' := mkPage dom (submitBtn p) (progressBar p) (pending p) in
  if isValid then (true, p', [])
  else (false, p',
        [ShowError ("Please correct the following errors:" +:+ newline +:+
                    bullet +:+ join (newline +:+ bullet) errors)]).

(** [submitPrediction()] up to the point where it awaits the response:
    the button is disabled, the body is collected and the request sent. *)
Definition formData (dom : gmap string Element) : list (string * number) :=
  omap (fun fieldName =>
          match dom !! fieldName with
          | Some field => Some (fieldName, parseFloat (value field))
          | None => None
          end) requiredFields.

Definition submitPrediction (p : Page) : Page * list Effect :=
  let btn :=
    match submitBtn p with
    | Some _ => Some (mkButton true "Analyzing...")
    | None => None
    end in
  (mkPage (fields p) btn (progressBar p) (S (pending p)),
   [Fetch "/covid/predict" (formData (fields p))]).

(** The [finally] block of [submitPrediction], run when the request is
    answered or fails. *)
Definition settle (p : Page) : Page :=
  let btn :=
    match submitBtn p with
    | Some _ => Some (mkButton false "Get COVID-19 Assessment")
    | None => None
    end in
  mkPage (fields p) btn (progressBar p) (Nat.pred (pending p)).

(** The [submit] listener of the form. *)
Definition onSubmit (p : Page) : Page * list Effect :=
  let '(ok, p1, eff) := validateForm p in
  if ok then
    let '(p2, eff2) := submitPrediction p1 in (p2, (eff ++ eff2)%list)
  else (p1, eff).

(** The [input] listener of a required field, after the browser has
    stored the typed text [v] in it. *)
Definition onInput (fieldName : string) (v : string) (p : Page) : Page :=
  match fields p !! fieldName with
  | Some field =>
      let '(_, field') := validateField (set_value field v) in
      updateSubmitButton
        (updateProgress
           (mkPage (<[fieldName := field']> (fields p)) (submitBtn p)
                   (progressBar p) (pending p)))
  | None => p
  end.

(** [displayResults]: the test that picks the positive styling. *)
Definition isPositive (prediction : string) : bool :=
  includes prediction "Positive".

(** *** More of the COVID-19 script *)

(** What [showFieldValidation] writes under a field on blur; the numbers
    and the unit are the ones the message is built from. *)
Inductive FieldMessage : Type :=
| EnterValidNumber
| ShouldBeBetween (min max : number) (unit : string)
| BelowNormal (normalMin normalMax : number) (unit : string)
| AboveNormal (normalMin normalMax : number) (unit : string)
| WithinNormal.

(** The class of the message element. *)
Definition messageClass (m : FieldMessage) : string :=
  match m with
  | EnterValidNumber | ShouldBeBetween _ _ _ => "error"
  | BelowNormal _ _ _ | AboveNormal _ _ _ => "warning"
  | WithinNormal => "success"
  end.

(** [showFieldValidation(field)]: the message appended, if any. *)
Definition showFieldValidation_in (ranges : gmap string Range) (field : Element)
  : option FieldMessage :=
  let value := parseFloat (DOM.value field) in
  let validation := ranges !! fieldName field in
  if String.eqb (DOM.value field) "" then None
  else
    match validation with
    | None => Some EnterValidNumber
    | Some validation =>
        if isNaN value then Some EnterValidNumber
        else if lt value (min validation) || gt value (max validation) then
          Some (ShouldBeBetween (min validation) (max validation)
                                (unit validation))
        else
          match normal validation with
          | Some (normalMin, normalMax) =>
              if lt value normalMin then
                Some (BelowNormal normalMin normalMax (unit validation))
              else if gt value normalMax then
                Some (AboveNormal normalMin normalMax (unit validation))
              else Some WithinNormal
          | None => None
          end
    end.

Definition showFieldValidation : Element -> option FieldMessage :=
  showFieldValidation_in validationRanges.

(** The advice [getRecommendations] adds for one finding. *)
Definition conditionAdvice (condition : string) : list string :=
  if includes condition "Anemia" then
    ["Discuss iron levels and supplementation with your doctor"]
  else if includes condition "Thrombocytopenia" then
    ["Monitor for bleeding and consult hematology"]
  else if includes condition "Lymphopenia" then
    ["Monitor immune function and avoid sick contacts"]
  else [].

Definition disclaimer : string :=
  "This assessment is for informational purposes only - consult a healthcare professional".

(** [getRecommendations(result, isPositive)]; [other_conditions] is [None]
    when the response has no such array. *)
Definition getRecommendations
    (other_conditions : option (list string)) (isPositive : bool)
  : list string :=
  ((if isPositive then
      [ "Contact your healthcare provider immediately";
        "Follow isolation guidelines and CDC recommendations";
        "Monitor symptoms closely";
        "Seek medical attention if symptoms worsen" ]
    else
      [ "Continue following standard health precautions";
        "Consider retesting if symptoms develop";
        "Maintain good hygiene and social distancing" ])
   ++ match other_conditions with
      | Some conditions => List.flat_map conditionAdvice conditions
      | None => []
      end
   ++ [disclaimer])%list.

(** The three classes [validateField] manages. *)
Definition markers : list string := ["valid"; "invalid"; "abnormal"].

(** *** The form as a machine

    What the user and the network can do to the page.  A submit attempt
    reaches the [submit] listener unless the submit button is disabled: the
    browser does not activate a disabled control.  A request can only be
    answered while one is pending. *)
Inductive Event : Type :=
| Submit
| Settle
| Input (fieldName : string) (text : string).

Definition step (p : Page) (ev : Event) : Page * list Effect :=
  match ev with
  | Submit =>
      match submitBtn p with
      | Some b => if disabled b then (p, []) else onSubmit p
      | None => onSubmit p
      end
  | Settle =>
      match pending p with
      | O => (p, [])
      | S _ => (settle p, [])
      end
  | Input fieldName text => (onInput fieldName text p, [])
  end.

Fixpoint run (p : Page) (evs : list Event) : Page * list Effect :=
  match evs with
  | [] => (p, [])
  | ev :: evs' =>
      let '(p1, eff1) := step p ev in
      let '(p2, eff2) := run p1 evs' in
      (p2, (eff1 ++ eff2)%list)
  end.

Definition isInput (ev : Event) : bool :=
  match ev with Input _ _ => true | _ => false end.

(** *** Vocabulary for the statements *)

(** A required field that blocks submission: present in the page and
    either empty or rejected by [validateField]. *)
Definition offends (dom : gmap string Element) (fieldName : string) : bool :=
  match dom !! fieldName with
  | Some field =>
      String.eqb (value field) "" || negb (fst (validateField field))
  | None => false
  end.

(** The line of the consolidated message for a blocking field. *)
Definition error_of (dom : gmap string Element) (fieldName : string) : string :=
  getFieldLabel dom fieldName +:+
  match dom !! fieldName with
  | Some field =>
      if String.eqb (value field) "" then " is required"
      else " has an invalid value"
  | None => ""
  end.

(** An element without its class list: what [validateField] reads. *)
Definition strip (field : Element) : Element := set_classList field [].


(** The classes [validateField] starts from: none of its three. *)
Definition cleared (field : Element) : list string :=
  remove (classList field) ["valid"; "invalid"; "abnormal"].

(** [lo <= v <= hi] *)
Definition within (lo hi v : number) : bool := le lo v && le v hi.

(** The bounds of a specification are numbers. *)
Definition wf_range (r : Range) : Prop :=
  isNaN (min r) = false /\ isNaN (max r) = false /\
  match normal r with
  | Some (lo, hi) => isNaN lo = false /\ isNaN hi = false
  | None => True
  end.

Definition wf_table (t : gmap string Range) : Prop :=
  forall k r, t !! k = Some r -> wf_range r.

Definition wf_rangeb (r : Range) : bool :=
  negb (isNaN (min r)) && negb (isNaN (max r)) &&
  match normal r with
  | Some (lo, hi) => negb (isNaN lo) && negb (isNaN hi)
  | None => true
  end.

(** The tier and the returned boolean, as one decision list. *)
Definition tier_of (spec : Range) (raw : string) : Validity :=
  let v := parseFloat raw in
  if String.eqb raw "" then empty
  else if isNaN v then invalid
  else if lt v (min spec) || gt v (max spec) then invalid
  else match normal spec with
       | Some (lo, hi) =>
           if lt v lo || gt v hi then valid_abnormal else valid_normal
       | None => valid_normal
       end.

Definition is_valid (t : Validity) : bool :=
  match t with valid_abnormal | valid_normal => true | _ => false end.

(** Two pages with the same inputs up to class lists. *)
Definition same_inputs (dom dom0 : gmap string Element) : Prop :=
  strip <$> dom = strip <$> dom0.

(** The consolidated message for a list of error lines. *)
Definition consolidated (errors : list string) : string :=
  "Please correct the following errors:" +:+ newline +:+
  bullet +:+ join (newline +:+ bullet) errors.

(** With a submit button on the page: no request is pending, or exactly
    one is and the button is disabled. *)
Definition inv (p : Page) : Prop :=
  exists b, submitBtn p = Some b /\
            (pending p = 0%nat \/ (pending p = 1%nat /\ disabled b = true)).

(** The count [filledFields.length] of [updateProgress]. *)
Definition filledCount (dom : gmap string Element) : nat :=
  List.length (List.filter (filled dom) requiredFields).

(** The count the specification defines the percentage on: the required
    fields whose value the validator puts in one of the two valid tiers. *)
Definition validCount (dom : gmap string Element) : nat :=
  List.length
    (List.filter
       (fun fieldName =>
          match dom !! fieldName with
          | Some field => is_valid (validity (snd (validateField field)))
          | None => false
          end) requiredFields).

(** Every required field on the page shows the tier the validator gives
    its value: the state the [input] listener leaves. *)
Definition validated (dom : gmap string Element) : Prop :=
  forall fieldName field,
    In fieldName requiredFields -> dom !! fieldName = Some field ->
    validity field = validity (snd (validateField field)).

End Covid.


(** ** Shared utilities: the main script (first script of [part_000]) *)

Module Main.
Import JS DOM.

(** An element of which the scripts set [style.display], [className] and
    [textContent]. *)
Record Box : Type := mkBox {
  display : string;
  className : string;
  text : string
}.

(** The submit button with [dataset.originalText]. *)
Record SubmitButton : Type := mkSubmitButton {
  sb_disabled : bool;
  sb_textContent : string;
  sb_originalText : option string
}.

(** The response of the prediction service, as far as the scripts read it.
    [probability] holds the named buckets when the response has an object
    there. *)
Record Probability : Type := mkProbability {
  high_risk : option number;
  low_risk : option number;
  positive : option number;
  negative : option number
}.

Record PredictionResult : Type := mkResult {
  prediction : string;
  probability : option Probability;
  other_conditions : option (list string);
  risk_score : option number
}.

(** The result area: the container (its [display] and [className]), the
    text of the result line and of the description line. *)
Record ResultView : Type := mkView {
  container : Box;
  resultText : string;
  resultDescription : string
}.

(** [showLoading(loadingElement, resultElement, submitButton, loadingText)] *)
Definition showLoading
    (loadingElement resultElement : option Box)
    (submitButton : option SubmitButton) (loadingText : string)
  : option Box * option Box * option SubmitButton :=
  (match loadingElement with
   | Some l => Some (mkBox "block" (className l) (text l))
   | None => None
   end,
   match resultElement with
   | Some r => Some (mkBox "none" (className r) (text r))
   | None => None
   end,
   match submitButton with
   | Some b => Some (mkSubmitButton true loadingText (Some (sb_textContent b)))
   | None => None
   end).

(** [hideLoading(loadingElement, submitButton)] *)
Definition hideLoading
    (loadingElement : option Box) (submitButton : option SubmitButton)
  : option Box * option SubmitButton :=
  (match loadingElement with
   | Some l => Some (mkBox "none" (className l) (text l))
   | None => None
   end,
   match submitButton with
   | Some b =>
       Some (mkSubmitButton false
               match sb_originalText b with
               | Some t => if String.eqb t "" then sb_textContent b else t
               | None => sb_textContent b
               end
               (sb_originalText b))
   | None => None
   end).

(** The risk test of [showResult]. *)
Definition isHighRisk (prediction : string) : bool :=
  includes (toLowerCase prediction) "high risk" ||
  includes (toLowerCase prediction) "positive".

Section Rendering.
(** How a Number is printed inside a template string. *)
Variable numberToString : number -> string.

Definition probabilityText (p : Probability) : string :=
  match high_risk p, low_risk p with
  | Some h, Some l =>
      " (High Risk: " +:+ numberToString h +:+ "%, Low Risk: " +:+
      numberToString l +:+ "%)"
  | _, _ =>
      match positive p, negative p with
      | Some po, Some ne =>
          " (Positive: " +:+ numberToString po +:+ "%, Negative: " +:+
          numberToString ne +:+ "%)"
      | _, _ => ""
      end
  end.

(** The text [showResult] puts in the description line. *)
Definition description (result : PredictionResult) : string :=
  (if isHighRisk (prediction result) then
     "Please consult with a healthcare professional for further evaluation and discuss these findings."
   else
     "Based on the provided information, the risk appears to be lower. Continue maintaining healthy lifestyle choices.")
  +:+
  match probability result with
  | Some p => probabilityText p
  | None => ""
  end
  +:+
  match other_conditions result with
  | Some (c :: cs) =>
      String (ascii_of_nat 10) (String (ascii_of_nat 10) "") +:+
      "Additional findings: " +:+ join ", " (c :: cs)
  | _ => ""
  end.

(** [showResult(resultContainer, resultText, resultDescription, result,
    positiveClass, negativeClass)]; the view is [None] when one of the
    three elements is missing, and then nothing happens. *)
Definition showResult (view : option ResultView) (result : PredictionResult)
    (positiveClass negativeClass : string) : option ResultView :=
  match view with
  | None => None
  | Some v =>
      Some (mkView
              (mkBox "block"
                 ("result-container " +:+
                  (if isHighRisk (prediction result) then positiveClass
                   else negativeClass))
                 (text (container v)))
              (prediction result)
              (description result))
  end.
End Rendering.

(** The sentence [showError] displays for an error message; [None] is a
    missing message. *)
Definition friendlyMessage (errorMessage : option string) : string :=
  match errorMessage with
  | Some m =>
      if String.eqb m "" then "Please try again or check your connection."
      else if includes m "fetch" then
        "Unable to connect to server. Please check your internet connection."
      else if includes m "JSON" then
        "Server returned invalid response. Please try again."
      else if includes (toLowerCase m) "model" then
        "Prediction service is currently unavailable. Please try again later."
      else m
  | None => "Please try again or check your connection."
  end.

(** [showError(resultContainer, resultText, resultDescription,
    errorMessage, errorClass)] *)
Definition showError (view : option ResultView) (errorMessage : option string)
    (errorClass : string) : option ResultView :=
  match view with
  | None => None
  | Some v =>
      Some (mkView
              (mkBox "block" ("result-container " +:+ errorClass)
                     (text (container v)))
              "Error Occurred"
              (friendlyMessage errorMessage))
  end.

(** [validateNumericInput(input, min, max, fieldName)]; [AlertRange] stands
    for the alert "[fieldName] must be between [min] and [max], got
    [value]". *)
Definition validateNumericInput
    (input : Element) (min max : number) (fieldName : string)
  : bool * list Effect :=
  let value := parseFloat (value input) in
  if isNaN value then
    (false, [Alert ("Please enter a valid number for " +:+ fieldName);
             Focus (id input)])
  else if lt value min || gt value max then
    (false, [AlertRange fieldName min max value; Focus (id input)])
  else (true, []).

(** [validateBinaryInput(input, fieldName)] *)
Definition validateBinaryInput (input : Element) (fieldName : string)
  : bool * list Effect :=
  let value := parseInt (value input) in
  if isNaN value || (strict_ne value (of_Z 0) && strict_ne value (of_Z 1)) then
    (false, [Alert ("Please enter 0 or 1 for " +:+ fieldName); Focus (id input)])
  else (true, []).

(** [validateRadioSelection(name, fieldName)]; [selected] is the checked
    radio button of the group, if any. *)
Definition validateRadioSelection (selected : option string) (fieldName : string)
  : bool * list Effect :=
  match selected with
  | None => (false, [Alert ("Please select " +:+ fieldName)])
  | Some _ => (true, [])
  end.

(** The border colour the [input] listener of [addInputValidation] sets. *)
Definition inputBorder (min max : number) (isBinary : bool) (raw : string)
  : string :=
  let value := parseFloat raw in
  if isBinary then
    if isNaN value || (strict_ne value (of_Z 0) && strict_ne value (of_Z 1))
    then "#e74c3c" else "#2ecc71"
  else
    if isNaN value || lt value min || gt value max
    then "#e74c3c" else "#2ecc71".

(** [capitalizeFirst(str)], on ASCII letters *)
Definition upper_ascii (c : ascii) : ascii :=
  let n := nat_of_ascii c in
  if (Nat.leb 97 n && Nat.leb n 122)%bool then ascii_of_nat (n - 32) else c.

Definition capitalizeFirst (str : string) : string :=
  match str with
  | String c s => String (upper_ascii c) s
  | EmptyString => EmptyString
  end.

(** A word character of a regular expression: [[A-Za-z0-9_]]. *)
Definition isWordChar (c : ascii) : bool :=
  let n := nat_of_ascii c in
  (Nat.leb 48 n && Nat.leb n 57) || (Nat.leb 65 n && Nat.leb n 90) ||
  (Nat.leb 97 n && Nat.leb n 122) || Nat.eqb n 95.

(** [s.replace(/_/g, ' ')] *)
Fixpoint underscoresToSpaces (s : string) : string :=
  match s with
  | String c s' =>
      String (if Ascii.eqb c "_" then " "%char else c) (underscoresToSpaces s')
  | EmptyString => EmptyString
  end.

(** [s.replace(/\b\w/g, l => l.toUpperCase())]: every word character that
    follows a non-word character, or starts the string, is upper-cased.
    [prevWord] tells whether the previous character was a word character. *)
Fixpoint capitalizeWords (prevWord : bool) (s : string) : string :=
  match s with
  | String c s' =>
      String (if isWordChar c && negb prevWord then upper_ascii c else c)
             (capitalizeWords (isWordChar c) s')
  | EmptyString => EmptyString
  end.

(** [formatFieldName(fieldName)] *)
Definition formatFieldName (fieldName : string) : string :=
  capitalizeWords false (underscoresToSpaces fieldName).

(** The answer to a request: the transport failed with a message, or a
    response came with its [ok] flag, status line and body.  The body
    either does not parse as JSON (the parser's message), or is an object
    read for its [error] text, or is a prediction. *)
Inductive Body : Type :=
| BadJSON (message : string)
| ErrorBody (error : option string)
| ResultBody (result : PredictionResult).

Inductive Response : Type :=
| Rejected (message : string)
| Replied (ok : bool) (status statusText : string) (body : Body).

(** [makeAPICall(endpoint, data)] after the request is answered: the
    prediction returned or the message of the error thrown.  A successful
    response whose body is not a prediction is outside the service's
    contract and not modelled ([None]). *)
Definition makeAPICall (r : Response) : option (PredictionResult + string) :=
  match r with
  | Rejected message => Some (inr message)
  | Replied false status statusText body =>
      match body with
      | BadJSON message => Some (inr message)
      | ErrorBody (Some e) =>
          Some (inr (if String.eqb e "" then
                       "HTTP " +:+ status +:+ ": " +:+ statusText
                     else e))
      | _ => Some (inr ("HTTP " +:+ status +:+ ": " +:+ statusText))
      end
  | Replied true _ _ (ResultBody result) => Some (inl result)
  | Replied true _ _ (BadJSON message) => Some (inr message)
  | Replied true _ _ (ErrorBody _) => None
  end.

(** No character of [s] is an underscore. *)
Fixpoint noUnderscore (s : string) : bool :=
  match s with
  | String c s' => negb (Ascii.eqb c "_") && noUnderscore s'
  | EmptyString => true
  end.

End Main.

(** ** The lung-cancer form: second script of [part_000] *)

Module LungCancer.
Import JS DOM.

Definition binaryFields : list string :=
  [ "smoking"; "yellow_fingers"; "anxiety"; "peer_pressure";
    "chronic_disease"; "fatigue"; "allergy"; "wheezing";
    "alcohol_consuming"; "coughing"; "shortness_of_breath";
    "swallowing_difficulty"; "chest_pain" ].

Definition requiredFields : list string := "age" :: binaryFields.

(** The inputs by id and the checked radio button of each group. *)
Record Form : Type := mkForm {
  inputs : gmap string Element;
  radios : gmap string string
}.

(** The loop over [binaryFields] of [validateForm]: [None] when every
    field passes, otherwise the effects of the first rejection. *)
Fixpoint validateBinaryFields (dom : gmap string Element) (l : list string)
  : Completion (option (list Effect)) :=
  match l with
  | [] => Normal None
  | field :: rest =>
      match dom !! field with
      | None => Throw "TypeError"
      | Some input =>
          let '(ok, eff) :=
            Main.validateBinaryInput input (Main.formatFieldName field) in
          if ok then validateBinaryFields dom rest else Normal (Some eff)
      end
  end.

(** [validateForm()] *)
Definition validateForm (f : Form) : Completion (bool * list Effect) :=
  match inputs f !! "age" with
  | None => Throw "TypeError"
  | Some ageInput =>
      let '(ok, eff) :=
        Main.validateNumericInput ageInput (of_Z 1) (of_Z 120) "Age" in
      if negb ok then Normal (false, eff)
      else
        match validateBinaryFields (inputs f) binaryFields with
        | Throw e => Throw e
        | Normal (Some eff) => Normal (false, eff)
        | Normal None =>
            let '(ok, eff) :=
              Main.validateRadioSelection (radios f !! "gender") "gender" in
            if negb ok then Normal (false, eff) else Normal (true, [])
        end
  end.

(** [collectLungCancerData()]; the handler calls it after [validateForm]
    has succeeded. *)
Definition collectLungCancerData (f : Form)
  : Completion (list (string * number)) :=
  match radios f !! "gender", inputs f !! "age" with
  | Some gender, Some age =>
      match
        mapM (fun field =>
                match inputs f !! field with
                | Some input => Some (field, parseInt (value input))
                | None => None
                end) binaryFields
      with
      | Some rest =>
          Normal (("gender", parseInt gender) ::
                  ("age", parseInt (value age)) :: rest)
      | None => Throw "TypeError"
      end
  | _, _ => Throw "TypeError"
  end.

(** The [submit] listener up to the request. *)
Definition onSubmit (f : Form) : Completion (list Effect) :=
  match validateForm f with
  | Throw e => Throw e
  | Normal (false, eff) => Normal eff
  | Normal (true, eff) =>
      match collectLungCancerData f with
      | Normal data => Normal (eff ++ [Fetch "/lung-cancer/predict" data])%list
      | Throw e => Normal eff
      end
  end.

(** The risk test of [showLungCancerResult] and [addRiskIndicator]. *)
Definition isHighRisk (prediction : string) : bool :=
  includes (toLowerCase prediction) "high risk" ||
  includes (toLowerCase prediction) "positive".

(** The counter of [updateProgress] in [addProgressIndication], for the
    binary fields and the gender group: a binary field counts when its
    text is exactly ["0"] or ["1"]. *)
Definition binaryFilled (raw : string) : bool :=
  String.eqb raw "0" || String.eqb raw "1".

End LungCancer.

(** ** The cardiovascular risk form: third script of [part_000] *)

Module CV.
Import JS DOM.

(** The form: the entries of [new FormData(form)], in document order, and
    the number of requests sent and not yet answered.  The script never
    touches the form's submit control. *)
Record Page : Type := mkPage {
  entries : list (string * string);
  pending : nat
}.

(** [data[key] = v] on an object kept as an association list. *)
Fixpoint assign (data : list (string * number)) (key : string) (v : number)
  : list (string * number) :=
  match data with
  | [] => [(key, v)]
  | (k, w) :: rest =>
      if String.eqb k key then (k, v) :: rest
      else (k, w) :: assign rest key v
  end.

Definition collect (entries : list (string * string)) : list (string * number) :=
  fold_left (fun data kv => assign data (fst kv) (parseInt (snd kv)))
            entries [].

(** The [submit] listener up to the request: no validation, nothing is
    disabled. *)
Definition onSubmit (p : Page) : Page * list Effect :=
  (mkPage (entries p) (S (pending p)),
   [Fetch "/cv/predict" (collect (entries p))]).

(** The request is answered or fails. *)
Definition settle (p : Page) : Page :=
  mkPage (entries p) (Nat.pred (pending p)).

Fixpoint submits (p : Page) (n : nat) : Page * list Effect :=
  match n with
  | O => (p, [])
  | S n' =>
      let '(p1, eff1) := onSubmit p in
      let '(p2, eff2) := submits p1 n' in
      (p2, (eff1 ++ eff2)%list)
  end.

(** [inputData.key]; a missing key reads as [undefined], which behaves as
    NaN in the arithmetic and the comparisons of this script. *)
Fixpoint get (data : list (string * number)) (key : string) : number :=
  match data with
  | [] => NaN
  | (k, v) :: rest => if String.eqb k key then v else get rest key
  end.

(** The risk test of [displayResults] and [generateRecommendations]. *)
Definition isHighRisk (prediction : string) : bool :=
  includes prediction "High Risk" || includes prediction "HIGH RISK".

(** The body mass index as [displayResults] computes it. *)
Definition bmi_of (inputData : list (string * number)) : number :=
  let height := div (get inputData "height") (of_Z 100) in
  let weight := get inputData "weight" in
  div weight (mul height height).

(** [getBMICategory(bmi)] *)
Definition getBMICategory (bmi : number) : string :=
  if lt bmi (lit 185 1) then "Underweight"
  else if lt bmi (of_Z 25) then "Normal weight"
  else if lt bmi (of_Z 30) then "Overweight"
  else "Obese".

(** [getBMIColor(bmi)] *)
Definition getBMIColor (bmi : number) : string :=
  if lt bmi (lit 185 1) then "#3498db"
  else if lt bmi (of_Z 25) then "#27ae60"
  else if lt bmi (of_Z 30) then "#f39c12"
  else "#e74c3c".

(** [generateRecommendations(result, inputData, bmi)] *)
Definition generateRecommendations
    (prediction : string) (inputData : list (string * number)) (bmi : number)
  : list string :=
  let r0 :=
    if isHighRisk prediction then
      [ "Consult with a cardiologist for comprehensive evaluation";
        "Consider cardiac screening tests (ECG, echocardiogram, stress test)" ]
    else [] in
  let r1 :=
    if ge bmi (of_Z 30) then
      [ "Work with a nutritionist to develop a weight management plan";
        "Start with low-impact exercises like walking or swimming" ]
    else if ge bmi (of_Z 25) then
      [ "Maintain a balanced diet with portion control";
        "Incorporate regular physical activity (150 minutes/week)" ]
    else [] in
  let r2 :=
    if ge (get inputData "ap_hi") (of_Z 140) || ge (get inputData "ap_lo") (of_Z 90) then
      [ "Monitor blood pressure regularly";
        "Reduce sodium intake and follow DASH diet principles";
        "Consider medication compliance if prescribed by doctor" ]
    else [] in
  let r3 :=
    if ge (get inputData "cholesterol") (of_Z 2) then
      [ "Follow a heart-healthy diet low in saturated fats";
        "Consider cholesterol-lowering medications if recommended" ]
    else [] in
  let r4 :=
    if ge (get inputData "gluc") (of_Z 2) then
      [ "Monitor blood glucose levels regularly";
        "Follow diabetic diet guidelines if applicable";
        "Maintain stable blood sugar through diet and exercise" ]
    else [] in
  let r5 :=
    if strict_eq (get inputData "smoke") (of_Z 1) then
      [ "URGENT: Quit smoking - seek professional help if needed";
        "Consider nicotine replacement therapy or cessation programs" ]
    else [] in
  let r6 :=
    if strict_eq (get inputData "alco") (of_Z 1) then
      [ "Limit alcohol consumption to moderate levels";
        "Avoid binge drinking and consider alcohol-free days" ]
    else [] in
  let r7 :=
    if strict_eq (get inputData "active") (of_Z 0) then
      [ "Start with light physical activities like walking";
        "Gradually increase exercise intensity and duration";
        "Aim for at least 150 minutes of moderate exercise weekly" ]
    else [] in
  let r8 :=
    if ge (get inputData "age") (of_Z 65) then
      [ "Schedule regular cardiac check-ups (every 6 months)";
        "Monitor for signs of heart disease more closely" ]
    else [] in
  let r9 :=
    if strict_eq (get inputData "gender") (of_Z 1) &&
       ge (get inputData "age") (of_Z 55) then
      [ "Discuss hormone replacement therapy risks/benefits with doctor";
        "Increase calcium and vitamin D intake for bone health" ]
    else [] in
  let r10 :=
    [ "Maintain regular sleep schedule (7-9 hours per night)";
      "Practice stress management techniques (meditation, yoga)";
      "Stay hydrated and maintain a balanced, nutritious diet" ] in
  let recommendations :=
    (r0 ++ r1 ++ r2 ++ r3 ++ r4 ++ r5 ++ r6 ++ r7 ++ r8 ++ r9 ++ r10)%list in
  let recommendations :=
    match recommendations with
    | [] => [ "Continue maintaining your current healthy lifestyle";
              "Schedule regular check-ups with your healthcare provider";
              "Stay physically active and eat a balanced diet" ]
    | _ => recommendations
    end in
  firstn 8 recommendations.

(** The category of the exact quotient weight / (height / 100)^2, for
    whole numbers of kilograms and centimetres, by integer arithmetic:
    the bucketing as the specification words it. *)
Definition exactCategory (weight height : Z) : string :=
  if 2 * weight * 10000 <? 37 * height * height then "Underweight"
  else if weight * 10000 <? 25 * height * height then "Normal weight"
  else if weight * 10000 <? 30 * height * height then "Overweight"
  else "Obese".

(** The one pair of the grid below whose exact quotient is 25 and whose
    computed quotient is 24.999999999999996: 64 kg at 160 cm. *)
Definition isRoundedDown (weight height : Z) : bool :=
  (weight =? 64) && (height =? 160).

(** The whole numbers [lo], ..., [lo + n - 1]. *)
Definition wholeNumbers (lo n : nat) : list Z :=
  List.map Z.of_nat (List.seq lo n).

(** The comparison of the displayed category with the exact one over a
    grid of heights and weights; each height is converted once. *)
Definition categoriesAgree (heights weights : list Z) : bool :=
  let numbers := List.map (fun w => (w, of_Z w)) weights in
  forallb
    (fun h =>
       let metres := div (of_Z h) (of_Z 100) in
       let square := mul metres metres in
       forallb
         (fun w =>
            String.eqb
              (getBMICategory (div (snd w) square))
              (if isRoundedDown (fst w) h then "Normal weight"
               else exactCategory (fst w) h))
         numbers)
    heights.

End CV.

(** ** The earlier lung-cancer form: first script of [part_001] *)

Module LungLegacy.
Import JS DOM.

Definition requiredFields : list string :=
  [ "age"; "smoking"; "yellow_fingers"; "anxiety"; "peer_pressure";
    "chronic_disease"; "fatigue"; "allergy"; "wheezing";
    "alcohol_consuming"; "coughing"; "shortness_of_breath";
    "swallowing_difficulty"; "chest_pain" ].

(** The inputs by id, the checked [gender] radio button, the submit button
    and the number of requests sent and not yet answered. *)
Record Page : Type := mkPage {
  inputs : gmap string Element;
  gender : option string;
  submitButton : Button;
  pending : nat
}.

(** The [for] loop of [validateForm]: [None] when it runs to its end,
    otherwise the effects before [return false]. *)
Fixpoint checkFields (dom : gmap string Element) (l : list string)
  : Completion (option (list Effect)) :=
  match l with
  | [] => Normal None
  | field :: rest =>
      match dom !! field with
      | None => Throw "TypeError"
      | Some input =>
          let value := parseInt (value input) in
          if isNaN value || lt value (of_Z 0) || gt value (of_Z 1) then
            if String.eqb field "age" then
              if isNaN value || lt value (of_Z 1) || gt value (of_Z 120) then
                Normal (Some [Alert "Please enter a valid age between 1 and 120";
                              Focus field])
              else checkFields dom rest
            else
              Normal (Some [Alert ("Please enter 0 or 1 for " +:+
                                   replace field "_" " ");
                            Focus field])
          else checkFields dom rest
      end
  end.

(** [validateForm()] *)
Definition validateForm (p : Page) : Completion (bool * list Effect) :=
  match checkFields (inputs p) requiredFields with
  | Throw e => Throw e
  | Normal (Some eff) => Normal (false, eff)
  | Normal None =>
      match gender p with
      | None => Normal (false, [Alert "Please select a gender"])
      | Some _ => Normal (true, [])
      end
  end.

(** [collectFormData()] *)
Definition collectFormData (p : Page) : Completion (list (string * number)) :=
  match gender p with
  | None => Throw "TypeError"
  | Some g =>
      match
        mapM (fun field =>
                match inputs p !! field with
                | Some input => Some (field, parseInt (value input))
                | None => None
                end) requiredFields
      with
      | Some rest => Normal (("gender", parseInt g) :: rest)
      | None => Throw "TypeError"
      end
  end.

(** The [submit] listener up to the request: validation, then
    [showLoading] disables the button, then the request is sent. *)
Definition onSubmit (p : Page) : Completion (Page * list Effect) :=
  match validateForm p with
  | Throw e => Throw e
  | Normal (false, eff) => Normal (p, eff)
  | Normal (true, eff) =>
      let loading := mkButton true "Analyzing..." in
      match collectFormData p with
      | Normal data =>
          Normal (mkPage (inputs p) (gender p) loading (S (pending p)),
                  (eff ++ [Fetch "/predict" data])%list)
      | Throw e =>
          Normal (mkPage (inputs p) (gender p)
                         (mkButton false "🔬 Analyze Risk Factors") (pending p),
                  eff)
      end
  end.

(** The risk test of [showResult]. *)
Definition isHighRisk (prediction : string) : bool :=
  includes prediction "High Risk".

(** The message the [catch] branch of the listener hands to [showError]. *)
Definition caughtMessage (message : string) : string :=
  if includes message "fetch" then
    "Unable to connect to server. Please check your internet connection."
  else if includes message "JSON" then
    "Server returned invalid response. Please try again."
  else if negb (String.eqb message "") then message
  else "Unable to process prediction. Please try again.".

(** The description [showError(errorMessage)] displays. *)
Definition showError (errorMessage : string) : string :=
  if String.eqb errorMessage "" then "Please try again or check your connection."
  else errorMessage.

(** The test under which one turn of the loop of [validateForm] returns
    false for [field]. *)
Definition rejects (field : string) (input : Element) : bool :=
  let value := parseInt (value input) in
  if String.eqb field "age" then
    (isNaN value || lt value (of_Z 0) || gt value (of_Z 1)) &&
    (isNaN value || lt value (of_Z 1) || gt value (of_Z 120))
  else isNaN value || lt value (of_Z 0) || gt value (of_Z 1).

(** The alert of that turn. *)
Definition alertFor (field : string) : string :=
  if String.eqb field "age" then "Please enter a valid age between 1 and 120"
  else "Please enter 0 or 1 for " +:+ replace field "_" " ".

(** The required fields the loop would reject, in its order. *)
Definition offending (dom : gmap string Element) : list string :=
  List.filter
    (fun field =>
       match dom !! field with
       | Some input => rejects field input
       | None => false
       end) requiredFields.

End LungLegacy.

(** ** The heart-disease form with blocking values: last script of
       [part_001] *)

Module CardioBlocking.
Import JS DOM.

Inductive FieldType : Type := number_field | select_field.

Record FieldConfig : Type := mkConfig {
  type : FieldType;
  min : number;
  max : number
}.

(** [formFields]; the bounds of a select field are not declared and are
    never read. *)
Definition formFields : list (string * FieldConfig) :=
  [ ("age", mkConfig number_field (of_Z 20) (of_Z 100));
    ("sex", mkConfig select_field NaN NaN);
    ("chest_pain_type", mkConfig select_field NaN NaN);
    ("resting_bp", mkConfig number_field (of_Z 80) (of_Z 220));
    ("cholesterol", mkConfig number_field (of_Z 80) (of_Z 400));
    ("fasting_bs", mkConfig select_field NaN NaN);
    ("rest_ecg", mkConfig select_field NaN NaN);
    ("max_heart_rate", mkConfig number_field (of_Z 50) (of_Z 200));
    ("exercise_angina", mkConfig select_field NaN NaN);
    ("oldpeak", mkConfig number_field (of_Z 0) (of_Z 6));
    ("slope", mkConfig select_field NaN NaN);
    ("major_vessels", mkConfig select_field NaN NaN);
    ("thal", mkConfig select_field NaN NaN) ].

(** [Object.keys(formFields)] *)
Definition keys : list string := List.map fst formFields.

Definition config (fieldName : string) : option FieldConfig :=
  snd <$> List.find (fun kv => String.eqb (fst kv) fieldName) formFields.

(** The submit button with its text and [style.background]. *)
Record SubmitButton : Type := mkSubmitButton {
  sb_disabled : bool;
  sb_textContent : string;
  sb_background : string
}.

(** The page: elements by id, the checked radio button of each group, the
    submit button, the progress bar and the number of simulated calls
    whose timer has not fired yet. *)
Record Page : Type := mkPage {
  fields : gmap string Element;
  radios : gmap string string;
  submitBtn : option SubmitButton;
  progressBar : option number;
  timers : nat
}.

(** [getFieldValue(fieldName)] *)
Definition getFieldValue (p : Page) (fieldName : string) : string :=
  match fields p !! fieldName with
  | Some field =>
      if negb (String.eqb (value field) "") then value field
      else default "" (radios p !! fieldName)
  | None => default "" (radios p !! fieldName)
  end.

Definition fieldName (field : Element) : string :=
  if String.eqb (name field) "" then id field else name field.

(** The blocking conditions of [validateField]. *)
Definition isBlocking (fieldName : string) (value : number) : bool :=
  (String.eqb fieldName "age" && (lt value (of_Z 20) || gt value (of_Z 100))) ||
  (String.eqb fieldName "resting_bp" && (ge value (of_Z 250) || lt value (of_Z 60))) ||
  (String.eqb fieldName "cholesterol" && (ge value (of_Z 500) || lt value (of_Z 50))) ||
  (String.eqb fieldName "max_heart_rate" && (ge value (of_Z 250) || lt value (of_Z 40))) ||
  (String.eqb fieldName "oldpeak" && ge value (of_Z 10)).

(** [validateField(field)] *)
Definition validateField (field : Element) : bool * Element :=
  match config (fieldName field) with
  | None => (false, field)
  | Some fieldConfig =>
      let field :=
        set_classList field
          (remove (classList field) ["valid"; "invalid"; "blocking-invalid"]) in
      if String.eqb (DOM.value field) "" then (false, field)
      else
        let value := parseFloat (DOM.value field) in
        match type fieldConfig with
        | number_field =>
            if isBlocking (fieldName field) value then
              (false, set_classList field (add (classList field) "blocking-invalid"))
            else if isNaN value || lt value (min fieldConfig)
                    || gt value (max fieldConfig) then
              (false, set_classList field (add (classList field) "invalid"))
            else (true, set_classList field (add (classList field) "valid"))
        | select_field =>
            (true, set_classList field (add (classList field) "valid"))
        end
  end.

(** [updateProgress()] *)
Definition progress (p : Page) : number :=
  Covid.percent
    (List.length (List.filter (fun k => negb (String.eqb (getFieldValue p k) "")) keys))
    (List.length keys).

Definition hasBlockingErrors (p : Page) : bool :=
  existsb (fun k =>
             match fields p !! k with
             | Some field => contains (classList field) "blocking-invalid"
             | None => false
             end) keys.

Definition allComplete (p : Page) : bool :=
  forallb (fun k => negb (String.eqb (getFieldValue p k) "")) keys.

(** [updateSubmitButton()] *)
Definition updateSubmitButton (p : Page) : Page :=
  match submitBtn p with
  | None => p
  | Some _ =>
      let b :=
        if hasBlockingErrors p then
          mkSubmitButton false "⚠️ Review Values & Submit" "#ff9800"
        else if allComplete p then
          mkSubmitButton false "💗 Assess Heart Disease Risk" ""
        else
          mkSubmitButton false "Complete all fields to continue" "#ccc" in
      mkPage (fields p) (radios p) (Some b) (progressBar p) (timers p)
  end.

(** [submitPrediction()]: the call is simulated with a timer; no request
    leaves the page and the button is not touched. *)
Definition submitPrediction (p : Page) : Page * list Effect :=
  (mkPage (fields p) (radios p) (submitBtn p) (progressBar p) (S (timers p)),
   []).

(** The risk test of [displayResults]. *)
Definition isHighRisk (prediction : string) : bool :=
  includes prediction "HIGH RISK".

(** One turn of the loop of [validateForm]: the state is [isValid], the
    arrays [errors] and [blockingErrors], and the elements. *)
Definition validateForm_step
    (st : bool * list string * list string * gmap string Element)
    (fieldName : string)
  : bool * list string * list string * gmap string Element :=
  let '(isValid, errors, blockingErrors, dom) := st in
  match dom !! fieldName with
  | None => st
  | Some field =>
      let '(isValid, errors, field) :=
        if String.eqb (value field) "" then
          (false, (errors ++ [fieldName +:+ " is required"])%list,
           set_classList field (add (classList field) "invalid"))
        else
          let '(ok, field') := validateField field in
          if ok then (isValid, errors, field')
          else (false,
                (errors ++ [fieldName +:+ " has an invalid value"])%list,
                field') in
      (isValid, errors,
       if contains (classList field) "blocking-invalid"
       then (blockingErrors ++ [fieldName])%list else blockingErrors,
       <[fieldName := field]> dom)
  end.

Definition blockingMessage : string :=
  "Please correct the highlighted values before proceeding. Some values are outside acceptable ranges for medical assessment.".

(** [validateForm()] *)
Definition validateForm (p : Page) : bool * Page * list Effect :=
  let '(isValid, errors, blockingErrors, dom) :=
    fold_left validateForm_step keys (true, [], [], fields p) in
  let p' := mkPage dom (radios p) (submitBtn p) (progressBar p) (timers p) in
  match blockingErrors with
  | first :: _ => (false, p', [Focus first; ShowError blockingMessage])
  | [] =>
      if isValid then (true, p', [])
      else (false, p',
            [ShowError ("Please correct the following errors:" +:+
                        Covid.newline +:+ "• " +:+
                        join (Covid.newline +:+ "• ") errors)])
  end.

(** The [submit] listener. *)
Definition onSubmit (p : Page) : Page * list Effect :=
  let '(ok, p1, eff) := validateForm p in
  if ok then
    let '(p2, eff2) := submitPrediction p1 in (p2, (eff ++ eff2)%list)
  else (p1, eff).


End CardioBlocking.

(** ** The heart-disease form: [static/js/cardiovascular.js] *)

Module Cardiovascular.
Import JS DOM.

(** The risk test of [displayResults]. *)
Definition isHighRisk (prediction : string) : bool :=
  includes prediction "HIGH RISK".

(** The class [displayResults] gives the result container. *)
Definition resultClass (prediction : string) : string :=
  if isHighRisk prediction then "high-risk" else "low-risk".

(** [formFields] of this script: the same fields as in the script with
    blocking values, with its own bounds. *)
Definition formFields : list (string * CardioBlocking.FieldConfig) :=
  [ ("age", CardioBlocking.mkConfig CardioBlocking.number_field (of_Z 1) (of_Z 120));
    ("sex", CardioBlocking.mkConfig CardioBlocking.select_field NaN NaN);
    ("chest_pain_type", CardioBlocking.mkConfig CardioBlocking.select_field NaN NaN);
    ("resting_bp", CardioBlocking.mkConfig CardioBlocking.number_field (of_Z 80) (of_Z 250));
    ("cholesterol", CardioBlocking.mkConfig CardioBlocking.number_field (of_Z 100) (of_Z 600));
    ("fasting_bs", CardioBlocking.mkConfig CardioBlocking.select_field NaN NaN);
    ("rest_ecg", CardioBlocking.mkConfig CardioBlocking.select_field NaN NaN);
    ("max_heart_rate", CardioBlocking.mkConfig CardioBlocking.number_field (of_Z 60) (of_Z 220));
    ("exercise_angina", CardioBlocking.mkConfig CardioBlocking.select_field NaN NaN);
    ("oldpeak", CardioBlocking.mkConfig CardioBlocking.number_field (of_Z 0) (of_Z 10));
    ("slope", CardioBlocking.mkConfig CardioBlocking.select_field NaN NaN);
    ("major_vessels", CardioBlocking.mkConfig CardioBlocking.select_field NaN NaN);
    ("thal", CardioBlocking.mkConfig CardioBlocking.select_field NaN NaN) ].

Definition keys : list string := List.map fst formFields.

Definition config (fieldName : string) : option CardioBlocking.FieldConfig :=
  snd <$> List.find (fun kv => String.eqb (fst kv) fieldName) formFields.

(** [validateField(field)] *)
Definition validateField (field : Element) : bool * Element :=
  let value := parseFloat (DOM.value field) in
  match config (CardioBlocking.fieldName field) with
  | None => (false, field)
  | Some fieldConfig =>
      let field :=
        set_classList field (remove (classList field) ["valid"; "invalid"]) in
      if String.eqb (DOM.value field) "" then (false, field)
      else
        match CardioBlocking.type fieldConfig with
        | CardioBlocking.number_field =>
            if isNaN value || lt value (CardioBlocking.min fieldConfig)
               || gt value (CardioBlocking.max fieldConfig) then
              (false, set_classList field (add (classList field) "invalid"))
            else (true, set_classList field (add (classList field) "valid"))
        | CardioBlocking.select_field =>
            (true, set_classList field (add (classList field) "valid"))
        end
  end.

(** The page: the inputs by id, the submit button and the number of
    requests sent and not yet answered. *)
Record Page : Type := mkPage {
  fields : gmap string Element;
  submitBtn : option Button;
  pending : nat
}.

(** [updateSubmitButton()] *)
Definition updateSubmitButton (p : Page) : Page :=
  let allValid := forallb (Covid.filled (fields p)) keys in
  match submitBtn p with
  | Some _ =>
      mkPage (fields p)
        (Some (mkButton (negb allValid)
                 (if allValid then "Assess Cardiovascular Risk"
                  else "Complete all fields to continue")))
        (pending p)
  | None => p
  end.

(** The [finally] block of [submitPrediction]: the button is enabled and
    [updateSubmitButton] runs at once. *)
Definition settle (p : Page) : Page :=
  match submitBtn p with
  | Some b =>
      updateSubmitButton
        (mkPage (fields p) (Some (mkButton false (textContent b)))
                (Nat.pred (pending p)))
  | None => mkPage (fields p) None (Nat.pred (pending p))
  end.

End Cardiovascular.

(** ** The eye-image form: [static/js/eye.js] *)

Module Eye.
Import JS DOM.

(** A [File]: name, MIME type and size in bytes. *)
Record File : Type := mkFile {
  file_name : string;
  file_type : string;
  file_size : Z
}.

(** The preview block: the image source, the name and size lines, and
    which of the upload area and the preview is displayed. *)
Record Preview : Type := mkPreview {
  previewImage_src : string;
  imageName : string;
  imageSize : string;
  uploadArea_display : string;
  imagePreview_display : string
}.

Record Card : Type := mkCard {
  card_display : string;
  card_class : bool;
  card_message : string
}.

(** The state of an [EyeDiseaseDetector]: the fields the methods below
    read and write.  [reads] are the files handed to a [FileReader] whose
    [onload] has not run yet; [requests] counts the requests sent;
    [fileInput_value] is the value of the file input. *)
Record Detector : Type := mkDetector {
  currentFile : option File;
  hasResults : bool;
  preview : Preview;
  fileInput_value : string;
  analyzeBtn_disabled : bool;
  loading : bool;
  errorCard : Card;
  resultsCard : Card;
  reads : list File;
  requests : nat
}.

Definition validTypes : list string :=
  [ "image/jpeg"; "image/jpg"; "image/png"; "image/gif"; "image/bmp" ].

Definition maxSize : Z := 10 * 1024 * 1024.

(** [hideResults()] *)
Definition hideResults (d : Detector) : Detector :=
  mkDetector (currentFile d) (hasResults d) (preview d) (fileInput_value d)
    (analyzeBtn_disabled d) (loading d) (errorCard d)
    (mkCard "none" false (card_message (resultsCard d)))
    (reads d) (requests d).

(** [showError(message)] *)
Definition showError (message : string) (d : Detector) : Detector :=
  hideResults
    (mkDetector (currentFile d) (hasResults d) (preview d) (fileInput_value d)
       (analyzeBtn_disabled d) (loading d)
       (mkCard "block" true message)
       (resultsCard d) (reads d) (requests d)).

(** [hideError()] *)
Definition hideError (d : Detector) : Detector :=
  mkDetector (currentFile d) (hasResults d) (preview d) (fileInput_value d)
    (analyzeBtn_disabled d) (loading d)
    (mkCard "none" false (card_message (errorCard d)))
    (resultsCard d) (reads d) (requests d).

(** [displayImagePreview(file)]: the read is started; the preview changes
    when it completes. *)
Definition displayImagePreview (file : File) (d : Detector) : Detector :=
  mkDetector (currentFile d) (hasResults d) (preview d) (fileInput_value d)
    (analyzeBtn_disabled d) (loading d) (errorCard d) (resultsCard d)
    (reads d ++ [file])%list (requests d).

(** [processFile(file)] *)
Definition processFile (file : File) (d : Detector) : Detector :=
  if negb (existsb (String.eqb (file_type file)) validTypes) then
    showError "Please select a valid image file (PNG, JPG, JPEG, GIF, BMP)" d
  else if file_size file >? maxSize then
    showError "File size must be less than 10MB" d
  else
    let d := mkDetector (Some file) (hasResults d) (preview d)
               (fileInput_value d) (analyzeBtn_disabled d) (loading d)
               (errorCard d) (resultsCard d) (reads d) (requests d) in
    let d := displayImagePreview file d in
    let d := mkDetector (currentFile d) (hasResults d) (preview d)
               (fileInput_value d) false (loading d)
               (errorCard d) (resultsCard d) (reads d) (requests d) in
    hideError d.

(** [removeImage()] *)
Definition removeImage (d : Detector) : Detector :=
  hideError
    (hideResults
       (mkDetector None (hasResults d)
          (mkPreview "" "" "" "block" "none") ""
          true (loading d) (errorCard d) (resultsCard d)
          (reads d) (requests d))).

(** [setLoadingState(isLoading)] *)
Definition setLoadingState (isLoading : bool) (d : Detector) : Detector :=
  mkDetector (currentFile d) (hasResults d) (preview d) (fileInput_value d)
    isLoading isLoading (errorCard d) (resultsCard d) (reads d) (requests d).

(** [analyzeImage()] up to the request. *)
Definition analyzeImage (d : Detector) : Detector :=
  match currentFile d with
  | None => showError "Please select an image first" d
  | Some _ =>
      let d := hideResults (hideError (setLoadingState true d)) in
      mkDetector (currentFile d) (hasResults d) (preview d)
        (fileInput_value d) (analyzeBtn_disabled d) (loading d)
        (errorCard d) (resultsCard d) (reads d) (S (requests d))
  end.

(** [startNewAnalysis()] *)
Definition startNewAnalysis (d : Detector) : Detector :=
  hideError (hideResults (removeImage d)).

(** The icon class [displayResults] adds for a detected class. *)
Definition iconTier (detected_class : string) : string :=
  if String.eqb (toLowerCase detected_class) "normal" then "success"
  else if String.eqb (toLowerCase detected_class) "other" then "warning"
  else "danger".

(** [formatClassName(className)] *)
Definition classNameMap : list (string * string) :=
  [ ("Cataract", "Cataract");
    ("Diabetic_Retinopathy", "Diabetic Retinopathy");
    ("Glaucoma", "Glaucoma");
    ("Normal", "Normal");
    ("Other", "Other") ].

(** The names every object literal inherits from [Object.prototype]:
    [classNameMap[className]] finds a member that is not a string for
    these. *)
Definition objectPrototypeKeys : list string :=
  [ "constructor"; "__defineGetter__"; "__defineSetter__";
    "hasOwnProperty"; "__lookupGetter__"; "__lookupSetter__";
    "isPrototypeOf"; "propertyIsEnumerable"; "toString"; "valueOf";
    "__proto__"; "toLocaleString" ].

(** The string returned, or [None] when the value returned is the
    inherited member, which is truthy and not a string. *)
Definition formatClassName (className : string) : option string :=
  match List.find (fun kv => String.eqb (fst kv) className) classNameMap with
  | Some (_, label) => Some label
  | None =>
      if existsb (String.eqb className) objectPrototypeKeys then None
      else Some (Main.underscoresToSpaces className)
  end.

Section Reading.
(** What the browser computes for a file: the data URL a [FileReader]
    yields, and the text [formatFileSize] prints for a byte count. *)
Variable dataURL : File -> string.
Variable formatFileSize : Z -> string.

(** [reader.onload] of [displayImagePreview]: the oldest read started
    completes. *)
Definition readComplete (d : Detector) : Detector :=
  match reads d with
  | [] => d
  | file :: rest =>
      mkDetector (currentFile d) (hasResults d)
        (mkPreview (dataURL file) (file_name file)
                   (formatFileSize (file_size file)) "none" "block")
        (fileInput_value d) (analyzeBtn_disabled d) (loading d)
        (errorCard d) (resultsCard d) rest (requests d)
  end.
End Reading.

End Eye.

(** ** Sign-in and registration: the script after the earlier lung-cancer
       form in [part_001] *)

Module Auth.
Import JS DOM.

(** A character the class [[^\s@]] accepts. *)
Definition isAddressChar (c : ascii) : bool :=
  negb (isWhiteSpace c) && negb (Ascii.eqb c "@").

Fixpoint allChars (f : ascii -> bool) (s : string) : bool :=
  match s with
  | String c s' => f c && allChars f s'
  | EmptyString => true
  end.

(** The domain part of [isValidEmail]: [[^\s@]+\.[^\s@]+] up to the end of
    the string.  [seen] tells whether at least one character precedes. *)
Fixpoint domainPart (seen : bool) (s : string) : bool :=
  match s with
  | String c s' =>
      (seen && Ascii.eqb c "." && negb (String.eqb s' "") &&
       allChars isAddressChar s') ||
      (isAddressChar c && domainPart true s')
  | EmptyString => false
  end.

(** The local part and the [@]: [^[^\s@]+@]. *)
Fixpoint localPart (seen : bool) (s : string) : bool :=
  match s with
  | String c s' =>
      if Ascii.eqb c "@" then seen && domainPart false s'
      else isAddressChar c && localPart true s'
  | EmptyString => false
  end.

(** [isValidEmail(email)]: [/^[^\s@]+@[^\s@]+\.[^\s@]+$/.test(email)] *)
Definition isValidEmail (email : string) : bool := localPart false email.

Definition isAlnum (c : ascii) : bool :=
  let n := nat_of_ascii c in
  (Nat.leb 48 n && Nat.leb n 57) || (Nat.leb 65 n && Nat.leb n 90) ||
  (Nat.leb 97 n && Nat.leb n 122).

(** [isValidUsername(username)]: [/^[a-zA-Z0-9]{3,20}$/.test(username)] *)
Definition isValidUsername (username : string) : bool :=
  allChars isAlnum username &&
  Nat.leb 3 (String.length username) && Nat.leb (String.length username) 20.

(** [isValidAge(age)] *)
Definition isValidAge (age : string) : bool :=
  let ageNum := parseInt age in
  negb (isNaN ageNum) && ge ageNum (of_Z 1) && le ageNum (of_Z 120).

(** The object [formData] of the registration form; [email] and
    [password] are missing until the listener sets them. *)
Record RegistrationData : Type := mkRegistration {
  email : option string;
  password : option string;
  username : string;
  age : string;
  city : string
}.

(** [!x] on a property that is a string or missing. *)
Definition missing (x : option string) : bool :=
  match x with
  | Some s => String.eqb s ""
  | None => true
  end.

(** [validateRegistrationForm(formData, isGoogleRegistration)]: the result
    and the error message shown, if any. *)
Definition validateRegistrationForm
    (formData : RegistrationData) (isGoogleRegistration : bool)
  : bool * option string :=
  if negb isGoogleRegistration &&
     (missing (email formData) || missing (password formData)) then
    (false, Some "Email and password are required")
  else if negb isGoogleRegistration &&
          negb (isValidEmail (default "" (email formData))) then
    (false, Some "Please enter a valid email address")
  else if negb isGoogleRegistration &&
          Nat.ltb (String.length (default "" (password formData))) 6 then
    (false, Some "Password must be at least 6 characters long")
  else if String.eqb (username formData) "" then
    (false, Some "Username is required")
  else if negb (isValidUsername (username formData)) then
    (false, Some "Username must be 3-20 characters and contain only letters and numbers")
  else if String.eqb (age formData) "" then
    (false, Some "Age is required")
  else if negb (isValidAge (age formData)) then
    (false, Some "Age must be between 1 and 120")
  else (true, None).

(** [s.replace(/[^a-zA-Z0-9]/g, '')] *)
Fixpoint keepAlnum (s : string) : string :=
  match s with
  | String c s' => if isAlnum c then String c (keepAlnum s') else keepAlnum s'
  | EmptyString => EmptyString
  end.

(** The user name [completeGoogleRegistration] puts in the form for a
    Google display name, if any. *)
Definition prefillUsername (name : string) : option string :=
  if String.eqb name "" then None
  else
    let cleanName := toLowerCase (keepAlnum name) in
    if Nat.leb 3 (String.length cleanName) &&
       Nat.leb (String.length cleanName) 20
    then Some cleanName else None.

End Auth.

(** ** Vocabulary and sample pages for the statements *)

Module Samples.
Import JS DOM.

(** [entry] occurs in [s] up to the case of ASCII letters. *)
Definition matches_nocase (s entry : string) : Prop :=
  exists a m b, s = a +:+ m +:+ b /\ toLowerCase m = entry.

(** An input of a form, found under its id, holding [v]. *)
Definition input (i v : string) : Element := mkElement i "" v [] None.

Definition inputs_of (l : list (string * string)) : gmap string Element :=
  list_to_map (List.map (fun kv => (fst kv, input (fst kv) (snd kv))) l).

(** The earlier lung-cancer form with two fields out of range. *)
Definition lung_two_bad : LungLegacy.Page :=
  LungLegacy.mkPage
    (inputs_of
       [ ("age", "45"); ("smoking", "2"); ("yellow_fingers", "0");
         ("anxiety", "7"); ("peer_pressure", "0"); ("chronic_disease", "0");
         ("fatigue", "0"); ("allergy", "0"); ("wheezing", "0");
         ("alcohol_consuming", "0"); ("coughing", "0");
         ("shortness_of_breath", "0"); ("swallowing_difficulty", "0");
         ("chest_pain", "0") ])
    (Some "1") (mkButton false "🔬 Analyze Risk Factors") 0.

(** The heart-disease form before anything is entered. *)
Definition cardio_blank : CardioBlocking.Page :=
  CardioBlocking.mkPage ∅ ∅
    (Some (CardioBlocking.mkSubmitButton false "" "")) None 0.

(** A filled cardiovascular risk form. *)
Definition cv_filled : CV.Page :=
  CV.mkPage [ ("age", "50"); ("gender", "2"); ("height", "175");
              ("weight", "70"); ("ap_hi", "120"); ("ap_lo", "80");
              ("cholesterol", "1"); ("gluc", "1"); ("smoke", "0");
              ("alco", "0"); ("active", "1") ] 0.

(** The COVID-19 form, every field holding a value inside its normal
    range (the script's demo data), validated, with one request sent. *)
Definition covid_demo_values : list (string * string) :=
  [ ("age", "45"); ("leukocytes", "8.2"); ("neutrophilsP", "65");
    ("lymphocytesP", "25"); ("monocytesP", "7"); ("eosinophilsP", "2");
    ("basophilsP", "1"); ("neutrophils", "5.33"); ("lymphocytes", "2.05");
    ("monocytes", "0.57"); ("eosinophils", "0.16"); ("basophils", "0.08");
    ("redbloodcells", "4.5"); ("mcv", "88"); ("mch", "30"); ("mchc", "34");
    ("rdwP", "13"); ("hemoglobin", "14"); ("hematocritP", "42");
    ("platelets", "250"); ("mpv", "9") ].

Definition covid_demo : Covid.Page :=
  Covid.mkPage (inputs_of covid_demo_values)
               (Some (mkButton false "Get COVID-19 Assessment")) (Some (of_Z 0)) 0.

Definition eye_blank : Eye.Detector :=
  Eye.mkDetector None false (Eye.mkPreview "" "" "" "block" "none") ""
    true false (Eye.mkCard "none" false "") (Eye.mkCard "none" false "")
    [] 0.

(** The lung-cancer form filled in: an age, every binary field 0 or 1,
    and a gender chosen. *)
Definition lung_filled : LungCancer.Form :=
  LungCancer.mkForm
    (inputs_of
       [ ("age", "61"); ("smoking", "1"); ("yellow_fingers", "0");
         ("anxiety", "0"); ("peer_pressure", "0"); ("chronic_disease", "1");
         ("fatigue", "1"); ("allergy", "0"); ("wheezing", "1");
         ("alcohol_consuming", "0"); ("coughing", "1");
         ("shortness_of_breath", "1"); ("swallowing_difficulty", "0");
         ("chest_pain", "1") ])
    {[ "gender" := "1" ]}.

End Samples.
(** ** Facts about the host language *)

Module JSFacts.
Import JS.

(** *** Order on numbers *)

Lemma lt_is_not_ge (x y : number) :
  isNaN x = false -> isNaN y = false -> lt x y = negb (le y x).
Proof.
  unfold lt, le, SFltb, SFleb.
  destruct x as [sx|sx| |sx mx ex], y as [sy|sy| |sy my ey];
    cbn; try discriminate; intros _ _;
    try (destruct sx; reflexivity); try (destruct sy; reflexivity);
    try (destruct sx, sy; reflexivity).
  destruct sx, sy; try reflexivity;
    rewrite (Z.compare_antisym ex ey);
    destruct (ex ?= ey); cbn; try reflexivity;
    change (Pos.compare_cont Eq my mx) with (Pos.compare my mx);
    change (Pos.compare_cont Eq mx my) with (Pos.compare mx my);
    rewrite (Pos.compare_antisym mx my);
    destruct (mx ?= my)%positive; reflexivity.
Qed.

Lemma gt_is_not_le (x y : number) :
  isNaN x = false -> isNaN y = false -> gt x y = negb (le x y).
Proof. intros Hx Hy. unfold gt. apply (lt_is_not_ge y x Hy Hx). Qed.

Lemma lt_NaN_l (y : number) : lt NaN y = false.
Proof. reflexivity. Qed.

Lemma lt_NaN_r (x : number) : lt x NaN = false.
Proof. destruct x; reflexivity. Qed.

Lemma le_not_NaN (x y : number) :
  le x y = true -> isNaN x = false /\ isNaN y = false.
Proof. destruct x, y; cbn; try discriminate; auto. Qed.

Lemma lt_not_NaN (x y : number) :
  lt x y = true -> isNaN x = false /\ isNaN y = false.
Proof. destruct x, y; cbn; try discriminate; auto. Qed.

Ltac order_chain :=
  intros;
  repeat match goal with
         | x : number |- _ => destruct x
         end;
  repeat match goal with
         | s : bool |- _ => destruct s
         end;
  cbn in *; try discriminate; try reflexivity;
  change (Pos.compare_cont Eq) with Pos.compare in *;
  repeat match goal with
         | H : context [Z.compare ?a ?b] |- _ =>
             destruct (Z.compare_spec a b); try discriminate
         | |- context [Z.compare ?a ?b] =>
             destruct (Z.compare_spec a b); try reflexivity; try lia
         end;
  subst;
  repeat match goal with
         | H : context [Pos.compare ?a ?b] |- _ =>
             destruct (Pos.compare_spec a b); cbn in H; try discriminate
         | |- context [Pos.compare ?a ?b] =>
             destruct (Pos.compare_spec a b); cbn; try reflexivity; try lia
         end.

(** [a < b], [b <= x] and [x < a] cannot hold together. *)
Lemma lt_le_chain (a b x : number) :
  lt a b = true -> le b x = true -> lt x a = false.
Proof.
  unfold lt, le, SFltb, SFleb. order_chain.
Qed.

(** [a <= b] and [b <= x] exclude [x < a]. *)
Lemma le_le_chain (a b x : number) :
  le a b = true -> le b x = true -> lt x a = false.
Proof.
  unfold lt, le, SFltb, SFleb. order_chain.
Qed.

(** [a < b] and [b < x] give [a < x]. *)
Lemma lt_trans (a b x : number) :
  lt a b = true -> lt b x = true -> lt a x = true.
Proof.
  unfold lt, SFltb. order_chain.
Qed.

(** [a < b] excludes [b < a]. *)
Lemma lt_asym (a b : number) : lt a b = true -> lt b a = false.
Proof.
  unfold lt, SFltb. order_chain.
Qed.

(** *** Prefixes and substrings *)

Lemma app_cons (c : ascii) (a b : string) :
  String c a +:+ b = String c (a +:+ b).
Proof. reflexivity. Qed.

Lemma app_nil (b : string) : "" +:+ b = b.
Proof. reflexivity. Qed.

Ltac ssimpl :=
  rewrite ?app_cons, ?app_nil;
  cbn [startsWith includes toLowerCase join drop replace String.length
       orb andb].
Tactic Notation "ssimpl" "in" hyp(H) :=
  rewrite ?app_cons, ?app_nil in H;
  cbn [startsWith includes toLowerCase join drop replace String.length
       orb andb] in H.

Lemma startsWith_app (p r : string) : startsWith p (p +:+ r) = true.
Proof.
  induction p as [|a p IH]; ssimpl; [reflexivity|].
  now rewrite Ascii.eqb_refl, IH.
Qed.

Lemma startsWith_spec (p s : string) :
  startsWith p s = true <-> exists r, s = p +:+ r.
Proof.
  split.
  - revert s. induction p as [|a p IH]; intros s H.
    + now exists s.
    + destruct s as [|b s]; ssimpl in H; [discriminate|].
      apply andb_true_iff in H as [Hab Hps].
      apply Ascii.eqb_eq in Hab. subst b.
      destruct (IH s Hps) as [r ->]. now exists r.
  - intros [r ->]. apply startsWith_app.
Qed.

Lemma app_assoc_s (a b c : string) : (a +:+ b) +:+ c = a +:+ (b +:+ c).
Proof. induction a as [|x a IH]; ssimpl; [reflexivity|now rewrite IH]. Qed.

Lemma app_empty_r (a : string) : a +:+ "" = a.
Proof. induction a as [|x a IH]; ssimpl; [reflexivity|now rewrite IH]. Qed.

Lemma includes_startsWith (s t : string) :
  startsWith t s = true -> includes s t = true.
Proof. destruct s; cbn [includes]; intros ->; reflexivity. Qed.

Lemma includes_spec (s t : string) :
  includes s t = true <-> exists a b, s = a +:+ t +:+ b.
Proof.
  split.
  - induction s as [|c s IH]; ssimpl; intros H.
    + rewrite orb_false_r in H. apply startsWith_spec in H as [r Hr].
      now exists "", r.
    + apply orb_true_iff in H as [H|H].
      * apply startsWith_spec in H as [r Hr]. now exists "", r.
      * destruct (IH H) as (a & b & ->). now exists (String c a), b.
  - intros (a & b & ->). induction a as [|c a IH]; ssimpl.
    + apply includes_startsWith, startsWith_app.
    + rewrite IH. apply orb_true_r.
Qed.

Lemma includes_refl (s : string) : includes s s = true.
Proof. apply includes_spec. exists "", "". now rewrite app_empty_r. Qed.

Lemma includes_trans (s t u : string) :
  includes s t = true -> includes t u = true -> includes s u = true.
Proof.
  rewrite !includes_spec. intros (a & b & ->) (c & d & ->).
  exists (a +:+ c), (d +:+ b). now rewrite !app_assoc_s.
Qed.

Lemma includes_app_l (a b t : string) :
  includes a t = true -> includes (a +:+ b) t = true.
Proof.
  rewrite !includes_spec. intros (x & y & ->).
  exists x, (y +:+ b). now rewrite !app_assoc_s.
Qed.

Lemma includes_app_r (a b t : string) :
  includes b t = true -> includes (a +:+ b) t = true.
Proof.
  rewrite !includes_spec. intros (x & y & ->).
  exists (a +:+ x), y. now rewrite !app_assoc_s.
Qed.

(** Every element of a joined list occurs in the result. *)
Lemma includes_join (sep x : string) (l : list string) :
  In x l -> includes (join sep l) x = true.
Proof.
  induction l as [|y l IH]; [intros []|].
  intros [->|Hx].
  - destruct l as [|z l]; ssimpl.
    + apply includes_refl.
    + apply includes_app_l, includes_refl.
  - destruct l as [|z l]; [destruct Hx|].
    ssimpl. apply includes_app_r, includes_app_r, IH, Hx.
Qed.

(** *** Lower case *)

Lemma toLowerCase_app (a b : string) :
  toLowerCase (a +:+ b) = toLowerCase a +:+ toLowerCase b.
Proof. induction a as [|c a IH]; ssimpl; [reflexivity|now rewrite IH]. Qed.

Lemma toLowerCase_length (a : string) :
  String.length (toLowerCase a) = String.length a.
Proof. induction a as [|c a IH]; ssimpl; [reflexivity|now rewrite IH]. Qed.

(** A string split after lowering comes from a split of the original. *)
Lemma toLowerCase_split (s x y : string) :
  toLowerCase s = x +:+ y ->
  exists a b, s = a +:+ b /\ toLowerCase a = x /\ toLowerCase b = y.
Proof.
  revert s. induction x as [|c x IH]; intros s H.
  - exists "", s. auto.
  - destruct s as [|d s]; [discriminate|].
    ssimpl in H. injection H as Hc Hs.
    destruct (IH s Hs) as (a & b & -> & Ha & Hb).
    exists (String d a), b. ssimpl. now rewrite Hc, Ha.
Qed.

End JSFacts.

(** ** Properties of the COVID-19 form *)

Module CovidFacts.
Import JS DOM Covid JSFacts.

(** *** Class lists *)

Lemma contains_app (cl1 cl2 : list string) (c : string) :
  contains (cl1 ++ cl2)%list c = contains cl1 c || contains cl2 c.
Proof. unfold contains. apply existsb_app. Qed.

Lemma contains_add (cl : list string) (c d : string) :
  contains (add cl c) d = contains cl d || String.eqb d c.
Proof.
  unfold add. destruct (contains cl c) eqn:E.
  - destruct (String.eqb d c) eqn:Edc; [|now rewrite orb_false_r].
    apply String.eqb_eq in Edc. subst d. now rewrite E.
  - rewrite contains_app. cbn. now rewrite orb_false_r.
Qed.

Lemma contains_remove (cl cs : list string) (d : string) :
  contains (remove cl cs) d = contains cl d && negb (contains cs d).
Proof.
  unfold remove, contains. induction cl as [|c cl IH]; [reflexivity|].
  cbn [List.filter existsb].
  destruct (String.eqb d c) eqn:Edc.
  - apply String.eqb_eq in Edc. subst c.
    destruct (existsb (String.eqb d) cs); cbn [negb andb orb existsb].
    + rewrite IH. now rewrite andb_false_r.
    + now rewrite String.eqb_refl.
  - destruct (negb (existsb (String.eqb c) cs)); cbn [existsb orb];
      rewrite ?Edc; exact IH.
Qed.

Lemma cleared_contains (field : Element) (d : string) :
  contains ["valid"; "invalid"; "abnormal"] d = true ->
  contains (cleared field) d = false.
Proof.
  intros H. unfold cleared. rewrite contains_remove, H. apply andb_false_r.
Qed.

Lemma validity_cleared (field : Element) :
  validity (set_classList field (cleared field)) = empty.
Proof.
  unfold validity. cbn [classList set_classList].
  now rewrite !cleared_contains.
Qed.

Lemma validity_marked (field field' : Element) (c : string) :
  classList field' = add (cleared field) c ->
  validity field' =
    if String.eqb "invalid" c then invalid
    else if String.eqb "abnormal" c then valid_abnormal
    else if String.eqb "valid" c then valid_normal
    else empty.
Proof.
  intros H. unfold validity. rewrite H, !contains_add.
  now rewrite !cleared_contains.
Qed.

(** *** Ranges *)

Lemma within_not_NaN (lo hi v : number) :
  within lo hi v = true -> isNaN v = false.
Proof.
  unfold within. intros H. apply andb_true_iff in H as [H _].
  now apply le_not_NaN in H.
Qed.

(** The script's test [v < lo || v > hi] is the complement of
    [lo <= v <= hi] on numbers. *)
Lemma outside_is_not_within (lo hi v : number) :
  isNaN lo = false -> isNaN hi = false -> isNaN v = false ->
  lt v lo || gt v hi = negb (within lo hi v).
Proof.
  intros Hlo Hhi Hv. unfold within.
  rewrite (lt_is_not_ge v lo Hv Hlo), (gt_is_not_le v hi Hv Hhi).
  now rewrite negb_andb.
Qed.

Lemma wf_rangeb_spec (r : Range) : wf_rangeb r = true -> wf_range r.
Proof.
  unfold wf_rangeb, wf_range. intros H.
  apply andb_true_iff in H as [H Hn]. apply andb_true_iff in H as [Hmin Hmax].
  apply negb_true_iff in Hmin, Hmax.
  repeat split; try assumption.
  destruct (normal r) as [[lo hi]|]; [|exact I].
  apply andb_true_iff in Hn as [Hlo Hhi].
  now apply negb_true_iff in Hlo, Hhi.
Qed.

Lemma wf_table_check (t : gmap string Range) :
  forallb (fun kr => wf_rangeb (snd kr)) (map_to_list t) = true ->
  wf_table t.
Proof.
  intros H k r Hk. rewrite forallb_forall in H.
  apply elem_of_map_to_list in Hk. apply list_elem_of_In in Hk.
  apply wf_rangeb_spec. exact (H _ Hk).
Qed.

Lemma validationRanges_wf : wf_table validationRanges.
Proof. apply wf_table_check. vm_compute. reflexivity. Qed.

(** *** The validator *)

Lemma validateField_in_tier
    (ranges : gmap string Range) (field : Element) (spec : Range) :
  ranges !! fieldName field = Some spec ->
  validity (snd (validateField_in ranges field)) = tier_of spec (value field) /\
  fst (validateField_in ranges field) = is_valid (tier_of spec (value field)).
Proof.
  intros Hspec. unfold validateField_in, tier_of. rewrite Hspec.
  cbn [value set_classList classList].
  destruct (String.eqb (value field) "").
  { cbn [fst snd]. split; [apply validity_cleared|reflexivity]. }
  destruct (isNaN (parseFloat (value field))).
  { cbn [fst snd]. split; [|reflexivity].
    now rewrite (validity_marked field _ "invalid"). }
  destruct (lt (parseFloat (value field)) (min spec)
            || gt (parseFloat (value field)) (max spec)).
  { cbn [fst snd]. split; [|reflexivity].
    now rewrite (validity_marked field _ "invalid"). }
  destruct (normal spec) as [[lo hi]|].
  - destruct (lt (parseFloat (value field)) lo
              || gt (parseFloat (value field)) hi); cbn [fst snd];
      (split; [|reflexivity]).
    + now rewrite (validity_marked field _ "abnormal").
    + now rewrite (validity_marked field _ "valid").
  - cbn [fst snd]. split; [|reflexivity].
    now rewrite (validity_marked field _ "valid").
Qed.

Lemma and_more (A B C D E F G : Prop) :
  A /\ B /\ C /\ D /\ E -> F -> G -> A /\ B /\ C /\ D /\ E /\ F /\ G.
Proof. tauto. Qed.

(** [validateNumericInput] has two outcomes only. *)
Lemma validateNumericInput_range
    (input : Element) (lo hi : number) (label : string) :
  isNaN lo = false -> isNaN hi = false ->
  (fst (Main.validateNumericInput input lo hi label) = true <->
     within lo hi (parseFloat (value input)) = true) /\
  (value input = "" ->
     Main.validateNumericInput input lo hi label
     = (false, [Alert ("Please enter a valid number for " +:+ label);
                Focus (id input)])).
Proof.
  intros Hlo Hhi. unfold Main.validateNumericInput. split.
  - destruct (isNaN (parseFloat (value input))) eqn:Hv.
    + cbn [fst]. split; [discriminate|].
      intros H. apply within_not_NaN in H. congruence.
    + rewrite (outside_is_not_within _ _ _ Hlo Hhi Hv).
      destruct (within lo hi _); cbn; tauto.
  - intros ->. reflexivity.
Qed.

(** C1, as the two validators have it.  For a field of the COVID form with
    a range specification whose bounds are numbers, and every raw value,
    read with [parseFloat]: [validateField] marks the field invalid
    exactly when the value is not empty and either does not parse as a
    number or parses below [min] or above [max]; abnormal exactly when the
    parsed value lies in [[min, max]] (bounds included) and outside the
    declared normal range; valid exactly when it lies in [[min, max]] and
    inside the normal range, or no normal range is declared; and leaves it
    unmarked (empty) exactly when the value is the empty string.  The
    returned boolean is true exactly in the two valid tiers.
    [validateNumericInput], on the same value and bounds, has two outcomes
    only: it accepts exactly when the parsed value lies in [[min, max]],
    and it rejects the empty string as not a number. *)
Theorem validateField_tiers
    (ranges : gmap string Range) (field : Element) (spec : Range)
    (label : string) :
  ranges !! fieldName field = Some spec ->
  wf_range spec ->
  let v := parseFloat (value field) in
  let r := validity (snd (validateField_in ranges field)) in
  (r = empty <-> value field = "") /\
  (r = invalid <->
     value field <> "" /\
     (isNaN v = true \/ lt v (min spec) = true \/ gt v (max spec) = true)) /\
  (r = valid_abnormal <->
     value field <> "" /\ within (min spec) (max spec) v = true /\
     exists lo hi, normal spec = Some (lo, hi) /\ within lo hi v = false) /\
  (r = valid_normal <->
     value field <> "" /\ within (min spec) (max spec) v = true /\
     match normal spec with
     | Some (lo, hi) => within lo hi v = true
     | None => True
     end) /\
  (fst (validateField_in ranges field) = true <->
     r = valid_abnormal \/ r = valid_normal) /\
  (fst (Main.validateNumericInput field (min spec) (max spec) label) = true <->
     within (min spec) (max spec) v = true) /\
  (value field = "" ->
     Main.validateNumericInput field (min spec) (max spec) label
     = (false, [Alert ("Please enter a valid number for " +:+ label);
                Focus (id field)])).
Proof.
  intros Hspec (Hmin & Hmax & Hnormal) v r.
  destruct (validateNumericInput_range field (min spec) (max spec) label
              Hmin Hmax) as [Hnum Hblank].
  apply and_more; [|exact Hnum|exact Hblank]. clear Hnum Hblank.
  destruct (validateField_in_tier ranges field spec Hspec) as [Hr Hb].
  subst r. rewrite Hr, Hb. clear Hr Hb. unfold tier_of. fold v.
  destruct (String.eqb_spec (value field) "") as [He|He].
  { rewrite He. cbn [is_valid].
    repeat split; try discriminate; try tauto; intros H;
      try (destruct H as [H _]; now elim H); now destruct H. }
  destruct (isNaN v) eqn:Hv.
  { cbn [is_valid].
    assert (Hw : forall lo hi, within lo hi v = false).
    { intros lo hi. destruct (within lo hi v) eqn:E; [|reflexivity].
      apply within_not_NaN in E. congruence. }
    repeat split; try discriminate; try tauto; auto;
      try (intros (_ & H & _); rewrite Hw in H; discriminate);
      try (intros [H|H]; discriminate). }
  rewrite (outside_is_not_within _ _ v Hmin Hmax Hv).
  destruct (within (min spec) (max spec) v) eqn:Hin; cbn [negb].
  2: { cbn [is_valid].
       assert (Hout : lt v (min spec) = true \/ gt v (max spec) = true).
       { pose proof (outside_is_not_within _ _ v Hmin Hmax Hv) as E.
         rewrite Hin in E. cbn in E. apply orb_true_iff in E. exact E. }
       repeat split; try discriminate; try tauto; auto;
         try (intros (_ & H & _); discriminate);
         try (intros [H|H]; discriminate). }
  assert (Hnot : ~ (isNaN v = true \/ lt v (min spec) = true \/
                    gt v (max spec) = true)).
  { pose proof (outside_is_not_within _ _ v Hmin Hmax Hv) as E.
    rewrite Hin in E. cbn in E. apply orb_false_iff in E as [E1 E2].
    intros [H|[H|H]]; congruence. }
  destruct (normal spec) as [[lo hi]|].
  - destruct Hnormal as [Hlo Hhi].
    rewrite (outside_is_not_within lo hi v Hlo Hhi Hv).
    destruct (within lo hi v) eqn:Hn; cbn [negb is_valid];
      repeat split; try discriminate; try tauto; auto;
      try (intros (_ & _ & lo' & hi' & E & H); injection E as <- <-;
           congruence);
      try (intros (_ & _ & H); congruence);
      try (intros (_ & [H|H]); [discriminate|exfalso; apply Hnot; tauto]);
      try (now exists lo, hi).
  - cbn [is_valid].
    repeat split; try discriminate; try tauto; auto;
      try (intros (_ & _ & lo' & hi' & E & _); discriminate);
      try (intros (_ & [H|H]); [discriminate|exfalso; apply Hnot; tauto]).
Qed.

Lemma validateField_tiers_witness :
  validity (snd (validateField
                   (mkElement "leukocytes" "" "3.6" ["form-control"] None)))
  = valid_abnormal.
Proof.
  pose (field := mkElement "leukocytes" "" "3.6" ["form-control"] None).
  pose (spec := mkRange (lit 35 1) (lit 150 1) "10¬≥/ŒºL"
                        (Some (lit 40 1, lit 110 1))).
  assert (Hspec : validationRanges !! fieldName field = Some spec)
    by (vm_compute; reflexivity).
  assert (Hwf : wf_range spec) by (vm_compute; auto).
  destruct (validateField_tiers validationRanges field spec "White cells"
              Hspec Hwf) as (_ & _ & [_ H] & _).
  apply H. split; [discriminate|]. split; [vm_compute; reflexivity|].
  exists (lit 40 1), (lit 110 1). split; vm_compute; reflexivity.
Defined.

(** *** Submit eligibility and progress *)

Lemma validity_invalid (field : Element) :
  validity field = invalid <-> contains (classList field) "invalid" = true.
Proof.
  unfold validity. destruct (contains (classList field) "invalid").
  - tauto.
  - destruct (contains (classList field) "abnormal");
      [|destruct (contains (classList field) "valid")];
      split; discriminate.
Qed.

Lemma validity_valid (field : Element) :
  validity field = valid_abnormal \/ validity field = valid_normal ->
  contains (classList field) "invalid" = false.
Proof.
  unfold validity. destruct (contains (classList field) "invalid");
    [intros [H|H]; discriminate|reflexivity].
Qed.

Lemma filled_false (dom : gmap string Element) (f : string) :
  filled dom f = false <->
  dom !! f = None \/
  exists field, dom !! f = Some field /\
                (value field = "" \/ validity field = invalid).
Proof.
  unfold filled. destruct (dom !! f) as [field|].
  - rewrite andb_false_iff, !negb_false_iff, String.eqb_eq.
    rewrite <- validity_invalid. split.
    + intros H. right. now exists field.
    + intros [H|(field' & E & H)]; [discriminate|]. now injection E as <-.
  - split; auto.
Qed.

(** C4, as the COVID form has it.  Whenever some required field is missing
    from the page, empty, or marked invalid, [updateSubmitButton] leaves
    the submit button disabled, whatever the state of the other fields. *)
Theorem updateSubmitButton_blocks (p : Page) (b : Button) (f : string) :
  submitBtn p = Some b ->
  In f requiredFields ->
  (fields p !! f = None \/
   exists field, fields p !! f = Some field /\
                 (value field = "" \/ validity field = invalid)) ->
  exists b', submitBtn (updateSubmitButton p) = Some b' /\ disabled b' = true.
Proof.
  intros Hb Hf Hbad. unfold updateSubmitButton. rewrite Hb.
  eexists. split; [reflexivity|]. cbn [disabled].
  apply negb_true_iff. apply not_true_iff_false. intros Hall.
  rewrite forallb_forall in Hall. specialize (Hall f Hf).
  apply filled_false in Hbad. congruence.
Qed.

Lemma updateSubmitButton_blocks_witness :
  exists b',
    submitBtn (updateSubmitButton
                 (mkPage {[ "age" := mkElement "age" "" "" [] None ]}
                         (Some (mkButton false "Go")) None 0)) = Some b' /\
    disabled b' = true.
Proof.
  apply (updateSubmitButton_blocks _ (mkButton false "Go") "age").
  - reflexivity.
  - cbn. auto.
  - right. exists (mkElement "age" "" "" [] None).
    split; [vm_compute; reflexivity|left; reflexivity].
Defined.

Lemma filter_length_mono {A : Type} (p q : A -> bool) (l : list A) :
  (forall x, In x l -> p x = true -> q x = true) ->
  (List.length (List.filter p l) <= List.length (List.filter q l))%nat.
Proof.
  induction l as [|a l IH]; intros H; [reflexivity|].
  cbn [List.filter].
  assert (IH' := IH (fun x Hx => H x (or_intror Hx))).
  pose proof (H a (or_introl eq_refl)) as Ha.
  destruct (p a), (q a); cbn [List.length];
    try lia; try discriminate (Ha eq_refl).
Qed.

Lemma filter_length_le {A : Type} (p : A -> bool) (l : list A) :
  (List.length (List.filter p l) <= List.length l)%nat.
Proof.
  induction l as [|a l IH]; [reflexivity|].
  cbn [List.filter]. destruct (p a); cbn [List.length]; lia.
Qed.

(** The percentage is monotone in the count, for the 21 required fields:
    checked on every pair of counts. *)
Lemma percent_mono (c c' : nat) :
  (c <= c')%nat -> (c' <= List.length requiredFields)%nat ->
  le (percent c (List.length requiredFields))
     (percent c' (List.length requiredFields)) = true.
Proof.
  intros Hcc Hc.
  assert (Htable :
    forallb (fun a =>
      forallb (fun b =>
        le (percent a (List.length requiredFields))
           (percent b (List.length requiredFields)))
        (List.seq a (22 - a)))
      (List.seq 0 22) = true) by (vm_compute; reflexivity).
  rewrite forallb_forall in Htable.
  change (List.length requiredFields) with 21%nat in Hc.
  assert (Hin : In c (List.seq 0 22)) by (apply in_seq; lia).
  specialize (Htable c Hin). rewrite forallb_forall in Htable.
  apply Htable. apply in_seq. lia.
Qed.

Lemma percent_strict (c : nat) :
  (S c <= List.length requiredFields)%nat ->
  lt (percent c (List.length requiredFields))
     (percent (S c) (List.length requiredFields)) = true.
Proof.
  intros Hc.
  assert (Htable :
    forallb (fun a =>
      lt (percent a (List.length requiredFields))
         (percent (S a) (List.length requiredFields)))
      (List.seq 0 21) = true) by (vm_compute; reflexivity).
  rewrite forallb_forall in Htable. apply Htable.
  change (List.length requiredFields) with 21%nat in Hc.
  apply in_seq. lia.
Qed.

Lemma requiredFields_length : Z.of_nat (List.length requiredFields) = 21.
Proof. reflexivity. Qed.

Lemma requiredFields_NoDup : NoDup requiredFields.
Proof. apply (bool_decide_unpack _). vm_compute. reflexivity. Qed.

Lemma filter_length_S `{EqDecision A} (p q : A -> bool) (l : list A) (a : A) :
  NoDup l -> In a l -> p a = false -> q a = true ->
  (forall x, In x l -> x <> a -> p x = q x) ->
  List.length (List.filter q l) = S (List.length (List.filter p l)).
Proof.
  intros Hnd. induction Hnd as [|x l Hx Hnd IH]; intros Ha Hp Hq Hext.
  - destruct Ha.
  - cbn [List.filter].
    destruct (decide (x = a)) as [->|Hxa].
    + rewrite Hp, Hq. cbn [List.length]. f_equal. f_equal.
      apply filter_ext_in. intros y Hy. symmetry. apply Hext; [now right|].
      intros ->. apply Hx. now apply list_elem_of_In.
    + destruct Ha as [Ha|Ha]; [congruence|].
      rewrite (Hext x (or_introl eq_refl) Hxa).
      assert (E := IH Ha Hp Hq (fun y Hy => Hext y (or_intror Hy))).
      destruct (q x); cbn [List.length]; now rewrite E.
Qed.

(** Whatever the table of ranges, the validator leaves a field unmarked
    exactly when its value is empty. *)
Lemma validateField_in_empty (ranges : gmap string Range) (field : Element) :
  validity (snd (validateField_in ranges field)) = empty <-> value field = "".
Proof.
  unfold validateField_in. cbn [value set_classList classList].
  destruct (String.eqb_spec (value field) "") as [He|He].
  - cbn [snd]. split; [auto|intros _; apply validity_cleared].
  - split; [|contradiction]. intros H. exfalso. revert H.
    destruct (ranges !! fieldName field) as [spec|].
    2: { cbn [snd]. rewrite (validity_marked field _ "invalid") by reflexivity.
         discriminate. }
    destruct (isNaN (parseFloat (value field))).
    { cbn [snd]. rewrite (validity_marked field _ "invalid") by reflexivity.
      discriminate. }
    destruct (lt (parseFloat (value field)) (min spec)
              || gt (parseFloat (value field)) (max spec)).
    { cbn [snd]. rewrite (validity_marked field _ "invalid") by reflexivity.
      discriminate. }
    destruct (normal spec) as [[lo hi]|].
    + destruct (lt (parseFloat (value field)) lo
                || gt (parseFloat (value field)) hi); cbn [snd].
      * rewrite (validity_marked field _ "abnormal") by reflexivity.
        discriminate.
      * rewrite (validity_marked field _ "valid") by reflexivity.
        discriminate.
    + cbn [snd]. rewrite (validity_marked field _ "valid") by reflexivity.
      discriminate.
Qed.

(** On a field that shows the tier of its value, the test of
    [updateProgress] is: the tier is one of the two valid ones. *)
Lemma filled_is_valid (dom : gmap string Element) (g : string) :
  (forall e, dom !! g = Some e ->
             validity e = validity (snd (validateField e))) ->
  filled dom g =
    match dom !! g with
    | Some e => is_valid (validity (snd (validateField e)))
    | None => false
    end.
Proof.
  intros H. unfold filled. destruct (dom !! g) as [e|]; [|reflexivity].
  specialize (H e eq_refl).
  pose proof (validateField_in_empty validationRanges e) as He.
  fold validateField in He. rewrite <- H in *. clear H.
  destruct (String.eqb_spec (value e) "") as [Hv|Hv].
  - cbn [negb andb]. apply He in Hv. now rewrite Hv.
  - cbn [negb andb].
    destruct (contains (classList e) "invalid") eqn:Ec.
    + apply validity_invalid in Ec. now rewrite Ec.
    + destruct (validity e) eqn:Et; try reflexivity.
      * exfalso. apply Hv, He. reflexivity.
      * apply validity_invalid in Et. congruence.
Qed.

(** C8, as the code counts.  The percentage [updateProgress] writes on the
    bar is the number of required fields that are on the page, not empty
    and not marked invalid, divided by the 21 required fields, times 100.
    On a page whose fields all show the tier the validator gives their
    value, that number is the number of fields in the two valid tiers.
    When one field goes from empty or invalid to either valid tier and
    every other field stays as it is, the percentage does not decrease;
    for a required field the count grows by one and the percentage
    grows. *)
Theorem progress_monotone
    (dom : gmap string Element) (f : string) (field field' : Element) :
  dom !! f = Some field ->
  (value field = "" \/ validity field = invalid) ->
  value field' <> "" ->
  (validity field' = valid_abnormal \/ validity field' = valid_normal) ->
  progress dom
  = mul (div (of_Z (Z.of_nat (filledCount dom))) (of_Z 21)) (of_Z 100) /\
  (forall p width,
     fields p = dom -> progressBar p = Some width ->
     progressBar (updateProgress p) = Some (progress dom)) /\
  (validated dom -> filledCount dom = validCount dom) /\
  le (progress dom) (progress (<[f := field']> dom)) = true /\
  (In f requiredFields ->
     filledCount (<[f := field']> dom) = S (filledCount dom) /\
     lt (progress dom) (progress (<[f := field']> dom)) = true).
Proof.
  intros Hf Hbad Hne Hvalid.
  assert (Hold : filled dom f = false).
  { unfold filled. rewrite Hf. destruct Hbad as [->|Hinv]; [reflexivity|].
    apply validity_invalid in Hinv. rewrite Hinv. apply andb_false_r. }
  assert (Hnew : filled (<[f := field']> dom) f = true).
  { unfold filled. rewrite lookup_insert_eq.
    rewrite (validity_valid _ Hvalid). cbn [negb]. rewrite andb_true_r.
    apply negb_true_iff. now apply String.eqb_neq. }
  assert (Hother : forall g, g <> f ->
                     filled dom g = filled (<[f := field']> dom) g).
  { intros g Hg. unfold filled. now rewrite lookup_insert_ne by congruence. }
  split; [|split; [|split; [|split]]].
  - unfold progress, percent, filledCount.
    now rewrite requiredFields_length.
  - intros p width <- Hbar. unfold updateProgress. now rewrite Hbar.
  - intros Hval. unfold filledCount, validCount.
    erewrite filter_ext_in; [reflexivity|].
    intros g Hg. apply filled_is_valid.
    intros e He. exact (Hval g e Hg He).
  - unfold progress. apply percent_mono; [|apply filter_length_le].
    apply filter_length_mono. intros g _ Hg.
    destruct (decide (g = f)) as [->|Hgf]; [exact Hnew|].
    now rewrite <- Hother.
  - intros Hin.
    assert (E : List.length
                  (List.filter (filled (<[f := field']> dom)) requiredFields)
                = S (List.length (List.filter (filled dom) requiredFields))).
    { apply (filter_length_S _ _ _ f requiredFields_NoDup Hin Hold Hnew).
      intros g _ Hg. now apply Hother. }
    split; [exact E|].
    unfold progress. rewrite E. apply percent_strict. rewrite <- E.
    apply filter_length_le.
Qed.

Lemma progress_monotone_witness :
  lt (progress {[ "age" := mkElement "age" "" "150" ["invalid"] None ]})
     (progress (<["age" := mkElement "age" "" "45" ["valid"] None]>
                  {[ "age" := mkElement "age" "" "150" ["invalid"] None ]}))
  = true.
Proof.
  apply (progress_monotone _ "age" (mkElement "age" "" "150" ["invalid"] None)).
  - vm_compute; reflexivity.
  - right. reflexivity.
  - discriminate.
  - right. reflexivity.
  - cbn. auto.
Defined.

(** *** Validation of the whole form *)

Lemma validateField_in_fst (ranges : gmap string Range) (field : Element) :
  fst (validateField_in ranges field) =
    match ranges !! fieldName field with
    | Some spec => is_valid (tier_of spec (value field))
    | None => false
    end.
Proof.
  destruct (ranges !! fieldName field) as [spec|] eqn:E.
  - apply (validateField_in_tier ranges field spec E).
  - unfold validateField_in. rewrite E. cbn [value set_classList].
    now destruct (String.eqb (value field) "").
Qed.

Lemma strip_inv (e e0 : Element) :
  strip e = strip e0 ->
  id e = id e0 /\ name e = name e0 /\ value e = value e0 /\
  previousElementSibling e = previousElementSibling e0.
Proof. destruct e, e0. unfold strip, set_classList. cbn. intros [= -> -> -> ->]. auto. Qed.

Lemma validateField_strip (e e0 : Element) :
  strip e = strip e0 -> fst (validateField e) = fst (validateField e0).
Proof.
  intros H. apply strip_inv in H as (Hid & Hname & Hvalue & _).
  unfold validateField. rewrite !validateField_in_fst.
  unfold fieldName. now rewrite Hid, Hname, Hvalue.
Qed.

Lemma strip_validateField (e : Element) :
  strip (snd (validateField e)) = strip e.
Proof.
  unfold validateField, validateField_in.
  destruct (String.eqb _ _); [reflexivity|].
  destruct (validationRanges !! fieldName e) as [spec|]; [|reflexivity].
  destruct (isNaN _); [reflexivity|].
  destruct (_ || _); [reflexivity|].
  destruct (normal spec) as [[lo hi]|]; [|reflexivity].
  destruct (_ || _); reflexivity.
Qed.

Lemma same_inputs_lookup (dom dom0 : gmap string Element) (f : string) :
  same_inputs dom dom0 ->
  match dom !! f, dom0 !! f with
  | Some e, Some e0 => strip e = strip e0
  | None, None => True
  | _, _ => False
  end.
Proof.
  intros H. assert (E : (strip <$> dom) !! f = (strip <$> dom0) !! f)
    by now rewrite H.
  rewrite !lookup_fmap in E.
  destruct (dom !! f), (dom0 !! f); cbv [fmap option_fmap option_map] in E;
    try discriminate; auto.
  congruence.
Qed.

Lemma same_inputs_insert (dom dom0 : gmap string Element) (f : string)
      (e e' : Element) :
  same_inputs dom dom0 -> dom !! f = Some e -> strip e' = strip e ->
  same_inputs (<[f := e']> dom) dom0.
Proof.
  unfold same_inputs. intros H Hf He.
  rewrite fmap_insert, He, <- H. apply insert_id.
  now rewrite lookup_fmap, Hf.
Qed.

Lemma same_inputs_label (dom dom0 : gmap string Element) (f : string) :
  same_inputs dom dom0 -> getFieldLabel dom f = getFieldLabel dom0 f.
Proof.
  intros H. pose proof (same_inputs_lookup dom dom0 f H) as Hl.
  unfold getFieldLabel.
  destruct (dom !! f) as [e|], (dom0 !! f) as [e0|]; try contradiction;
    [|reflexivity].
  apply strip_inv in Hl as (_ & _ & _ & ->). reflexivity.
Qed.

(** One turn of the loop, read against the inputs the loop started from. *)
Lemma validateForm_step_spec
    (dom0 dom : gmap string Element) (ok : bool) (errs : list string)
    (f : string) :
  same_inputs dom dom0 ->
  exists dom',
    validateForm_step (ok, errs, dom) f =
      (ok && negb (offends dom0 f),
       (errs ++ if offends dom0 f then [error_of dom0 f] else [])%list,
       dom') /\
    same_inputs dom' dom0.
Proof.
  intros H. pose proof (same_inputs_lookup dom dom0 f H) as Hl.
  pose proof (same_inputs_label dom dom0 f H) as Hlabel.
  unfold validateForm_step, offends, error_of.
  destruct (dom !! f) as [e|] eqn:Ee, (dom0 !! f) as [e0|] eqn:Ee0;
    try contradiction.
  2: { exists dom. now rewrite andb_true_r, app_nil_r. }
  pose proof (strip_inv _ _ Hl) as (_ & _ & Hvalue & _).
  rewrite <- Hvalue, <- (validateField_strip e e0 Hl).
  destruct (String.eqb (value e) "").
  { exists dom. cbn [orb negb]. now rewrite andb_false_r, Hlabel. }
  cbn [orb].
  pose proof (strip_validateField e) as Hs.
  destruct (validateField e) as [b e'] eqn:Ev. cbn [fst snd] in *.
  assert (H' : same_inputs (<[f := e']> dom) dom0)
    by (eapply same_inputs_insert; eauto).
  exists (<[f := e']> dom). split; [|exact H'].
  destruct b; cbn [negb].
  - now rewrite andb_true_r, app_nil_r.
  - now rewrite andb_false_r, (same_inputs_label _ _ f H').
Qed.

Lemma validateForm_loop_spec
    (dom0 : gmap string Element) (l : list string)
    (dom : gmap string Element) (ok : bool) (errs : list string) :
  same_inputs dom dom0 ->
  exists dom',
    fold_left validateForm_step l (ok, errs, dom) =
      (ok && forallb (fun f => negb (offends dom0 f)) l,
       (errs ++ List.map (error_of dom0) (List.filter (offends dom0) l))%list,
       dom') /\
    same_inputs dom' dom0.
Proof.
  revert dom ok errs. induction l as [|f l IH]; intros dom ok errs H.
  - exists dom. cbn. now rewrite andb_true_r, app_nil_r.
  - cbn [fold_left forallb List.filter].
    destruct (validateForm_step_spec dom0 dom ok errs f H) as (dom1 & -> & H1).
    destruct (IH dom1 (ok && negb (offends dom0 f))
                 (errs ++ if offends dom0 f then [error_of dom0 f] else [])%list
                 H1) as (dom' & -> & H').
    exists dom'. split; [|exact H'].
    rewrite <- andb_assoc.
    destruct (offends dom0 f); cbn [List.map];
      now rewrite <- app_assoc.
Qed.

(** What [validateForm] returns and shows, in closed form. *)
Lemma validateForm_spec (p : Page) :
  exists dom',
    same_inputs dom' (fields p) /\
    validateForm p =
      (forallb (fun f => negb (offends (fields p) f)) requiredFields,
       mkPage dom' (submitBtn p) (progressBar p) (pending p),
       if forallb (fun f => negb (offends (fields p) f)) requiredFields
       then []
       else [ShowError
               (consolidated
                  (List.map (error_of (fields p))
                     (List.filter (offends (fields p)) requiredFields)))]).
Proof.
  unfold validateForm.
  destruct (validateForm_loop_spec (fields p) requiredFields (fields p)
              true [] eq_refl) as (dom' & -> & H').
  exists dom'. split; [exact H'|].
  cbn [andb app].
  now destruct (forallb _ requiredFields).
Qed.

Lemma includes_error_of (dom : gmap string Element) (f : string) :
  includes (error_of dom f) (getFieldLabel dom f) = true.
Proof. unfold error_of. apply includes_app_l, includes_refl. Qed.

Lemma includes_consolidated (errors : list string) (x : string) :
  In x errors -> includes (consolidated errors) x = true.
Proof.
  intros H. unfold consolidated.
  do 3 apply includes_app_r. now apply includes_join.
Qed.

(** The COVID half of C2: with a blocking required field, the [submit]
    listener sends nothing and shows one message that names every
    blocking field by its label. *)
Lemma onSubmit_rejects (p : Page) (f : string) :
  In f requiredFields ->
  offends (fields p) f = true ->
  exists msg,
    snd (onSubmit p) = [ShowError msg] /\
    fetches (snd (onSubmit p)) = 0%nat /\
    pending (fst (onSubmit p)) = pending p /\
    forall g, In g requiredFields -> offends (fields p) g = true ->
              includes msg (getFieldLabel (fields p) g) = true.
Proof.
  intros Hf Hoff. unfold onSubmit.
  destruct (validateForm_spec p) as (dom' & _ & ->).
  assert (Hall : forallb (fun f => negb (offends (fields p) f)) requiredFields
                 = false).
  { apply not_true_iff_false. intros Hall. rewrite forallb_forall in Hall.
    specialize (Hall f Hf). rewrite Hoff in Hall. discriminate. }
  rewrite Hall. cbn [fst snd pending].
  eexists. split; [reflexivity|]. split; [reflexivity|]. split; [reflexivity|].
  intros g Hg Hgoff.
  apply includes_trans with (t := error_of (fields p) g).
  - apply includes_consolidated. apply in_map, filter_In. auto.
  - apply includes_error_of.
Qed.

(** When no required field blocks, the listener sends exactly one
    request, to [/covid/predict]. *)
Lemma onSubmit_accepts (p : Page) :
  (forall f, In f requiredFields -> offends (fields p) f = false) ->
  exists body,
    snd (onSubmit p) = [Fetch "/covid/predict" body] /\
    pending (fst (onSubmit p)) = S (pending p) /\
    submitBtn (fst (onSubmit p)) =
      match submitBtn p with
      | Some _ => Some (mkButton true "Analyzing...")
      | None => None
      end.
Proof.
  intros Hok. unfold onSubmit.
  destruct (validateForm_spec p) as (dom' & _ & ->).
  assert (Hall : forallb (fun f => negb (offends (fields p) f)) requiredFields
                 = true).
  { apply forallb_forall. intros f Hf. now rewrite (Hok f Hf). }
  rewrite Hall. unfold submitPrediction. cbn [fst snd pending submitBtn fields app].
  eexists. repeat split; reflexivity.
Qed.

End CovidFacts.

(** ** Properties of the cardiovascular risk form *)

Module CVFacts.
Import JS DOM CV JSFacts.

Lemma not_lt_of_le (a x : number) :
  le a a = true -> le a x = true -> lt x a = false.
Proof. intros Ha Hx. exact (le_le_chain a a x Ha Hx). Qed.

Lemma In_wholeNumbers (lo n : nat) (z : Z) :
  Z.of_nat lo <= z < Z.of_nat lo + Z.of_nat n -> In z (wholeNumbers lo n).
Proof.
  intros H. unfold wholeNumbers.
  replace z with (Z.of_nat (Z.to_nat z)) by lia.
  apply in_map, in_seq. lia.
Qed.

Lemma categoriesAgree_spec (heights weights : list Z) :
  categoriesAgree heights weights = true ->
  forall h w, In h heights -> In w weights ->
    getBMICategory (bmi_of [("height", of_Z h); ("weight", of_Z w)])
    = if isRoundedDown w h then "Normal weight" else exactCategory w h.
Proof.
  unfold categoriesAgree. cbv zeta. intros G h w Hh Hw.
  rewrite forallb_forall in G. specialize (G h Hh).
  rewrite forallb_forall in G.
  specialize (G (w, of_Z w) (in_map (fun w => (w, of_Z w)) _ w Hw)).
  apply String.eqb_eq in G. exact G.
Qed.

(** Heights from 140 to 210 cm, weights from 40 to 160 kg: every pair is
    evaluated. *)
Lemma categoriesAgree_grid :
  categoriesAgree (wholeNumbers 140 71) (wholeNumbers 40 121) = true.
Proof. vm_compute. reflexivity. Qed.

(** C7, on the number the renderer computes.  From a height in
    centimetres and a weight in kilograms the renderer computes, in
    binary64, weight / ((height / 100) * (height / 100)) and names the
    computed number Underweight below 18.5, Normal weight from 18.5 to
    below 25, Overweight from 25 to below 30 and Obese from 30 on; 70 kg at
    175 cm is Normal weight and 100 kg at 170 cm is Obese.  For whole
    numbers of centimetres from 140 to 210 and of kilograms from 40 to 160
    the category shown is the category of the exact quotient, except for
    64 kg at 160 cm, which is shown as Normal weight. *)
Theorem bmi_buckets (height weight : number) :
  let bmi := div weight (mul (div height (of_Z 100)) (div height (of_Z 100))) in
  bmi_of [("height", height); ("weight", weight)] = bmi /\
  (lt bmi (lit 185 1) = true -> getBMICategory bmi = "Underweight") /\
  (le (lit 185 1) bmi = true -> lt bmi (of_Z 25) = true ->
   getBMICategory bmi = "Normal weight") /\
  (le (of_Z 25) bmi = true -> lt bmi (of_Z 30) = true ->
   getBMICategory bmi = "Overweight") /\
  (le (of_Z 30) bmi = true -> getBMICategory bmi = "Obese") /\
  getBMICategory (bmi_of [("height", of_Z 175); ("weight", of_Z 70)])
    = "Normal weight" /\
  getBMICategory (bmi_of [("height", of_Z 170); ("weight", of_Z 100)])
    = "Obese" /\
  (forall h w : Z,
     140 <= h <= 210 -> 40 <= w <= 160 ->
     getBMICategory (bmi_of [("height", of_Z h); ("weight", of_Z w)])
     = if isRoundedDown w h then "Normal weight" else exactCategory w h).
Proof.
  intros bmi. split; [reflexivity|]. unfold getBMICategory at 1 2 3 4.
  repeat split.
  - intros ->. reflexivity.
  - intros H1 H2.
    rewrite (not_lt_of_le (lit 185 1) bmi eq_refl H1), H2. reflexivity.
  - intros H1 H2.
    rewrite (lt_le_chain (lit 185 1) (of_Z 25) bmi eq_refl H1).
    rewrite (not_lt_of_le (of_Z 25) bmi eq_refl H1), H2. reflexivity.
  - intros H1.
    rewrite (lt_le_chain (lit 185 1) (of_Z 30) bmi eq_refl H1).
    rewrite (lt_le_chain (of_Z 25) (of_Z 30) bmi eq_refl H1).
    rewrite (not_lt_of_le (of_Z 30) bmi eq_refl H1). reflexivity.
  - intros h w Hh Hw.
    apply (categoriesAgree_spec _ _ categoriesAgree_grid);
      apply In_wholeNumbers; lia.
Qed.

Lemma bmi_buckets_witness :
  getBMICategory (bmi_of [("height", of_Z 170); ("weight", of_Z 80)])
  = "Overweight".
Proof.
  destruct (bmi_buckets (of_Z 170) (of_Z 80)) as (_ & _ & _ & _ & _ & _ & _ & H).
  apply (H 170 80); lia.
Defined.

End CVFacts.

(** ** Properties of the shared utilities *)

Module MainFacts.
Import JS DOM Main JSFacts Samples.

Lemma includes_lower_spec (s entry : string) :
  includes (toLowerCase s) entry = true <-> matches_nocase s entry.
Proof.
  unfold matches_nocase. rewrite includes_spec. split.
  - intros (x & y & H).
    apply toLowerCase_split in H as (a & r & -> & Ha & Hr).
    apply toLowerCase_split in Hr as (m & b & -> & Hm & Hb).
    now exists a, m, b.
  - intros (a & m & b & -> & Hm).
    exists (toLowerCase a), (toLowerCase b).
    now rewrite !toLowerCase_app, Hm.
Qed.

(** C6, for the shared renderer and the lung-cancer renderer.  A
    prediction is classified high risk exactly when it contains, up to
    letter case, "high risk" or "positive"; otherwise low risk.  "High
    Risk", "HIGH RISK" and "positive" are high risk; "Low Risk" and
    "negative" are low risk. *)
Theorem isHighRisk_nocase (prediction : string) :
  (isHighRisk prediction = true <->
     matches_nocase prediction "high risk" \/
     matches_nocase prediction "positive") /\
  LungCancer.isHighRisk prediction = isHighRisk prediction /\
  isHighRisk "High Risk" = true /\
  isHighRisk "HIGH RISK" = true /\
  isHighRisk "positive" = true /\
  isHighRisk "Low Risk" = false /\
  isHighRisk "negative" = false.
Proof.
  split; [|repeat split; reflexivity].
  unfold isHighRisk. rewrite orb_true_iff, !includes_lower_spec. tauto.
Qed.

(** C9 as the code has it.  [showError] displays one of four fixed
    sentences when the message is missing or empty, or contains "fetch",
    or else "JSON", or else (in any letter case) "model"; every other
    message is displayed as it is. *)
Theorem friendlyMessage_classes (errorMessage : option string) :
  match errorMessage with
  | None => friendlyMessage errorMessage
            = "Please try again or check your connection."
  | Some m =>
      (m = "" -> friendlyMessage errorMessage
                 = "Please try again or check your connection.") /\
      (m <> "" -> includes m "fetch" = true ->
       friendlyMessage errorMessage
       = "Unable to connect to server. Please check your internet connection.") /\
      (m <> "" -> includes m "fetch" = false -> includes m "JSON" = true ->
       friendlyMessage errorMessage
       = "Server returned invalid response. Please try again.") /\
      (m <> "" -> includes m "fetch" = false -> includes m "JSON" = false ->
       matches_nocase m "model" ->
       friendlyMessage errorMessage
       = "Prediction service is currently unavailable. Please try again later.") /\
      (m <> "" -> includes m "fetch" = false -> includes m "JSON" = false ->
       ~ matches_nocase m "model" ->
       friendlyMessage errorMessage = m)
  end.
Proof.
  destruct errorMessage as [m|]; [|reflexivity].
  unfold friendlyMessage.
  destruct (String.eqb_spec m "") as [->|Hm].
  { repeat split; intros; try reflexivity; congruence. }
  repeat split; intros; try congruence.
  - now rewrite H0.
  - now rewrite H0, H1.
  - rewrite H0, H1.
    apply includes_lower_spec in H2. now rewrite H2.
  - rewrite H0, H1.
    destruct (includes (toLowerCase m) "model") eqn:E; [|reflexivity].
    apply includes_lower_spec in E. contradiction.
Qed.

Lemma friendlyMessage_classes_witness :
  friendlyMessage (Some "Failed to fetch")
  = "Unable to connect to server. Please check your internet connection.".
Proof.
  destruct (friendlyMessage_classes (Some "Failed to fetch")) as (_ & H & _).
  apply H; [discriminate|reflexivity].
Defined.

Lemma strict_eq_not_NaN (x y : number) :
  strict_eq x y = true -> isNaN x = false.
Proof. destruct x, y; cbn; try discriminate; reflexivity. Qed.

Lemma binary_test (v : number) :
  isNaN v || (strict_ne v (of_Z 0) && strict_ne v (of_Z 1)) = false <->
  strict_eq v (of_Z 0) = true \/ strict_eq v (of_Z 1) = true.
Proof.
  unfold strict_ne. fold (strict_eq v (of_Z 0)) (strict_eq v (of_Z 1)). split.
  - intros H. apply orb_false_iff in H as [_ H].
    apply andb_false_iff in H as [H|H]; apply negb_false_iff in H; auto.
  - intros H.
    assert (Hv : isNaN v = false)
      by (destruct H as [H|H]; exact (strict_eq_not_NaN _ _ H)).
    rewrite Hv. cbn [orb].
    destruct H as [-> | ->]; cbn [negb andb]; [reflexivity|apply andb_false_r].
Qed.

(** C5 as the code has it.  [validateBinaryInput] accepts a text exactly
    when [parseInt] reads the number 0 or 1 from it, and the live styling
    marks it valid exactly when [parseFloat] reads 0 or 1.  Both accept
    "0" and "1", both reject "2", "abc" and the empty text (as invalid),
    and both accept "1.0". *)
Theorem binary_validators (i raw fieldName : string) (min max : number) :
  (fst (validateBinaryInput (input i raw) fieldName) = true <->
     strict_eq (parseInt raw) (of_Z 0) = true \/
     strict_eq (parseInt raw) (of_Z 1) = true) /\
  (inputBorder min max true raw = "#2ecc71" <->
     strict_eq (parseFloat raw) (of_Z 0) = true \/
     strict_eq (parseFloat raw) (of_Z 1) = true) /\
  (forall s, In s ["0"; "1"; "1.0"] ->
     fst (validateBinaryInput (input i s) fieldName) = true /\
     inputBorder min max true s = "#2ecc71") /\
  (forall s, In s ["2"; "abc"; ""] ->
     fst (validateBinaryInput (input i s) fieldName) = false /\
     inputBorder min max true s = "#e74c3c").
Proof.
  split; [|split; [|split]].
  - unfold validateBinaryInput. cbn [value input].
    rewrite <- binary_test.
    destruct (isNaN (parseInt raw) || _); cbn [fst]; split; congruence.
  - unfold inputBorder. rewrite <- binary_test.
    destruct (isNaN (parseFloat raw) || _); split; congruence.
  - intros s [<-|[<-|[<-|[]]]]; split; reflexivity.
  - intros s [<-|[<-|[<-|[]]]]; split; reflexivity.
Qed.

Lemma binary_validators_witness :
  fst (validateBinaryInput (input "smoking" "1") "Smoking") = true /\
  inputBorder (of_Z 0) (of_Z 1) true "1" = "#2ecc71".
Proof.
  destruct (binary_validators "smoking" "1" "Smoking" (of_Z 0) (of_Z 1))
    as (_ & _ & H & _).
  apply H. cbn. auto.
Defined.

End MainFacts.

(** ** Properties of the eye-image form *)

Module EyeFacts.
Import JS DOM Eye.

Lemma validTypes_In (t : string) :
  existsb (String.eqb t) validTypes = true <-> In t validTypes.
Proof.
  rewrite existsb_exists. split.
  - intros (x & Hx & E). apply String.eqb_eq in E. now subst.
  - intros H. exists t. split; [exact H|apply String.eqb_refl].
Qed.

(** C10. [processFile] accepts a file exactly when its type is one of the
    five listed and its size is at most 10 * 1024 * 1024 bytes (so exactly
    10485760 bytes is accepted).  An accepted file becomes the current
    file, its preview read is started, the analyze button is enabled and
    the error card is hidden.  A rejected file shows the error card and
    leaves the current file, the preview and the analyze button as they
    were. *)
Theorem processFile_spec (file : File) (d : Detector) :
  let ok := In (file_type file) validTypes /\ file_size file <= 10485760 in
  (ok ->
     currentFile (processFile file d) = Some file /\
     analyzeBtn_disabled (processFile file d) = false /\
     reads (processFile file d) = (reads d ++ [file])%list /\
     card_display (errorCard (processFile file d)) = "none") /\
  (~ ok ->
     currentFile (processFile file d) = currentFile d /\
     preview (processFile file d) = preview d /\
     analyzeBtn_disabled (processFile file d) = analyzeBtn_disabled d /\
     reads (processFile file d) = reads d /\
     card_display (errorCard (processFile file d)) = "block") /\
  (card_display (errorCard (processFile file d)) = "none" <-> ok) /\
  card_display
    (errorCard (processFile (mkFile "eye.png" "image/png" 10485760) d))
    = "none".
Proof.
  intros ok. unfold processFile.
  destruct (existsb (String.eqb (file_type file)) validTypes) eqn:Et;
    cbn [negb].
  - apply validTypes_In in Et.
    destruct (Z.gtb_spec (file_size file) maxSize) as [Hs|Hs];
      change maxSize with 10485760 in Hs.
    + assert (Hno : ~ ok) by (unfold ok; lia).
      repeat split; try reflexivity; try tauto; try discriminate.
      all: intros; cbn in *; try discriminate; tauto.
    + assert (Hok : ok) by (unfold ok; split; [exact Et|lia]).
      repeat split; try reflexivity; try tauto.
  - assert (Hno : ~ ok).
    { unfold ok. intros [H _]. apply validTypes_In in H. congruence. }
    repeat split; try reflexivity; try tauto; try discriminate.
    all: intros; cbn in *; try discriminate; tauto.
Qed.

Lemma processFile_spec_witness :
  currentFile (processFile (mkFile "eye.jpg" "image/jpeg" 2048) Samples.eye_blank)
  = Some (mkFile "eye.jpg" "image/jpeg" 2048).
Proof.
  destruct (processFile_spec (mkFile "eye.jpg" "image/jpeg" 2048)
                             Samples.eye_blank) as ((H & _) & _).
  - split; [cbn; auto|cbn; lia].
  - exact H.
Defined.

End EyeFacts.

(** ** The COVID-19 form as a machine *)

Module CovidMachine.
Import JS DOM Covid CovidFacts.

Lemma onSubmit_inv (p : Page) (b : Button) :
  submitBtn p = Some b -> pending p = 0%nat -> inv (fst (onSubmit p)).
Proof.
  intros Hb Hp. unfold onSubmit.
  destruct (validateForm_spec p) as (dom' & _ & ->).
  destruct (forallb _ requiredFields).
  - unfold submitPrediction. cbn [fst snd submitBtn pending]. rewrite Hb, Hp.
    eexists. split; [reflexivity|]. right. split; reflexivity.
  - cbn [fst]. exists b. cbn [submitBtn pending]. auto.
Qed.

Lemma step_inv (p : Page) (ev : Event) :
  isInput ev = false -> inv p -> inv (fst (step p ev)).
Proof.
  intros Hev (b & Hb & Hp). destruct ev as [| |f v]; [| |discriminate];
    cbn [step]; rewrite ?Hb.
  - destruct (disabled b) eqn:Hd.
    + cbn [fst]. exists b. split; [exact Hb|]. rewrite Hd. exact Hp.
    + apply (onSubmit_inv p b Hb). destruct Hp as [Hp|[_ Hp]]; congruence.
  - destruct (pending p) as [|n] eqn:Hn.
    + cbn [fst]. exists b. split; [exact Hb|]. left. exact Hn.
    + cbn [fst]. unfold settle. rewrite Hb, Hn. cbn [Nat.pred].
      eexists. cbn [submitBtn pending]. split; [reflexivity|].
      left. destruct Hp as [Hp|[Hp _]]; congruence.
Qed.

Lemma run_cons (p : Page) (ev : Event) (evs : list Event) :
  run p (ev :: evs) =
    (fst (run (fst (step p ev)) evs),
     (snd (step p ev) ++ snd (run (fst (step p ev)) evs))%list).
Proof.
  cbn [run]. destruct (step p ev) as [p1 eff1].
  cbn [fst snd]. now destruct (run p1 evs).
Qed.

Lemma run_inv (evs : list Event) (p : Page) :
  existsb isInput evs = false -> inv p -> inv (fst (run p evs)).
Proof.
  revert p. induction evs as [|ev evs IH]; intros p Hevs Hp; [exact Hp|].
  cbn [existsb] in Hevs. apply orb_false_iff in Hevs as [Hev Hevs].
  rewrite run_cons. cbn [fst]. apply IH; [exact Hevs|].
  now apply step_inv.
Qed.

(** C3, for the COVID form.  Start with the submit button on the page and
    no request pending.  After any sequence of submit attempts and
    answers, at most one request is pending; while one is pending the
    button is disabled, and a further submit attempt changes nothing and
    sends nothing. *)
Theorem at_most_one_request (p0 : Page) (b0 : Button) (evs : list Event) :
  submitBtn p0 = Some b0 ->
  pending p0 = 0%nat ->
  existsb isInput evs = false ->
  let p := fst (run p0 evs) in
  (pending p <= 1)%nat /\
  (pending p = 1%nat -> exists b, submitBtn p = Some b /\ disabled b = true) /\
  (pending p = 1%nat -> step p Submit = (p, [])).
Proof.
  intros Hb Hp Hevs p.
  assert (Hinv : inv p).
  { apply run_inv; [exact Hevs|]. exists b0. auto. }
  destruct Hinv as (b & Hbtn & [H0|[H1 Hd]]).
  - repeat split; try lia; intros; lia.
  - repeat split; try lia.
    + intros _. now exists b.
    + intros _. cbn [step]. now rewrite Hbtn, Hd.
Qed.

Lemma at_most_one_request_witness :
  let p := fst (run Samples.covid_demo [Submit; Submit; Settle; Submit]) in
  (pending p <= 1)%nat /\
  (pending p = 1%nat -> exists b, submitBtn p = Some b /\ disabled b = true) /\
  (pending p = 1%nat -> step p Submit = (p, [])).
Proof.
  apply (at_most_one_request Samples.covid_demo
           (mkButton false "Get COVID-19 Assessment")
           [Submit; Submit; Settle; Submit]);
    reflexivity.
Defined.

(** Typing into a field runs [updateSubmitButton], which enables the
    button whenever every required field is filled: also while a request
    is pending. *)
Lemma onInput_enables (p : Page) (b : Button) (f v : string) (field : Element) :
  submitBtn p = Some b ->
  fields p !! f = Some field ->
  (forall g, In g requiredFields ->
     filled (<[f := snd (validateField (set_value field v))]> (fields p)) g
     = true) ->
  submitBtn (onInput f v p) = Some (mkButton false (textContent b)) /\
  pending (onInput f v p) = pending p.
Proof.
  intros Hb Hf Hall. unfold onInput. rewrite Hf.
  destruct (validateField (set_value field v)) as [ok field'] eqn:Ev.
  cbn [snd] in Hall.
  unfold updateSubmitButton, updateProgress.
  cbn [progressBar submitBtn fields pending].
  destruct (progressBar p); cbn [submitBtn fields pending progressBar];
    rewrite Hb;
    (assert (E : forallb (filled (<[f:=field']> (fields p))) requiredFields
                 = true) by (apply forallb_forall; exact Hall));
    rewrite E; split; reflexivity.
Qed.

End CovidMachine.

(** ** Properties of the other forms *)

Module FormsFacts.
Import JS DOM JSFacts Samples.

Lemma checkFields_shape (dom : gmap string Element) (l : list string)
      (eff : list Effect) :
  LungLegacy.checkFields dom l = Normal (Some eff) ->
  exists msg f, In f l /\ eff = [Alert msg; Focus f].
Proof.
  induction l as [|f l IH]; cbn [LungLegacy.checkFields]; [discriminate|].
  destruct (dom !! f) as [input|]; [|discriminate].
  assert (IH' : LungLegacy.checkFields dom l = Normal (Some eff) ->
                exists msg g, In g (f :: l) /\ eff = [Alert msg; Focus g]).
  { intros H. destruct (IH H) as (msg & g & Hg & E).
    exists msg, g. split; [now right|exact E]. }
  destruct (isNaN _ || _ || _); [|exact IH'].
  destruct (String.eqb f "age").
  - destruct (isNaN _ || _ || _); [|exact IH'].
    intros [= <-]. eexists _, f. split; [now left|reflexivity].
  - intros [= <-]. eexists _, f. split; [now left|reflexivity].
Qed.

(** The earlier lung-cancer form: a rejected submission sends nothing and
    raises exactly one alert, about one field or about the gender. *)
Lemma lung_rejected (q : LungLegacy.Page) (eff : list Effect) :
  LungLegacy.validateForm q = Normal (false, eff) ->
  LungLegacy.onSubmit q = Normal (q, eff) /\
  fetches eff = 0%nat /\
  ((exists msg f, In f LungLegacy.requiredFields /\ eff = [Alert msg; Focus f])
   \/ eff = [Alert "Please select a gender"]).
Proof.
  intros H. split; [unfold LungLegacy.onSubmit; now rewrite H|].
  unfold LungLegacy.validateForm in H.
  destruct (LungLegacy.checkFields _ _) as [[eff'|]|] eqn:E; [| |discriminate].
  - injection H as <-.
    destruct (checkFields_shape _ _ _ E) as (msg & f & Hf & ->).
    split; [reflexivity|]. left. now exists msg, f.
  - destruct (LungLegacy.gender q); [discriminate|].
    injection H as <-. split; [reflexivity|]. now right.
Qed.

(** The loop of the earlier lung-cancer form stops at the first field it
    rejects. *)
Lemma checkFields_first (dom : gmap string Element) (l : list string) :
  (forall g, In g l -> is_Some (dom !! g)) ->
  LungLegacy.checkFields dom l =
    match
      List.filter
        (fun field =>
           match dom !! field with
           | Some input => LungLegacy.rejects field input
           | None => false
           end) l
    with
    | [] => Normal None
    | g :: _ => Normal (Some [Alert (LungLegacy.alertFor g); Focus g])
    end.
Proof.
  induction l as [|f l IH]; intros Hall; [reflexivity|].
  specialize (IH (fun g Hg => Hall g (or_intror Hg))).
  destruct (Hall f (or_introl eq_refl)) as [input Hf].
  cbn [LungLegacy.checkFields List.filter]. rewrite Hf.
  unfold LungLegacy.rejects. cbv zeta.
  destruct (isNaN (parseInt (value input))
            || lt (parseInt (value input)) (of_Z 0)
            || gt (parseInt (value input)) (of_Z 1));
    destruct (String.eqb f "age") eqn:Ea; cbn [andb];
    try destruct (isNaN (parseInt (value input))
                  || lt (parseInt (value input)) (of_Z 1)
                  || gt (parseInt (value input)) (of_Z 120));
    cbv beta iota; try exact IH;
    unfold LungLegacy.alertFor; rewrite Ea; reflexivity.
Qed.

Lemma rejects_empty (f : string) (input : Element) :
  value input = "" -> LungLegacy.rejects f input = true.
Proof.
  intros H. unfold LungLegacy.rejects. rewrite H.
  destruct (String.eqb f "age"); reflexivity.
Qed.

(** The earlier lung-cancer form, with its fourteen inputs on the page: a
    field that is empty or fails its check stops the submission with the
    alert of the first such field. *)
Lemma lung_stops (q : LungLegacy.Page) (f : string) (input : Element) :
  (forall g, In g LungLegacy.requiredFields ->
             is_Some (LungLegacy.inputs q !! g)) ->
  In f LungLegacy.requiredFields ->
  LungLegacy.inputs q !! f = Some input ->
  value input = "" \/ LungLegacy.rejects f input = true ->
  exists g rest,
    LungLegacy.offending (LungLegacy.inputs q) = g :: rest /\
    LungLegacy.onSubmit q
    = Normal (q, [Alert (LungLegacy.alertFor g); Focus g]).
Proof.
  intros Hall Hin Hf Hbad.
  assert (Hrej : LungLegacy.rejects f input = true)
    by (destruct Hbad as [H|H]; [now apply rejects_empty|exact H]).
  assert (Hoff : In f (LungLegacy.offending (LungLegacy.inputs q))).
  { unfold LungLegacy.offending. apply filter_In. split; [exact Hin|].
    now rewrite Hf. }
  pose proof (checkFields_first _ _ Hall) as E.
  fold (LungLegacy.offending (LungLegacy.inputs q)) in E.
  destruct (LungLegacy.offending (LungLegacy.inputs q)) as [|g rest];
    [destruct Hoff|].
  exists g, rest. split; [reflexivity|].
  unfold LungLegacy.onSubmit, LungLegacy.validateForm. now rewrite E.
Qed.

Lemma lung_needs_gender (q : LungLegacy.Page) :
  (forall g, In g LungLegacy.requiredFields ->
             is_Some (LungLegacy.inputs q !! g)) ->
  LungLegacy.offending (LungLegacy.inputs q) = [] ->
  LungLegacy.gender q = None ->
  LungLegacy.onSubmit q = Normal (q, [Alert "Please select a gender"]).
Proof.
  intros Hall Hoff Hg. pose proof (checkFields_first _ _ Hall) as E.
  fold (LungLegacy.offending (LungLegacy.inputs q)) in E. rewrite Hoff in E.
  unfold LungLegacy.onSubmit, LungLegacy.validateForm. now rewrite E, Hg.
Qed.

(** C2 as the code has it.  In the COVID form, when a required field on
    the page is empty or fails validation, submitting sends no request and
    shows one message that contains the label of every such field.  In the
    earlier lung-cancer form, with its fourteen inputs on the page, when a
    required field is empty or fails its check, submitting sends no
    request and raises a single alert, which is about the first such field
    only; with every field passing and no gender chosen it sends no
    request and asks for the gender.  Whenever its validation returns
    false, nothing is sent. *)
Theorem submit_rejected :
  (forall (p : Covid.Page) (f : string),
     In f Covid.requiredFields ->
     Covid.offends (Covid.fields p) f = true ->
     exists msg,
       snd (Covid.onSubmit p) = [ShowError msg] /\
       fetches (snd (Covid.onSubmit p)) = 0%nat /\
       Covid.pending (fst (Covid.onSubmit p)) = Covid.pending p /\
       forall g, In g Covid.requiredFields ->
                 Covid.offends (Covid.fields p) g = true ->
                 includes msg (Covid.getFieldLabel (Covid.fields p) g) = true) /\
  (forall (q : LungLegacy.Page) (f : string) (input : Element),
     (forall g, In g LungLegacy.requiredFields ->
                is_Some (LungLegacy.inputs q !! g)) ->
     In f LungLegacy.requiredFields ->
     LungLegacy.inputs q !! f = Some input ->
     value input = "" \/ LungLegacy.rejects f input = true ->
     exists g rest,
       LungLegacy.offending (LungLegacy.inputs q) = g :: rest /\
       LungLegacy.onSubmit q
       = Normal (q, [Alert (LungLegacy.alertFor g); Focus g]) /\
       fetches [Alert (LungLegacy.alertFor g); Focus g] = 0%nat) /\
  (forall q : LungLegacy.Page,
     (forall g, In g LungLegacy.requiredFields ->
                is_Some (LungLegacy.inputs q !! g)) ->
     LungLegacy.offending (LungLegacy.inputs q) = [] ->
     LungLegacy.gender q = None ->
     LungLegacy.onSubmit q = Normal (q, [Alert "Please select a gender"])) /\
  (forall (q : LungLegacy.Page) (eff : list Effect),
     LungLegacy.validateForm q = Normal (false, eff) ->
     LungLegacy.onSubmit q = Normal (q, eff) /\
     fetches eff = 0%nat /\
     ((exists msg f, In f LungLegacy.requiredFields /\
                     eff = [Alert msg; Focus f])
      \/ eff = [Alert "Please select a gender"])).
Proof.
  split; [|split; [|split]].
  - intros p f. apply CovidFacts.onSubmit_rejects.
  - intros q f input Hall Hin Hf Hbad.
    destruct (lung_stops q f input Hall Hin Hf Hbad) as (g & rest & Ho & Hs).
    exists g, rest. repeat split; assumption.
  - exact lung_needs_gender.
  - intros q eff. apply lung_rejected.
Qed.

Lemma submit_rejected_witness :
  (exists msg,
     snd (Covid.onSubmit
            (Covid.mkPage
               (inputs_of [("age", "150"); ("mpv", "")])
               None None 0)) = [ShowError msg] /\
     includes msg "age" = true /\ includes msg "mpv" = true) /\
  LungLegacy.onSubmit lung_two_bad
  = Normal (lung_two_bad,
            [Alert "Please enter 0 or 1 for smoking"; Focus "smoking"]).
Proof.
  destruct submit_rejected as (Hcovid & Hlung & _). split.
  - destruct (Hcovid (Covid.mkPage (inputs_of [("age", "150"); ("mpv", "")])
                                   None None 0) "age")
      as (msg & Hmsg & _ & _ & Hall).
    + cbn. auto.
    + vm_compute. reflexivity.
    + exists msg. split; [exact Hmsg|]. split.
      * apply (Hall "age"); [cbn; auto|vm_compute; reflexivity].
      * apply (Hall "mpv"); [cbn; tauto|vm_compute; reflexivity].
  - destruct (Hlung lung_two_bad "anxiety" (input "anxiety" "7"))
      as (g & rest & Ho & Hs & _).
    + intros g Hg. cbn in Hg.
      repeat (destruct Hg as [<-|Hg]; [eexists; vm_compute; reflexivity|]).
      destruct Hg.
    + cbn. tauto.
    + vm_compute. reflexivity.
    + right. vm_compute. reflexivity.
    + vm_compute in Ho. injection Ho as <- _. exact Hs.
Defined.

(** C1 fails as stated for [validateNumericInput]: it has no empty tier,
    and rejects the empty string exactly as it rejects a text that is not
    a number. *)
Lemma numeric_input_rejects_empty :
  Main.validateNumericInput (input "age" "") (of_Z 1) (of_Z 120) "Age"
  = (false, [Alert "Please enter a valid number for Age"; Focus "age"]) /\
  Main.validateNumericInput (input "age" "abc") (of_Z 1) (of_Z 120) "Age"
  = (false, [Alert "Please enter a valid number for Age"; Focus "age"]).
Proof. split; vm_compute; reflexivity. Qed.

(** C2 fails as stated in the earlier lung-cancer form: with "smoking" and
    "anxiety" both out of range, the only message shown names "smoking". *)
Lemma lung_names_first_only :
  LungLegacy.onSubmit lung_two_bad =
    Normal (lung_two_bad,
            [Alert "Please enter 0 or 1 for smoking"; Focus "smoking"]) /\
  JS.gt (parseInt "7") (of_Z 1) = true /\
  includes "Please enter 0 or 1 for smoking" "anxiety" = false.
Proof. repeat split; vm_compute; reflexivity. Qed.

(** C3 fails as stated in the cardiovascular risk form: its listener
    disables nothing, and two submit actions in a row leave two requests
    pending. *)
Lemma cv_two_requests :
  CV.pending (fst (CV.submits cv_filled 2)) = 2%nat /\
  fetches (snd (CV.submits cv_filled 2)) = 2%nat.
Proof. split; vm_compute; reflexivity. Qed.

(** C4 fails as stated in the heart-disease form with blocking values:
    with every field empty, [updateSubmitButton] leaves the button
    enabled. *)
Lemma cardio_never_disabled :
  CardioBlocking.getFieldValue cardio_blank "age" = "" /\
  CardioBlocking.sb_disabled <$>
    CardioBlocking.submitBtn (CardioBlocking.updateSubmitButton cardio_blank)
  = Some false.
Proof. split; vm_compute; reflexivity. Qed.

(** C5 fails as stated: "1.0" is neither "0" nor "1", and both binary
    validators accept it. *)
Lemma binary_accepts_1_0 :
  fst (Main.validateBinaryInput (input "smoking" "1.0") "Smoking") = true /\
  Main.inputBorder (of_Z 0) (of_Z 1) true "1.0" = "#2ecc71".
Proof. split; vm_compute; reflexivity. Qed.

(** C6 fails as stated in the heart-disease form: its renderer looks for
    "HIGH RISK" as written, and classifies "High Risk" as low risk. *)
Lemma cardiovascular_case_sensitive :
  Cardiovascular.resultClass "High Risk" = "low-risk" /\
  Cardiovascular.resultClass "HIGH RISK" = "high-risk".
Proof. split; reflexivity. Qed.

(** C7 fails as stated: 64 kg at 160 cm is a body mass index of exactly
    25, Overweight by the claim; the quotient the renderer computes from
    the submitted numbers is below 25 and it shows "Normal weight". *)
Lemma bmi_25_shown_normal :
  64 * 10000 = 25 * (160 * 160) /\
  CV.exactCategory 64 160 = "Overweight" /\
  lt (CV.bmi_of (CV.collect [("height", "160"); ("weight", "64")]))
     (of_Z 25) = true /\
  CV.getBMICategory
    (CV.bmi_of (CV.collect [("height", "160"); ("weight", "64")]))
  = "Normal weight".
Proof. repeat split; vm_compute; reflexivity. Qed.

(** C8 fails as stated: the count is not the count of valid fields.  With
    "150" in the age field and no class on it yet, the validator puts the
    value in the invalid tier and no field is valid, but [updateProgress]
    counts the field and sets the bar to 1/21 of 100 percent. *)
Lemma unvalidated_value_is_counted :
  Covid.validity (snd (Covid.validateField (input "age" "150")))
  = Covid.invalid /\
  Covid.validCount {[ "age" := input "age" "150" ]} = 0%nat /\
  Covid.filledCount {[ "age" := input "age" "150" ]} = 1%nat /\
  Covid.progressBar
    (Covid.updateProgress
       (Covid.mkPage {[ "age" := input "age" "150" ]} None
                     (Some (of_Z 0)) 0))
  = Some (Covid.percent 1 21) /\
  lt (Covid.percent 0 21) (Covid.percent 1 21) = true.
Proof. repeat split; vm_compute; reflexivity. Qed.

(** C9 fails as stated: a message outside the three classes is displayed
    as it is. *)
Lemma showError_shows_raw_text :
  Main.resultDescription <$>
    Main.showError
      (Some (Main.mkView (Main.mkBox "none" "result-container" "") "" ""))
      (Some "HTTP 500: Internal Server Error") "result-positive"
  = Some "HTTP 500: Internal Server Error".
Proof. reflexivity. Qed.

End FormsFacts.

(** ** Further properties of the COVID-19 form *)

Module CovidMore.
Import JS DOM Covid JSFacts CovidFacts.

Lemma validateField_in_classes (ranges : gmap string Range) (field : Element) :
  classList (snd (validateField_in ranges field)) = cleared field \/
  exists m, In m markers /\ value field <> "" /\
            classList (snd (validateField_in ranges field))
            = add (cleared field) m.
Proof.
  unfold validateField_in. cbn [value set_classList classList].
  fold (cleared field).
  destruct (String.eqb_spec (value field) "") as [He|He]; [now left|].
  right.
  assert (Hi : exists m, In m markers /\ value field <> "" /\
                         add (cleared field) "invalid" = add (cleared field) m)
    by (exists "invalid"; cbn; auto).
  assert (Ha : exists m, In m markers /\ value field <> "" /\
                         add (cleared field) "abnormal" = add (cleared field) m)
    by (exists "abnormal"; cbn; auto).
  assert (Hv : exists m, In m markers /\ value field <> "" /\
                         add (cleared field) "valid" = add (cleared field) m)
    by (exists "valid"; cbn; auto).
  destruct (ranges !! fieldName field) as [spec|]; [|exact Hi].
  destruct (isNaN _); [exact Hi|].
  destruct (_ || _); [exact Hi|].
  destruct (normal spec) as [[lo hi]|]; [|exact Hv].
  destruct (_ || _); [exact Ha|exact Hv].
Qed.

Lemma markers_In (c : string) : contains markers c = true <-> In c markers.
Proof.
  unfold contains. rewrite existsb_exists. split.
  - intros (x & Hx & E). apply String.eqb_eq in E. now subst.
  - intros H. exists c. split; [exact H|apply String.eqb_refl].
Qed.

(** [validateField] only manages its three classes: afterwards the field
    carries at most one of "valid", "invalid" and "abnormal" (exactly one
    when its value is not empty), every other class is as before, and the
    value, id, name and label are untouched. *)
Theorem validateField_marks_one (ranges : gmap string Range) (field : Element) :
  let field' := snd (validateField_in ranges field) in
  (forall c, ~ In c markers ->
     contains (classList field') c = contains (classList field) c) /\
  (forall c1 c2, In c1 markers -> In c2 markers ->
     contains (classList field') c1 = true ->
     contains (classList field') c2 = true -> c1 = c2) /\
  (value field <> "" ->
     exists m, In m markers /\ contains (classList field') m = true) /\
  (value field = "" ->
     forall m, In m markers -> contains (classList field') m = false) /\
  strip field' = strip field.
Proof.
  intros field'.
  assert (Hother : forall c, ~ In c markers ->
            contains (cleared field) c = contains (classList field) c).
  { intros c Hc. unfold cleared. rewrite contains_remove.
    fold markers. destruct (contains markers c) eqn:E.
    - apply markers_In in E. contradiction.
    - apply andb_true_r. }
  assert (Hmark : forall c, In c markers -> contains (cleared field) c = false).
  { intros c Hc. apply cleared_contains. now apply markers_In. }
  assert (Hstrip : strip field' = strip field).
  { unfold field', validateField_in.
    destruct (String.eqb _ _); [reflexivity|].
    destruct (ranges !! fieldName field) as [spec|]; [|reflexivity].
    destruct (isNaN _); [reflexivity|].
    destruct (_ || _); [reflexivity|].
    destruct (normal spec) as [[lo hi]|]; [|reflexivity].
    destruct (_ || _); reflexivity. }
  destruct (validateField_in_classes ranges field) as [E|(m & Hm & Hne & E)];
    fold field' in E; rewrite E.
  - repeat split; auto.
    + intros c1 c2 H1 H2 Hc1. rewrite (Hmark c1 H1) in Hc1. discriminate.
    + intros Hne. exfalso. unfold field', validateField_in in E.
      cbn [value set_classList classList] in E.
      destruct (String.eqb_spec (value field) ""); [contradiction|].
      assert (Hin : forall x, In x markers ->
                contains (add (cleared field) x) x = true)
        by (intros x _; rewrite contains_add, String.eqb_refl; apply orb_true_r).
      assert (Hc : forall x, In x markers ->
                classList (set_classList
                             (set_classList field (cleared field))
                             (add (cleared field) x)) <> cleared field).
      { intros x Hx Heq. cbn [classList set_classList] in Heq.
        pose proof (Hin x Hx) as H. rewrite Heq, (Hmark x Hx) in H.
        discriminate. }
      fold (cleared field) in E.
      destruct (ranges !! fieldName field) as [spec|];
        [|exact (Hc "invalid" ltac:(cbn; auto) E)].
      destruct (isNaN _); [exact (Hc "invalid" ltac:(cbn; auto) E)|].
      destruct (_ || _); [exact (Hc "invalid" ltac:(cbn; auto) E)|].
      destruct (normal spec) as [[lo hi]|];
        [|exact (Hc "valid" ltac:(cbn; auto) E)].
      destruct (_ || _);
        [exact (Hc "abnormal" ltac:(cbn; auto) E)
        |exact (Hc "valid" ltac:(cbn; auto) E)].
  - repeat split; auto.
    + intros c Hc. rewrite contains_add, (Hother c Hc).
      destruct (String.eqb_spec c m) as [->|_]; [contradiction|].
      apply orb_false_r.
    + intros c1 c2 H1 H2. rewrite !contains_add, (Hmark c1 H1), (Hmark c2 H2).
      cbn [orb]. rewrite !String.eqb_eq. congruence.
    + intros _. exists m. split; [exact Hm|].
      rewrite contains_add, String.eqb_refl. apply orb_true_r.
    + intros He. contradiction.
Qed.

Lemma validateField_marks_one_witness :
  contains
    (classList (snd (validateField
                       (mkElement "age" "" "45" ["form-control"; "invalid"] None)))
    ) "form-control" = true.
Proof.
  destruct (validateField_marks_one validationRanges
              (mkElement "age" "" "45" ["form-control"; "invalid"] None))
    as (H & _).
  unfold validateField. rewrite H; [reflexivity|].
  cbn. intros [E|[E|[E|[]]]]; discriminate.
Defined.

(** The message shown on blur agrees with the class set on input: an
    error message for an invalid field, a warning for an abnormal one, a
    success message for a valid one when a normal range is declared, and
    no message for an empty field or a valid field without normal range. *)
Theorem blur_message_matches_tier
    (ranges : gmap string Range) (field : Element) (spec : Range) :
  ranges !! fieldName field = Some spec ->
  messageClass <$> showFieldValidation_in ranges field =
    match validity (snd (validateField_in ranges field)) with
    | empty => None
    | invalid => Some "error"
    | valid_abnormal => Some "warning"
    | valid_normal =>
        match normal spec with Some _ => Some "success" | None => None end
    end.
Proof.
  intros Hspec.
  destruct (validateField_in_tier ranges field spec Hspec) as [-> _].
  unfold showFieldValidation_in, tier_of. rewrite Hspec.
  destruct (String.eqb (value field) ""); [reflexivity|].
  destruct (isNaN _); [reflexivity|].
  destruct (_ || _); [reflexivity|].
  destruct (normal spec) as [[lo hi]|]; [|reflexivity].
  destruct (lt (parseFloat (value field)) lo); [reflexivity|].
  cbn [orb]. now destruct (gt (parseFloat (value field)) hi).
Qed.

Lemma blur_message_matches_tier_witness :
  messageClass <$>
    showFieldValidation (mkElement "mcv" "" "75" [] None) = Some "warning".
Proof.
  pose (spec := mkRange (of_Z 70) (of_Z 110) "fL" (Some (of_Z 80, of_Z 100))).
  unfold showFieldValidation.
  rewrite (blur_message_matches_tier validationRanges _ spec);
    vm_compute; reflexivity.
Defined.

Lemma is_valid_within (spec : Range) (raw : string) :
  wf_range spec ->
  is_valid (tier_of spec raw) = true ->
  raw <> "" /\ within (min spec) (max spec) (parseFloat raw) = true.
Proof.
  intros (Hmin & Hmax & _). unfold tier_of.
  destruct (String.eqb_spec raw "") as [->|Hne]; [discriminate|].
  destruct (isNaN (parseFloat raw)) eqn:Hv; [discriminate|].
  rewrite (outside_is_not_within _ _ _ Hmin Hmax Hv).
  destruct (within (min spec) (max spec) (parseFloat raw));
    [auto|discriminate].
Qed.

Lemma formData_same (dom dom0 : gmap string Element) (l : list string) :
  same_inputs dom dom0 ->
  omap (fun fieldName =>
          match dom !! fieldName with
          | Some field => Some (fieldName, parseFloat (value field))
          | None => None
          end) l =
  omap (fun fieldName =>
          match dom0 !! fieldName with
          | Some field => Some (fieldName, parseFloat (value field))
          | None => None
          end) l.
Proof.
  intros H. induction l as [|f l IH]; [reflexivity|].
  cbn [omap list_omap]. rewrite IH.
  pose proof (same_inputs_lookup dom dom0 f H) as Hl.
  destruct (dom !! f) as [e|], (dom0 !! f) as [e0|]; try contradiction;
    [|reflexivity].
  apply strip_inv in Hl as (_ & _ & -> & _). reflexivity.
Qed.

(** Whatever the COVID form sends has passed validation: the request goes
    to [/covid/predict], and its body holds, for a required field on the
    page, the number parsed from the field, which lies within the bounds
    declared for the field. *)
Theorem request_body_in_bounds
    (p : Page) (url : string) (body : list (string * number)) :
  In (Fetch url body) (snd (onSubmit p)) ->
  url = "/covid/predict" /\
  body = formData (fields p) /\
  forall g v, In (g, v) body ->
    In g requiredFields /\
    exists field spec,
      fields p !! g = Some field /\
      v = parseFloat (value field) /\
      validationRanges !! fieldName field = Some spec /\
      within (min spec) (max spec) v = true.
Proof.
  unfold onSubmit.
  destruct (validateForm_spec p) as (dom' & Hsame & ->).
  destruct (forallb _ requiredFields) eqn:Hall;
    [|intros [H|[]]; discriminate].
  unfold submitPrediction. cbn [fst snd fields app].
  intros [H|[]]. injection H as <- <-.
  unfold formData. rewrite (formData_same dom' (fields p) _ Hsame).
  split; [reflexivity|]. split; [reflexivity|].
  intros g v Hin.
  apply list_elem_of_In, list_elem_of_omap in Hin as (g' & Hg' & Hgv).
  apply list_elem_of_In in Hg'.
  destruct (fields p !! g') as [field|] eqn:Ef; [|discriminate].
  injection Hgv as <- <-. split; [exact Hg'|].
  rewrite forallb_forall in Hall. specialize (Hall g' Hg').
  unfold offends in Hall. rewrite Ef in Hall.
  apply negb_true_iff, orb_false_iff in Hall as [_ Hok].
  apply negb_false_iff in Hok.
  unfold validateField in Hok. rewrite validateField_in_fst in Hok.
  destruct (validationRanges !! fieldName field) as [spec|] eqn:Es;
    [|discriminate].
  exists field, spec.
  split; [exact Ef|]. split; [reflexivity|]. split; [exact Es|].
  apply (is_valid_within spec (value field));
    [exact (validationRanges_wf _ _ Es)|exact Hok].
Qed.

Lemma request_body_in_bounds_witness :
  exists field spec,
    fields Samples.covid_demo !! "age" = Some field /\
    parseFloat "45" = parseFloat (value field) /\
    validationRanges !! fieldName field = Some spec /\
    within (min spec) (max spec) (parseFloat "45") = true.
Proof.
  destruct (request_body_in_bounds Samples.covid_demo "/covid/predict"
              (formData (fields Samples.covid_demo))) as (_ & _ & Hall).
  - vm_compute. left. reflexivity.
  - apply (Hall "age" (parseFloat "45")). vm_compute. left. reflexivity.
Defined.

Lemma onSubmit_accepts_witness :
  exists body,
    snd (onSubmit Samples.covid_demo) = [Fetch "/covid/predict" body] /\
    pending (fst (onSubmit Samples.covid_demo)) = 1%nat /\
    submitBtn (fst (onSubmit Samples.covid_demo))
    = Some (mkButton true "Analyzing...").
Proof.
  apply (onSubmit_accepts Samples.covid_demo).
  assert (H : forallb (fun f => negb (offends (fields Samples.covid_demo) f))
                      requiredFields = true) by (vm_compute; reflexivity).
  intros f Hf. rewrite forallb_forall in H.
  apply negb_true_iff. exact (H f Hf).
Defined.

Lemma onInput_enables_witness :
  submitBtn (onInput "age" "46" (fst (onSubmit Samples.covid_demo)))
  = Some (mkButton false "Analyzing...") /\
  pending (onInput "age" "46" (fst (onSubmit Samples.covid_demo))) = 1%nat.
Proof.
  assert (H : forallb
                (filled (<["age" := snd (validateField
                                           (set_value (Samples.input "age" "45") "46"))]>
                           (fields (fst (onSubmit Samples.covid_demo)))))
                requiredFields = true) by (vm_compute; reflexivity).
  apply (CovidMachine.onInput_enables
           (fst (onSubmit Samples.covid_demo))
           (mkButton true "Analyzing...") "age" "46"
           (snd (validateField (Samples.input "age" "45")))).
  - vm_compute. reflexivity.
  - vm_compute. reflexivity.
  - intros g Hg. rewrite forallb_forall in H.
    generalize (H g Hg). vm_compute. trivial.
Defined.

(** [validateForm] in closed form: it returns true exactly when no
    required field on the page is empty or rejected; otherwise it shows
    one message with one line per such field, in the order of
    [requiredFields].  It changes class lists only. *)
Theorem validateForm_message (p : Page) :
  fst (fst (validateForm p))
  = forallb (fun f => negb (offends (fields p) f)) requiredFields /\
  snd (validateForm p)
  = (if fst (fst (validateForm p)) then []
     else [ShowError
             (consolidated
                (List.map (error_of (fields p))
                   (List.filter (offends (fields p)) requiredFields)))]) /\
  same_inputs (fields (snd (fst (validateForm p)))) (fields p).
Proof.
  destruct (validateForm_spec p) as (dom' & Hsame & ->).
  cbn [fst snd fields]. auto.
Qed.

Lemma flat_map_length_le {A B : Type} (f : A -> list B) (l : list A) (n : nat) :
  (forall a, List.length (f a) <= n)%nat ->
  (List.length (List.flat_map f l) <= n * List.length l)%nat.
Proof.
  intros H. induction l as [|a l IH]; cbn [List.flat_map List.length]; [lia|].
  rewrite length_app. specialize (H a). lia.
Qed.

(** [getRecommendations] always ends with the disclaimer, gives at least
    four items, and adds at most one item per reported finding. *)
Theorem getRecommendations_shape
    (other_conditions : option (list string)) (isPositive : bool) :
  let recs := getRecommendations other_conditions isPositive in
  List.last recs "" = disclaimer /\
  (4 <= List.length recs)%nat /\
  (List.length recs <= 5 + List.length (default [] other_conditions))%nat.
Proof.
  intros recs. unfold recs, getRecommendations.
  split; [|split].
  - rewrite app_assoc. apply last_last.
  - rewrite !length_app. destruct isPositive; cbn [List.length]; lia.
  - rewrite !length_app.
    assert (H : (List.length
                   match other_conditions with
                   | Some conditions => List.flat_map conditionAdvice conditions
                   | None => []
                   end
                 <= List.length (default [] other_conditions))%nat).
    { destruct other_conditions as [l|]; cbn [default]; [|cbn; lia].
      pose proof (flat_map_length_le conditionAdvice l 1) as Hl.
      rewrite Nat.mul_1_l in Hl. apply Hl. intros a.
      unfold conditionAdvice.
      repeat (destruct (includes a _); [cbn; lia|]). cbn. lia. }
    destruct isPositive; cbn [List.length]; lia.
Qed.

End CovidMore.

(** ** Further properties of the renderers and the shared utilities *)

Module MainMore.
Import JS DOM Main JSFacts Samples.

Lemma includes_lower (s t : string) :
  includes s t = true -> includes (toLowerCase s) (toLowerCase t) = true.
Proof.
  rewrite !includes_spec. intros (a & b & ->).
  exists (toLowerCase a), (toLowerCase b). now rewrite !toLowerCase_app.
Qed.

(** Every prediction a form's own renderer takes for high risk (or
    positive) is also high risk for the shared renderer: the shared test
    is the most permissive one. *)
Theorem form_tests_imply_shared (prediction : string) :
  (Covid.isPositive prediction = true -> isHighRisk prediction = true) /\
  (Cardiovascular.isHighRisk prediction = true -> isHighRisk prediction = true) /\
  (CardioBlocking.isHighRisk prediction = true -> isHighRisk prediction = true) /\
  (CV.isHighRisk prediction = true -> isHighRisk prediction = true) /\
  (LungLegacy.isHighRisk prediction = true -> isHighRisk prediction = true).
Proof.
  unfold isHighRisk, Covid.isPositive, Cardiovascular.isHighRisk,
    CardioBlocking.isHighRisk, CV.isHighRisk, LungLegacy.isHighRisk.
  repeat split; intros H; apply orb_true_iff.
  - right. exact (includes_lower _ "Positive" H).
  - left. exact (includes_lower _ "HIGH RISK" H).
  - left. exact (includes_lower _ "HIGH RISK" H).
  - left. apply orb_true_iff in H as [H|H].
    + exact (includes_lower _ "High Risk" H).
    + exact (includes_lower _ "HIGH RISK" H).
  - left. exact (includes_lower _ "High Risk" H).
Qed.

Lemma form_tests_imply_shared_witness :
  isHighRisk "COVID-19 Positive" = true.
Proof.
  destruct (form_tests_imply_shared "COVID-19 Positive") as (H & _).
  apply H. reflexivity.
Defined.

(** [hideLoading] after [showLoading] enables the button again and puts
    its text back, unless the text was empty: then the loading text
    stays. *)
Theorem hideLoading_after_showLoading
    (l r : option Box) (b : SubmitButton) (loadingText : string) :
  let shown := showLoading l r (Some b) loadingText in
  snd shown = Some (mkSubmitButton true loadingText (Some (sb_textContent b))) /\
  snd (hideLoading (fst (fst shown)) (snd shown))
  = Some (mkSubmitButton false
            (if String.eqb (sb_textContent b) "" then loadingText
             else sb_textContent b)
            (Some (sb_textContent b))) /\
  display <$> fst (hideLoading (fst (fst shown)) (snd shown))
  = match l with Some _ => Some "none" | None => None end.
Proof.
  cbn. repeat split. now destruct l.
Qed.

(** [validateNumericInput] accepts exactly the texts whose parsed number
    lies within the bounds, both included; it then raises nothing.  The
    empty text is rejected as not a number. *)
Theorem validateNumericInput_spec
    (input : Element) (min max : number) (fieldName : string) :
  isNaN min = false -> isNaN max = false ->
  (fst (validateNumericInput input min max fieldName) = true <->
     Covid.within min max (parseFloat (value input)) = true) /\
  (fst (validateNumericInput input min max fieldName) = true ->
     snd (validateNumericInput input min max fieldName) = []) /\
  (value input = "" ->
     validateNumericInput input min max fieldName
     = (false, [Alert ("Please enter a valid number for " +:+ fieldName);
                Focus (id input)])).
Proof.
  intros Hmin Hmax. unfold validateNumericInput.
  split; [|split].
  - destruct (isNaN (parseFloat (value input))) eqn:Hv.
    + cbn [fst]. split; [discriminate|].
      intros H. apply CovidFacts.within_not_NaN in H. congruence.
    + rewrite (CovidFacts.outside_is_not_within _ _ _ Hmin Hmax Hv).
      destruct (Covid.within min max _); cbn; tauto.
  - cbv zeta.
    destruct (isNaN (parseFloat (value input))); [cbn [fst]; discriminate|].
    destruct (lt (parseFloat (value input)) min
              || gt (parseFloat (value input)) max);
      [cbn [fst]; discriminate|reflexivity].
  - intros ->. reflexivity.
Qed.

Lemma validateNumericInput_spec_witness :
  fst (validateNumericInput (input "age" "120") (of_Z 1) (of_Z 120) "Age")
  = true.
Proof.
  destruct (validateNumericInput_spec (input "age" "120") (of_Z 1) (of_Z 120)
              "Age" eq_refl eq_refl) as ([_ H] & _).
  apply H. vm_compute. reflexivity.
Defined.

(** *** Display names *)

Lemma upper_ascii_idem (c : ascii) : upper_ascii (upper_ascii c) = upper_ascii c.
Proof. destruct c as [[] [] [] [] [] [] [] []]; reflexivity. Qed.

Lemma upper_ascii_word (c : ascii) : isWordChar (upper_ascii c) = isWordChar c.
Proof. destruct c as [[] [] [] [] [] [] [] []]; reflexivity. Qed.

Lemma upper_ascii_underscore (c : ascii) :
  Ascii.eqb (upper_ascii c) "_" = Ascii.eqb c "_".
Proof. destruct c as [[] [] [] [] [] [] [] []]; reflexivity. Qed.

Lemma noUnderscore_includes (s : string) :
  noUnderscore s = true -> includes s "_" = false.
Proof.
  induction s as [|c s IH]; [reflexivity|].
  cbn [noUnderscore includes startsWith]. intros H.
  apply andb_true_iff in H as [Hc Hs]. apply negb_true_iff in Hc.
  rewrite (IH Hs). rewrite Ascii.eqb_sym, Hc. reflexivity.
Qed.

Lemma underscoresToSpaces_clean (s : string) :
  noUnderscore (underscoresToSpaces s) = true.
Proof.
  induction s as [|c s IH]; [reflexivity|].
  cbn [underscoresToSpaces noUnderscore]. rewrite IH.
  destruct (Ascii.eqb c "_") eqn:E; [reflexivity|]. now rewrite E.
Qed.

Lemma underscoresToSpaces_id (s : string) :
  noUnderscore s = true -> underscoresToSpaces s = s.
Proof.
  induction s as [|c s IH]; [reflexivity|].
  cbn [underscoresToSpaces noUnderscore]. intros H.
  apply andb_true_iff in H as [Hc Hs]. apply negb_true_iff in Hc.
  now rewrite Hc, (IH Hs).
Qed.

Lemma capitalizeWords_clean (b : bool) (s : string) :
  noUnderscore s = true -> noUnderscore (capitalizeWords b s) = true.
Proof.
  revert b. induction s as [|c s IH]; intros b; [reflexivity|].
  cbn [capitalizeWords noUnderscore]. intros H.
  apply andb_true_iff in H as [Hc Hs]. rewrite (IH _ Hs), andb_true_r.
  destruct (isWordChar c && negb b); [|exact Hc].
  now rewrite upper_ascii_underscore.
Qed.

Lemma capitalizeWords_idem (b : bool) (s : string) :
  capitalizeWords b (capitalizeWords b s) = capitalizeWords b s.
Proof.
  revert b. induction s as [|c s IH]; intros b; [reflexivity|].
  cbn [capitalizeWords].
  destruct (isWordChar c && negb b) eqn:E.
  - rewrite upper_ascii_word, E, upper_ascii_idem. now rewrite IH.
  - rewrite E. now rewrite IH.
Qed.

Lemma capitalizeWords_length (b : bool) (s : string) :
  String.length (capitalizeWords b s) = String.length s.
Proof.
  revert b. induction s as [|c s IH]; intros b; [reflexivity|].
  cbn [capitalizeWords String.length]. now rewrite IH.
Qed.

Lemma underscoresToSpaces_length (s : string) :
  String.length (underscoresToSpaces s) = String.length s.
Proof.
  induction s as [|c s IH]; [reflexivity|].
  cbn [underscoresToSpaces String.length]. now rewrite IH.
Qed.

(** [formatFieldName] keeps the length of a field name, leaves no
    underscore in it, and formatting twice changes nothing more;
    "shortness_of_breath" becomes "Shortness Of Breath". *)
Theorem formatFieldName_display (fieldName : string) :
  String.length (formatFieldName fieldName) = String.length fieldName /\
  includes (formatFieldName fieldName) "_" = false /\
  formatFieldName (formatFieldName fieldName) = formatFieldName fieldName /\
  formatFieldName "shortness_of_breath" = "Shortness Of Breath".
Proof.
  unfold formatFieldName. repeat split.
  - now rewrite capitalizeWords_length, underscoresToSpaces_length.
  - apply noUnderscore_includes, capitalizeWords_clean,
      underscoresToSpaces_clean.
  - rewrite (underscoresToSpaces_id (capitalizeWords false _)).
    + apply capitalizeWords_idem.
    + apply capitalizeWords_clean, underscoresToSpaces_clean.
Qed.

End MainMore.

(** ** Further properties of the cardiovascular risk form *)

Module CVMore.
Import JS DOM CV JSFacts.

Lemma fetches_app (a b : list Effect) :
  fetches (a ++ b)%list = (fetches a + fetches b)%nat.
Proof. unfold fetches. now rewrite List.filter_app, length_app. Qed.

Lemma submits_cons (p : Page) (n : nat) :
  submits p (S n) =
    (fst (submits (fst (onSubmit p)) n),
     (snd (onSubmit p) ++ snd (submits (fst (onSubmit p)) n))%list).
Proof.
  cbn [submits]. destruct (onSubmit p) as [p1 eff1]. cbn [fst snd].
  now destruct (submits p1 n).
Qed.

(** The cardiovascular risk form sends one request per submit action,
    whatever is pending and whatever the fields hold: after [n] submit
    actions, [n] more requests are pending. *)
Theorem every_submit_sends (n : nat) (p : Page) :
  pending (fst (submits p n)) = (pending p + n)%nat /\
  fetches (snd (submits p n)) = n.
Proof.
  revert p. induction n as [|n IH]; intros p.
  - cbn. split; [lia|reflexivity].
  - rewrite submits_cons. cbn [fst snd].
    destruct (IH (fst (onSubmit p))) as [IH1 IH2].
    rewrite IH1, fetches_app, IH2. cbn [onSubmit fst snd pending].
    split; [lia|reflexivity].
Qed.

(** Two values of the body mass index are shown in the same colour
    exactly when they fall in the same category. *)
Theorem color_follows_category (a b : number) :
  getBMIColor a = getBMIColor b <-> getBMICategory a = getBMICategory b.
Proof.
  unfold getBMIColor, getBMICategory.
  destruct (lt a (lit 185 1)), (lt a (of_Z 25)), (lt a (of_Z 30)),
           (lt b (lit 185 1)), (lt b (of_Z 25)), (lt b (of_Z 30));
    split; intros H; try reflexivity; discriminate.
Qed.

Lemma div_NaN_r (x : number) : div x NaN = NaN.
Proof. destruct x; reflexivity. Qed.

Lemma mul_NaN_l (y : number) : mul NaN y = NaN.
Proof. reflexivity. Qed.

Lemma get_missing (data : list (string * number)) (key : string) :
  (forall v, ~ In (key, v) data) -> get data key = NaN.
Proof.
  induction data as [|[k w] data IH]; intros H; [reflexivity|].
  cbn [get]. destruct (String.eqb_spec k key) as [->|Hk].
  - exfalso. apply (H w). now left.
  - apply IH. intros v Hv. apply (H v). now right.
Qed.

(** When the submitted data has no weight, or no height, or one of them
    did not parse, the body mass index is NaN and the category shown is
    "Obese". *)
Theorem missing_measure_is_obese (inputData : list (string * number)) :
  (forall v, ~ In ("weight", v) inputData) \/
  (forall v, ~ In ("height", v) inputData) \/
  isNaN (get inputData "weight") = true \/
  isNaN (get inputData "height") = true ->
  isNaN (bmi_of inputData) = true /\
  getBMICategory (bmi_of inputData) = "Obese".
Proof.
  intros H.
  assert (Hn : get inputData "weight" = NaN \/ get inputData "height" = NaN).
  { destruct H as [H|[H|[H|H]]].
    - left. now apply get_missing.
    - right. now apply get_missing.
    - left. destruct (get inputData "weight"); try discriminate. reflexivity.
    - right. destruct (get inputData "height"); try discriminate. reflexivity. }
  assert (Hb : bmi_of inputData = NaN).
  { unfold bmi_of. destruct Hn as [-> | ->].
    - reflexivity.
    - change (div NaN (of_Z 100)) with NaN. rewrite mul_NaN_l.
      apply div_NaN_r. }
  rewrite Hb. split; reflexivity.
Qed.

Lemma missing_measure_is_obese_witness :
  getBMICategory (bmi_of [("height", of_Z 175)]) = "Obese".
Proof.
  apply (missing_measure_is_obese [("height", of_Z 175)]).
  left. intros v [H|[]]. discriminate.
Defined.

Lemma In_firstn_list {A : Type} (n : nat) (l : list A) (x : A) :
  In x (firstn n l) -> In x l.
Proof.
  intros H. rewrite <- (firstn_skipn n l). apply in_or_app. now left.
Qed.

Lemma In_if_nil {A : Type} (b : bool) (l : list A) (x : A) :
  In x (if b then l else []) -> In x l.
Proof. destruct b; [auto|intros []]. Qed.

(** [generateRecommendations] gives between three and eight items, and
    never one of its three fallback items: the general advice it always
    appends makes the fallback unreachable. *)
Theorem recommendations_bounded
    (prediction : string) (inputData : list (string * number)) (bmi : number) :
  let recs := generateRecommendations prediction inputData bmi in
  (3 <= List.length recs <= 8)%nat /\
  ~ In "Continue maintaining your current healthy lifestyle" recs /\
  ~ In "Schedule regular check-ups with your healthcare provider" recs /\
  ~ In "Stay physically active and eat a balanced diet" recs.
Proof.
  intros recs. unfold recs, generateRecommendations.
  set (r0 := if isHighRisk prediction then _ else []).
  set (r1 := if ge bmi (of_Z 30) then _ else _).
  set (r2 := if ge (get inputData "ap_hi") _ || _ then _ else []).
  set (r3 := if ge (get inputData "cholesterol") _ then _ else []).
  set (r4 := if ge (get inputData "gluc") _ then _ else []).
  set (r5 := if strict_eq (get inputData "smoke") _ then _ else []).
  set (r6 := if strict_eq (get inputData "alco") _ then _ else []).
  set (r7 := if strict_eq (get inputData "active") _ then _ else []).
  set (r8 := if ge (get inputData "age") (of_Z 65) then _ else []).
  set (r9 := if strict_eq (get inputData "gender") _ && _ then _ else []).
  set (r10 := [_; _; _]).
  set (all := (r0 ++ r1 ++ r2 ++ r3 ++ r4 ++ r5 ++ r6 ++ r7 ++ r8 ++ r9 ++ r10)%list).
  assert (Hlen : (3 <= List.length all)%nat).
  { unfold all. rewrite !length_app. cbn [List.length r10]. lia. }
  assert (Hall : match all with
                 | [] => [ "Continue maintaining your current healthy lifestyle";
                           "Schedule regular check-ups with your healthcare provider";
                           "Stay physically active and eat a balanced diet" ]
                 | _ => all
                 end = all).
  { destruct all; [cbn in Hlen; lia|reflexivity]. }
  rewrite Hall.
  assert (Hin : forall x, In x (firstn 8 all) ->
            In x
              [ "Consult with a cardiologist for comprehensive evaluation";
                "Consider cardiac screening tests (ECG, echocardiogram, stress test)";
                "Work with a nutritionist to develop a weight management plan";
                "Start with low-impact exercises like walking or swimming";
                "Maintain a balanced diet with portion control";
                "Incorporate regular physical activity (150 minutes/week)";
                "Monitor blood pressure regularly";
                "Reduce sodium intake and follow DASH diet principles";
                "Consider medication compliance if prescribed by doctor";
                "Follow a heart-healthy diet low in saturated fats";
                "Consider cholesterol-lowering medications if recommended";
                "Monitor blood glucose levels regularly";
                "Follow diabetic diet guidelines if applicable";
                "Maintain stable blood sugar through diet and exercise";
                "URGENT: Quit smoking - seek professional help if needed";
                "Consider nicotine replacement therapy or cessation programs";
                "Limit alcohol consumption to moderate levels";
                "Avoid binge drinking and consider alcohol-free days";
                "Start with light physical activities like walking";
                "Gradually increase exercise intensity and duration";
                "Aim for at least 150 minutes of moderate exercise weekly";
                "Schedule regular cardiac check-ups (every 6 months)";
                "Monitor for signs of heart disease more closely";
                "Discuss hormone replacement therapy risks/benefits with doctor";
                "Increase calcium and vitamin D intake for bone health";
                "Maintain regular sleep schedule (7-9 hours per night)";
                "Practice stress management techniques (meditation, yoga)";
                "Stay hydrated and maintain a balanced, nutritious diet" ]).
  { intros x Hx. apply In_firstn_list in Hx. unfold all in Hx.
    repeat (apply in_app_or in Hx as [Hx|Hx]).
    - apply In_if_nil in Hx. cbn in *. tauto.
    - unfold r1 in Hx. destruct (ge bmi (of_Z 30)); [cbn in *; tauto|].
      apply In_if_nil in Hx. cbn in *. tauto.
    - apply In_if_nil in Hx. cbn in *. tauto.
    - apply In_if_nil in Hx. cbn in *. tauto.
    - apply In_if_nil in Hx. cbn in *. tauto.
    - apply In_if_nil in Hx. cbn in *. tauto.
    - apply In_if_nil in Hx. cbn in *. tauto.
    - apply In_if_nil in Hx. cbn in *. tauto.
    - apply In_if_nil in Hx. cbn in *. tauto.
    - apply In_if_nil in Hx. cbn in *. tauto.
    - cbn in *. tauto. }
  split; [|repeat split; intros H; apply Hin in H; cbn in H;
           repeat (destruct H as [H|H]; [discriminate|]); exact H].
  rewrite length_firstn. lia.
Qed.

End CVMore.

(** ** Further properties of the lung-cancer forms *)

Module LungMore.
Import JS DOM JSFacts Samples.

Lemma validateBinaryFields_ok (dom : gmap string Element) (l : list string) :
  LungCancer.validateBinaryFields dom l = Normal None ->
  forall k, In k l ->
    exists input, dom !! k = Some input /\
      (strict_eq (parseInt (value input)) (of_Z 0) = true \/
       strict_eq (parseInt (value input)) (of_Z 1) = true).
Proof.
  induction l as [|f l IH]; intros H k Hk; [destruct Hk|].
  cbn [LungCancer.validateBinaryFields] in H.
  destruct (dom !! f) as [input|] eqn:Ef; [|discriminate].
  unfold Main.validateBinaryInput in H.
  destruct (isNaN (parseInt (value input)) || _) eqn:Et; [discriminate|].
  destruct Hk as [<-|Hk]; [|exact (IH H k Hk)].
  exists input. split; [exact Ef|]. now apply MainFacts.binary_test.
Qed.

Lemma mapM_In {A B : Type} (f : A -> option B) (l : list A) (k : list B) :
  mapM f l = Some k -> forall x, In x l -> exists y, f x = Some y /\ In y k.
Proof.
  intros H. apply mapM_Some in H. induction H as [|x y l k Hxy _ IH].
  - intros x [].
  - intros z [<-|Hz].
    + exists y. split; [exact Hxy|now left].
    + destruct (IH z Hz) as (w & Hw & Hin). exists w. split; [exact Hw|now right].
Qed.

(** The lung-cancer form either sends nothing or sends one request to
    [/lung-cancer/predict] whose body holds, for every binary field, the
    number 0 or 1. *)
Theorem lung_request_is_binary (f : LungCancer.Form) (eff : list Effect) :
  LungCancer.onSubmit f = Normal eff ->
  fetches eff = 0%nat \/
  exists body,
    eff = [Fetch "/lung-cancer/predict" body] /\
    forall k, In k LungCancer.binaryFields ->
      exists v, In (k, v) body /\
                (strict_eq v (of_Z 0) = true \/ strict_eq v (of_Z 1) = true).
Proof.
  unfold LungCancer.onSubmit, LungCancer.validateForm.
  destruct (LungCancer.inputs f !! "age") as [ageInput|]; [|discriminate].
  destruct (Main.validateNumericInput ageInput _ _ _) as [ok eff0] eqn:Ea.
  destruct ok; cbn [negb].
  2: { intros [= <-]. left. unfold Main.validateNumericInput in Ea.
       destruct (isNaN _); [now injection Ea as <-|].
       destruct (_ || _); [now injection Ea as <-|discriminate]. }
  destruct (LungCancer.validateBinaryFields _ _) as [[eff1|]|] eqn:Eb;
    [| |discriminate].
  { intros [= <-]. left.
    clear Ea. revert Eb. generalize LungCancer.binaryFields.
    intros l. induction l as [|g l IH]; cbn [LungCancer.validateBinaryFields];
      [discriminate|].
    destruct (LungCancer.inputs f !! g) as [input|]; [|discriminate].
    unfold Main.validateBinaryInput.
    destruct (isNaN _ || _); [intros [= <-]; reflexivity|exact IH]. }
  unfold Main.validateRadioSelection.
  destruct (LungCancer.radios f !! "gender") as [gender|] eqn:Eg;
    cbn [negb]; [|intros [= <-]; now left].
  unfold LungCancer.collectLungCancerData. rewrite Eg.
  destruct (LungCancer.inputs f !! "age") as [age|];
    [|intros [= <-]; now left].
  destruct (mapM _ LungCancer.binaryFields) as [rest|] eqn:Em;
    [|intros [= <-]; now left].
  intros [= <-]. right. eexists. split; [reflexivity|].
  intros k Hk.
  destruct (mapM_In _ _ _ Em k Hk) as (y & Hy & Hin).
  destruct (validateBinaryFields_ok _ _ Eb k Hk) as (input & Ei & Hv).
  rewrite Ei in Hy. injection Hy as <-.
  exists (parseInt (value input)). split; [now do 2 right|exact Hv].
Qed.

Lemma lung_request_is_binary_witness :
  exists body,
    LungCancer.onSubmit lung_filled
    = Normal [Fetch "/lung-cancer/predict" body] /\
    In ("smoking", of_Z 1) body /\
    forall k, In k LungCancer.binaryFields ->
      exists v, In (k, v) body /\
                (strict_eq v (of_Z 0) = true \/ strict_eq v (of_Z 1) = true).
Proof.
  destruct (LungCancer.onSubmit lung_filled) as [eff|] eqn:E;
    [|vm_compute in E; discriminate].
  destruct (lung_request_is_binary lung_filled eff E)
    as [Hnone|(body & Heff & Hbody)].
  - vm_compute in E. injection E as <-. discriminate.
  - exists body. subst eff. split; [reflexivity|]. split; [|exact Hbody].
    vm_compute in E. injection E as <-. cbn. tauto.
Defined.

Lemma le_refl_num (x : number) : isNaN x = false -> le x x = true.
Proof.
  unfold le, SFleb. destruct x as [s|s| |s m e]; cbn; try discriminate;
    intros _; try (destruct s; reflexivity).
  destruct s; rewrite Z.compare_refl;
    change (Pos.compare_cont Eq m m) with (Pos.compare m m);
    now rewrite Pos.compare_refl.
Qed.

(** The age check of the earlier lung-cancer form lets through exactly
    the ages from 0 to 120: an age of 0 passes, although the message asks
    for 1 to 120. *)
Theorem legacy_age_check
    (dom : gmap string Element) (input : Element) (rest : list string) :
  dom !! "age" = Some input ->
  let v := parseInt (value input) in
  (Covid.within (of_Z 0) (of_Z 120) v = true ->
     LungLegacy.checkFields dom ("age" :: rest)
     = LungLegacy.checkFields dom rest) /\
  (Covid.within (of_Z 0) (of_Z 120) v = false ->
     LungLegacy.checkFields dom ("age" :: rest)
     = Normal (Some [Alert "Please enter a valid age between 1 and 120";
                     Focus "age"])).
Proof.
  intros Hage v. cbn [LungLegacy.checkFields]. rewrite Hage. fold v.
  change (String.eqb "age" "age") with true. cbv iota.
  destruct (isNaN v) eqn:Hv.
  { cbn [orb]. split; [|reflexivity].
    intros H. apply CovidFacts.within_not_NaN in H. congruence. }
  cbn [orb]. split; intros Hin.
  - pose proof (CovidFacts.outside_is_not_within (of_Z 0) (of_Z 120) v
                  eq_refl eq_refl Hv) as Hout.
    rewrite Hin in Hout. cbn [negb] in Hout.
    apply orb_false_iff in Hout as [H0 H120]. rewrite H0. cbn [orb].
    destruct (gt v (of_Z 1)) eqn:H1; [|reflexivity].
    rewrite H120, orb_false_r.
    unfold gt in H1. now rewrite (lt_asym _ _ H1).
  - pose proof (CovidFacts.outside_is_not_within (of_Z 0) (of_Z 120) v
                  eq_refl eq_refl Hv) as Hout.
    rewrite Hin in Hout. cbn [negb] in Hout.
    apply orb_true_iff in Hout as [H0|H120].
    + rewrite H0. cbn [orb].
      now rewrite (lt_trans v (of_Z 0) (of_Z 1) H0 eq_refl).
    + change (gt v (of_Z 120)) with (lt (of_Z 120) v) in *.
      change (gt v (of_Z 1)) with (lt (of_Z 1) v).
      rewrite (lt_trans (of_Z 1) (of_Z 120) v eq_refl H120), orb_true_r.
      now rewrite H120, orb_true_r.
Qed.

Lemma legacy_age_check_witness :
  LungLegacy.checkFields {[ "age" := input "age" "0" ]} ["age"] = Normal None.
Proof.
  assert (Hage : ({[ "age" := input "age" "0" ]} : gmap string Element)
                 !! "age" = Some (input "age" "0"))
    by (vm_compute; reflexivity).
  destruct (legacy_age_check {[ "age" := input "age" "0" ]}
              (input "age" "0") [] Hage) as [H _].
  rewrite H; [reflexivity|vm_compute; reflexivity].
Defined.

End LungMore.

(** ** Further properties of the heart-disease form with blocking values *)

Module CardioMore.
Import JS DOM CardioBlocking JSFacts CovidFacts.








End CardioMore.

(** ** Further properties of the eye-image form *)

Module EyeMore.
Import JS DOM Eye JSFacts.

(** Removing the image does not cancel the read of its preview.  When a
    file is accepted, then removed, and its read completes afterwards,
    the preview of the removed file is displayed again although there is
    no current file and the analyze button is disabled. *)
Theorem late_read_shows_removed_file
    (dataURL : File -> string) (formatFileSize : Z -> string)
    (file : File) (d : Detector) :
  In (file_type file) validTypes ->
  file_size file <= 10485760 ->
  reads d = [] ->
  let d' := readComplete dataURL formatFileSize
              (removeImage (processFile file d)) in
  currentFile d' = None /\
  analyzeBtn_disabled d' = true /\
  imagePreview_display (preview d') = "block" /\
  uploadArea_display (preview d') = "none" /\
  imageName (preview d') = file_name file /\
  previewImage_src (preview d') = dataURL file.
Proof.
  intros Ht Hs Hr d'. unfold d', processFile.
  apply EyeFacts.validTypes_In in Ht. rewrite Ht. cbn [negb].
  destruct (Z.gtb_spec (file_size file) maxSize) as [H|_];
    [change maxSize with 10485760 in H; lia|].
  destruct d as [cf hr pv fv ad ld ec rc rd rq]. cbn [reads] in Hr. subst rd.
  repeat split.
Qed.

Lemma late_read_shows_removed_file_witness :
  imageName
    (preview
       (readComplete (fun f => file_name f) (fun _ => "2 KB")
          (removeImage
             (processFile (mkFile "eye.jpg" "image/jpeg" 2048)
                          Samples.eye_blank))))
  = "eye.jpg".
Proof.
  apply (late_read_shows_removed_file (fun f => file_name f) (fun _ => "2 KB")
           (mkFile "eye.jpg" "image/jpeg" 2048) Samples.eye_blank).
  - cbn. auto.
  - cbn. lia.
  - reflexivity.
Defined.

(** [analyzeImage] sends a request only when there is a current file; so
    with no current file, a file that [processFile] rejects cannot be
    analyzed: the error card is shown and nothing is sent. *)
Theorem rejected_file_is_not_sent (file : File) (d : Detector) :
  currentFile d = None ->
  ~ (In (file_type file) validTypes /\ file_size file <= 10485760) ->
  requests (analyzeImage (processFile file d)) = requests d /\
  card_display (errorCard (analyzeImage (processFile file d))) = "block" /\
  card_message (errorCard (analyzeImage (processFile file d)))
  = "Please select an image first".
Proof.
  intros Hc Hno.
  assert (E : currentFile (processFile file d) = None /\
              requests (processFile file d) = requests d).
  { unfold processFile.
    destruct (existsb (String.eqb (file_type file)) validTypes) eqn:Et;
      cbn [negb]; [|now split].
    destruct (Z.gtb_spec (file_size file) maxSize) as [H|H]; [now split|].
    exfalso. apply Hno. split; [now apply EyeFacts.validTypes_In|].
    change maxSize with 10485760 in H. lia. }
  destruct E as [E1 E2]. unfold analyzeImage. rewrite E1.
  unfold showError, hideResults. cbn [requests errorCard card_display card_message].
  rewrite E2. repeat split.
Qed.

Lemma rejected_file_is_not_sent_witness :
  requests
    (analyzeImage
       (processFile (mkFile "scan.pdf" "application/pdf" 100)
                    Samples.eye_blank)) = 0%nat.
Proof.
  apply (rejected_file_is_not_sent (mkFile "scan.pdf" "application/pdf" 100)
                                   Samples.eye_blank).
  - reflexivity.
  - cbn. intros [[H|[H|[H|[H|[H|[]]]]]] _]; discriminate.
Defined.

(** [formatClassName] replaces every underscore by a space, for the five
    listed classes as for any other name, and the result then contains no
    underscore: the lookup table changes nothing.  The exception is a name
    that every object inherits, such as "constructor": the lookup finds
    the inherited member and the function returns it instead of a
    string. *)
Theorem formatClassName_no_underscore (className : string) :
  (~ In className objectPrototypeKeys ->
     formatClassName className = Some (Main.underscoresToSpaces className) /\
     includes (Main.underscoresToSpaces className) "_" = false) /\
  (In className objectPrototypeKeys -> formatClassName className = None).
Proof.
  split.
  - intros Hn.
    assert (Ex : existsb (String.eqb className) objectPrototypeKeys = false).
    { apply not_true_iff_false. intros H. apply existsb_exists in H.
      destruct H as (k & Hk & He). apply String.eqb_eq in He. now subst k. }
    split.
    + unfold formatClassName, classNameMap. cbn [List.find fst].
      destruct (String.eqb_spec "Cataract" className) as [<-|_];
        [reflexivity|].
      destruct (String.eqb_spec "Diabetic_Retinopathy" className) as [<-|_];
        [reflexivity|].
      destruct (String.eqb_spec "Glaucoma" className) as [<-|_];
        [reflexivity|].
      destruct (String.eqb_spec "Normal" className) as [<-|_];
        [reflexivity|].
      destruct (String.eqb_spec "Other" className) as [<-|_];
        [reflexivity|].
      now rewrite Ex.
    + apply MainMore.noUnderscore_includes, MainMore.underscoresToSpaces_clean.
  - intros Hin. cbn in Hin.
    repeat (destruct Hin as [<-|Hin]; [reflexivity|]). destruct Hin.
Qed.

Lemma formatClassName_no_underscore_witness :
  formatClassName "Diabetic_Retinopathy" = Some "Diabetic Retinopathy" /\
  formatClassName "toString" = None.
Proof.
  split.
  - destruct (formatClassName_no_underscore "Diabetic_Retinopathy") as [H _].
    apply H. cbn. intros H'.
    repeat (destruct H' as [H'|H']; [discriminate|]). destruct H'.
  - destruct (formatClassName_no_underscore "toString") as [_ H].
    apply H. cbn. tauto.
Defined.

End EyeMore.

(** ** Properties of sign-in and registration *)

Module AuthFacts.
Import JS DOM Auth JSFacts.

Lemma allChars_app (f : ascii -> bool) (a b : string) :
  allChars f (a +:+ b) = allChars f a && allChars f b.
Proof.
  induction a as [|c a IH]; [reflexivity|].
  rewrite app_cons. cbn [allChars]. now rewrite IH, andb_assoc.
Qed.

Lemma domainPart_spec (seen : bool) (s : string) :
  domainPart seen s = true <->
  exists b c, s = b +:+ "." +:+ c /\ (seen = true \/ b <> "") /\ c <> "" /\
              allChars isAddressChar b = true /\
              allChars isAddressChar c = true.
Proof.
  revert seen. induction s as [|ch s IH]; intros seen.
  - cbn [domainPart]. split; [discriminate|].
    intros (b & c & E & _). destruct b; discriminate.
  - cbn [domainPart]. rewrite orb_true_iff, !andb_true_iff, negb_true_iff.
    rewrite (IH true). split.
    + intros [[[[Hseen Hdot] Hne] Hall]|[Hch (b & c & -> & _ & Hc & Hb & Hcc)]].
      * apply Ascii.eqb_eq in Hdot. subst ch.
        exists "", s. repeat split; auto.
        intros ->. discriminate.
      * exists (String ch b), c. rewrite app_cons.
        repeat split; auto; try (right; discriminate).
        cbn [allChars]. now rewrite Hch, Hb.
    + intros (b & c & E & Hseen & Hc & Hb & Hcc). destruct b as [|x b].
      * rewrite app_nil in E. change ("." +:+ c) with (String "." c) in E.
        injection E as -> ->. left.
        destruct Hseen as [->|H]; [|contradiction].
        repeat split; auto.
        destruct (String.eqb_spec c ""); [contradiction|reflexivity].
      * rewrite app_cons in E. injection E as -> ->. right.
        cbn [allChars] in Hb. apply andb_true_iff in Hb as [Hx Hb].
        split; [exact Hx|]. exists b, c. repeat split; auto.
Qed.

Lemma localPart_spec (seen : bool) (s : string) :
  localPart seen s = true <->
  exists a r, s = a +:+ "@" +:+ r /\ (seen = true \/ a <> "") /\
              allChars isAddressChar a = true /\
              domainPart false r = true.
Proof.
  revert seen. induction s as [|ch s IH]; intros seen.
  - cbn [localPart]. split; [discriminate|].
    intros (a & r & E & _). destruct a; discriminate.
  - cbn [localPart]. destruct (Ascii.eqb_spec ch "@") as [->|Hch].
    + rewrite andb_true_iff. split.
      * intros [Hseen Hd]. exists "", s. repeat split; auto.
      * intros (a & r & E & Hseen & Ha & Hd). destruct a as [|x a].
        -- rewrite app_nil in E. change ("@" +:+ r) with (String "@" r) in E.
           injection E as ->. destruct Hseen as [->|H]; [auto|contradiction].
        -- rewrite app_cons in E. injection E as <- ->.
           cbn [allChars] in Ha. discriminate Ha.
    + rewrite andb_true_iff, (IH true). split.
      * intros [Hc (a & r & -> & _ & Ha & Hd)].
        exists (String ch a), r. rewrite app_cons.
        repeat split; auto; try (right; discriminate).
        cbn [allChars]. now rewrite Hc, Ha.
      * intros (a & r & E & Hseen & Ha & Hd). destruct a as [|x a].
        -- rewrite app_nil in E. change ("@" +:+ r) with (String "@" r) in E.
           injection E as -> ->. contradiction.
        -- rewrite app_cons in E. injection E as -> ->.
           cbn [allChars] in Ha. apply andb_true_iff in Ha as [Hx Ha].
           split; [exact Hx|]. exists a, r. repeat split; auto.
Qed.

(** [isValidEmail] accepts exactly the strings of the form
    local@domain.rest where the three parts are not empty and hold
    neither white space nor "@". *)
Theorem isValidEmail_shape (email : string) :
  isValidEmail email = true <->
  exists a b c,
    email = a +:+ "@" +:+ b +:+ "." +:+ c /\
    a <> "" /\ b <> "" /\ c <> "" /\
    allChars isAddressChar a = true /\
    allChars isAddressChar b = true /\
    allChars isAddressChar c = true.
Proof.
  unfold isValidEmail. rewrite localPart_spec. split.
  - intros (a & r & -> & Hseen & Ha & Hd).
    apply domainPart_spec in Hd as (b & c & -> & Hb & Hc & Hbb & Hcc).
    exists a, b, c. repeat split; auto.
    + destruct Hseen as [H|H]; [discriminate|exact H].
    + destruct Hb as [H|H]; [discriminate|exact H].
  - intros (a & b & c & -> & Ha & Hb & Hc & Haa & Hbb & Hcc).
    exists a, (b +:+ "." +:+ c). repeat split; auto.
    apply domainPart_spec. exists b, c. repeat split; auto.
Qed.

Lemma lower_ascii_alnum (c : ascii) : isAlnum (lower_ascii c) = isAlnum c.
Proof. destruct c as [[] [] [] [] [] [] [] []]; reflexivity. Qed.

Lemma keepAlnum_alnum (s : string) : allChars isAlnum (keepAlnum s) = true.
Proof.
  induction s as [|c s IH]; [reflexivity|].
  cbn [keepAlnum]. destruct (isAlnum c) eqn:E; [|exact IH].
  cbn [allChars]. now rewrite E, IH.
Qed.

Lemma toLowerCase_alnum (s : string) :
  allChars isAlnum (toLowerCase s) = allChars isAlnum s.
Proof.
  induction s as [|c s IH]; [reflexivity|].
  cbn [toLowerCase allChars]. now rewrite lower_ascii_alnum, IH.
Qed.

(** A user name that [completeGoogleRegistration] fills in from the
    Google display name always passes [isValidUsername]. *)
Theorem prefilled_username_is_valid (name u : string) :
  prefillUsername name = Some u -> isValidUsername u = true.
Proof.
  unfold prefillUsername. destruct (String.eqb name ""); [discriminate|].
  destruct (Nat.leb 3 _ && Nat.leb _ 20) eqn:E; [|discriminate].
  intros [= <-]. unfold isValidUsername.
  rewrite toLowerCase_alnum, keepAlnum_alnum. cbn [andb]. exact E.
Qed.

Lemma prefilled_username_is_valid_witness :
  isValidUsername "adalovelace" = true.
Proof.
  apply (prefilled_username_is_valid "Ada Lovelace" "adalovelace").
  reflexivity.
Defined.

(** When [validateRegistrationForm] accepts, no message is shown, the user
    name has 3 to 20 letters and digits and the age parses to a number
    from 1 to 120; for a registration without Google, the email address
    also has a valid form and the password at least 6 characters.  When
    it rejects, exactly one message is shown. *)
Theorem registration_accepts_valid_data
    (formData : RegistrationData) (isGoogleRegistration : bool) :
  (fst (validateRegistrationForm formData isGoogleRegistration) = true ->
     snd (validateRegistrationForm formData isGoogleRegistration) = None /\
     isValidUsername (username formData) = true /\
     Covid.within (of_Z 1) (of_Z 120) (parseInt (age formData)) = true /\
     (isGoogleRegistration = false ->
        exists e pw,
          email formData = Some e /\ isValidEmail e = true /\
          password formData = Some pw /\ (6 <= String.length pw)%nat)) /\
  (fst (validateRegistrationForm formData isGoogleRegistration) = false ->
     exists message,
       snd (validateRegistrationForm formData isGoogleRegistration)
       = Some message).
Proof.
  unfold validateRegistrationForm.
  destruct (negb isGoogleRegistration
            && (missing (email formData) || missing (password formData)))
    eqn:E1; [split; [discriminate|eauto]|].
  destruct (negb isGoogleRegistration
            && negb (isValidEmail (default "" (email formData))))
    eqn:E2; [split; [discriminate|eauto]|].
  destruct (negb isGoogleRegistration
            && Nat.ltb (String.length (default "" (password formData))) 6)
    eqn:E3; [split; [discriminate|eauto]|].
  destruct (String.eqb (username formData) "");
    [split; [discriminate|eauto]|].
  destruct (isValidUsername (username formData)) eqn:E5; cbn [negb];
    [|split; [discriminate|eauto]].
  destruct (String.eqb (age formData) "");
    [split; [discriminate|eauto]|].
  destruct (isValidAge (age formData)) eqn:E7; cbn [negb];
    [|split; [discriminate|eauto]].
  split; [|discriminate]. intros _. repeat split.
  - unfold isValidAge in E7. apply andb_true_iff in E7 as [E7 H120].
    apply andb_true_iff in E7 as [_ H1].
    unfold Covid.within. change (ge ?x ?y) with (le y x) in H1.
    now rewrite H1, H120.
  - intros ->. cbn [negb andb] in E1, E2, E3.
    apply orb_false_iff in E1 as [Ee Ep].
    destruct (email formData) as [e|]; [|discriminate].
    destruct (password formData) as [pw|]; [|discriminate].
    exists e, pw. cbn [default] in E2, E3.
    apply negb_false_iff in E2. apply Nat.ltb_ge in E3. auto.
Qed.

Lemma registration_accepts_valid_data_witness :
  isValidUsername "ada42" = true.
Proof.
  destruct (registration_accepts_valid_data
              (mkRegistration (Some "ada@example.org") (Some "secret1")
                              "ada42" "36" "London") false) as [H _].
  apply H. reflexivity.
Defined.

End AuthFacts.

(** ** The submit button after a request, in the two scripts that send one *)

Module AfterRequest.
Import JS DOM JSFacts.

(** In the COVID form, the end of a request enables the submit button
    whatever the fields hold: also when a required field is missing, empty
    or marked invalid, where [updateSubmitButton] would disable it. *)
Theorem covid_settle_enables (p : Covid.Page) (b : Button) (f : string) :
  Covid.submitBtn p = Some b ->
  In f Covid.requiredFields ->
  Covid.filled (Covid.fields p) f = false ->
  Covid.submitBtn (Covid.settle p)
  = Some (mkButton false "Get COVID-19 Assessment") /\
  Covid.submitBtn (Covid.updateSubmitButton (Covid.settle p))
  = Some (mkButton true "Get COVID-19 Assessment").
Proof.
  intros Hb Hf Hbad. unfold Covid.settle. rewrite Hb.
  split; [reflexivity|]. unfold Covid.updateSubmitButton.
  cbn [Covid.submitBtn Covid.fields Covid.progressBar Covid.pending
       textContent].
  assert (E : forallb (Covid.filled (Covid.fields p)) Covid.requiredFields
              = false).
  { apply not_true_iff_false. intros H. rewrite forallb_forall in H.
    specialize (H f Hf). congruence. }
  now rewrite E.
Qed.

Lemma covid_settle_enables_witness :
  Covid.submitBtn
    (Covid.settle
       (Covid.mkPage {[ "age" := Samples.input "age" "" ]}
                     (Some (mkButton true "Analyzing...")) None 1))
  = Some (mkButton false "Get COVID-19 Assessment").
Proof.
  apply (covid_settle_enables
           (Covid.mkPage {[ "age" := Samples.input "age" "" ]}
                         (Some (mkButton true "Analyzing...")) None 1)
           (mkButton true "Analyzing...") "age").
  - reflexivity.
  - cbn. auto.
  - vm_compute. reflexivity.
Defined.

(** In the heart-disease form of [cardiovascular.js], the end of a request
    leaves the submit button disabled exactly when some field is missing,
    empty or marked invalid. *)
Theorem cardiovascular_settle_rechecks (p : Cardiovascular.Page) (b : Button) :
  Cardiovascular.submitBtn p = Some b ->
  exists b',
    Cardiovascular.submitBtn (Cardiovascular.settle p) = Some b' /\
    (disabled b' = true <->
     exists f, In f Cardiovascular.keys /\
               Covid.filled (Cardiovascular.fields p) f = false).
Proof.
  intros Hb. unfold Cardiovascular.settle, Cardiovascular.updateSubmitButton.
  rewrite Hb. cbn [Cardiovascular.submitBtn Cardiovascular.fields].
  eexists. split; [reflexivity|]. cbn [disabled].
  rewrite negb_true_iff, <- not_true_iff_false, forallb_forall. split.
  - intros H.
    destruct (existsb (fun f => negb (Covid.filled (Cardiovascular.fields p) f))
                      Cardiovascular.keys) eqn:E.
    + apply existsb_exists in E as (f & Hf & Hn).
      exists f. split; [exact Hf|now apply negb_true_iff].
    + exfalso. apply H. intros f Hf.
      destruct (Covid.filled (Cardiovascular.fields p) f) eqn:Ef;
        [reflexivity|].
      assert (Hex : existsb
                      (fun f => negb (Covid.filled (Cardiovascular.fields p) f))
                      Cardiovascular.keys = true).
      { apply existsb_exists. exists f. now rewrite Ef. }
      congruence.
  - intros (f & Hf & Hn) H. specialize (H f Hf). congruence.
Qed.

Lemma cardiovascular_settle_rechecks_witness :
  exists b',
    Cardiovascular.submitBtn
      (Cardiovascular.settle
         (Cardiovascular.mkPage ∅ (Some (mkButton true "Analyzing Risk...")) 1))
    = Some b' /\
    (disabled b' = true <->
     exists f, In f Cardiovascular.keys /\
               Covid.filled (∅ : gmap string Element) f = false).
Proof.
  apply (cardiovascular_settle_rechecks
           (Cardiovascular.mkPage ∅ (Some (mkButton true "Analyzing Risk...")) 1)
           (mkButton true "Analyzing Risk...")).
  reflexivity.
Defined.

(** In both heart-disease scripts a select field is never checked against
    its declared options: any value that is not empty is accepted and
    marked valid. *)
Theorem select_accepts_any_value
    (field : Element) (cfg : CardioBlocking.FieldConfig) :
  value field <> "" ->
  CardioBlocking.type cfg = CardioBlocking.select_field ->
  (Cardiovascular.config (CardioBlocking.fieldName field) = Some cfg ->
     fst (Cardiovascular.validateField field) = true /\
     contains (classList (snd (Cardiovascular.validateField field))) "valid"
     = true) /\
  (CardioBlocking.config (CardioBlocking.fieldName field) = Some cfg ->
     fst (CardioBlocking.validateField field) = true /\
     contains (classList (snd (CardioBlocking.validateField field))) "valid"
     = true).
Proof.
  intros Hne Ht. split; intros Hc.
  - unfold Cardiovascular.validateField. rewrite Hc, Ht.
    cbn [value set_classList classList].
    destruct (String.eqb_spec (value field) ""); [contradiction|].
    cbn [fst snd classList set_classList]. split; [reflexivity|].
    rewrite CovidFacts.contains_add, String.eqb_refl. apply orb_true_r.
  - unfold CardioBlocking.validateField. rewrite Hc, Ht.
    cbn [value set_classList classList].
    destruct (String.eqb_spec (value field) ""); [contradiction|].
    cbn [fst snd classList set_classList]. split; [reflexivity|].
    rewrite CovidFacts.contains_add, String.eqb_refl. apply orb_true_r.
Qed.

Lemma select_accepts_any_value_witness :
  fst (Cardiovascular.validateField (Samples.input "thal" "9")) = true.
Proof.
  destruct (select_accepts_any_value (Samples.input "thal" "9")
              (CardioBlocking.mkConfig CardioBlocking.select_field NaN NaN))
    as [H _].
  - discriminate.
  - reflexivity.
  - apply H. reflexivity.
Defined.

End AfterRequest.
